(** * ogit: a Git smart-protocol server over HTTP and SSH with local and
    S3 storage back ends.

    Shallow embedding of the storage engine (S3 storer and repository
    registry), of the name normalisation shared by the entry points, of the
    HTTP advertisement framing and of the HTTP and SSH session drivers,
    together with the properties stated about them.

    Conventions.  A Go [string] is a sequence of bytes and is modelled by
    [string] (a list of 8-bit [ascii]).  A Go [error] value is modelled by
    the type [error]; a nil-able error by [option error].  Functions that
    touch a store thread it explicitly.  The library functions of Go and of
    go-git which the code calls are embedded from their documentation, each
    in a module named after its package. *)

From Stdlib Require Import ZArith Ascii String List Bool Lia.
From stdpp Require Import base option gmap strings list sorting.

Local Open Scope string_scope.
Local Open Scope list_scope.

(** ** Go's [strings] package (the functions the code uses) *)

Module strings.

(** White space.  [strings.TrimSpace] and [strings.Fields] follow Unicode:
    the six of ASCII (tab, line feed, vertical tab, form feed, carriage
    return, space), and the code points U+0085, U+00A0, U+1680, U+2000 to
    U+200A, U+2028, U+2029, U+202F, U+205F and U+3000, which UTF-8 writes
    in two or three bytes. *)
Definition isSpace (c : ascii) : bool :=
  let n := N_of_ascii c in
  ((9 <=? n) && (n <=? 13) || (n =? 32))%N.

(** [C2 85] and [C2 A0] *)
Definition isSpace2 (c1 c2 : ascii) : bool :=
  let a := N_of_ascii c1 in
  let b := N_of_ascii c2 in
  ((a =? 194) && ((b =? 133) || (b =? 160)))%N.

(** [E1 9A 80]; [E2 80 80] to [E2 80 8A], [E2 80 A8], [E2 80 A9],
    [E2 80 AF]; [E2 81 9F]; [E3 80 80] *)
Definition isSpace3 (c1 c2 c3 : ascii) : bool :=
  let a := N_of_ascii c1 in
  let b := N_of_ascii c2 in
  let c := N_of_ascii c3 in
  ((a =? 225) && (b =? 154) && (c =? 128)
   || (a =? 226) && (b =? 128)
      && ((128 <=? c) && (c <=? 138) || (c =? 168) || (c =? 169) || (c =? 175))
   || (a =? 226) && (b =? 129) && (c =? 159)
   || (a =? 227) && (b =? 128) && (c =? 128))%N.

(** Drop the white space a string begins with. *)
Fixpoint trimLeft (s : string) : string :=
  match s with
  | EmptyString => EmptyString
  | String c1 s1 =>
      if isSpace c1 then trimLeft s1
      else
        match s1 with
        | EmptyString => s
        | String c2 s2 =>
            if isSpace2 c1 c2 then trimLeft s2
            else
              match s2 with
              | EmptyString => s
              | String c3 s3 => if isSpace3 c1 c2 c3 then trimLeft s3 else s
              end
        end
  end.

(** Drop the longest suffix that is white space throughout. *)
Fixpoint trimRight (s : string) : string :=
  match s with
  | EmptyString => EmptyString
  | String c s' =>
      match trimLeft s with
      | EmptyString => EmptyString
      | _ => String c (trimRight s')
      end
  end.

Definition TrimSpace (s : string) : string := trimRight (trimLeft s).

Fixpoint dropWhile (p : ascii -> bool) (s : string) : string :=
  match s with
  | EmptyString => EmptyString
  | String c s' => if p c then dropWhile p s' else s
  end.

(** Drop the longest suffix of bytes that satisfy [p]. *)
Fixpoint dropWhileEnd (p : ascii -> bool) (s : string) : string :=
  match s with
  | EmptyString => EmptyString
  | String c s' =>
      match dropWhileEnd p s' with
      | EmptyString => if p c then EmptyString else String c EmptyString
      | r => String c r
      end
  end.

Fixpoint containsChar (cutset : string) (c : ascii) : bool :=
  match cutset with
  | EmptyString => false
  | String d cutset' => Ascii.eqb c d || containsChar cutset' c
  end.

(** [Trim] for a cut set of ASCII bytes, the only use in the code. *)
Definition Trim (s cutset : string) : string :=
  dropWhileEnd (containsChar cutset) (dropWhile (containsChar cutset) s).

Definition HasPrefix (s prefix : string) : bool := String.prefix prefix s.

(** [s[n:]] and [s[:n]] for [n <= len(s)]. *)
Fixpoint sliceFrom (n : nat) (s : string) : string :=
  match n, s with
  | O, _ => s
  | S n', String _ s' => sliceFrom n' s'
  | S _, EmptyString => EmptyString
  end.

Fixpoint sliceTo (n : nat) (s : string) : string :=
  match n, s with
  | S n', String c s' => String c (sliceTo n' s')
  | _, _ => EmptyString
  end.

(** [len(s) >= len(suffix) && s[len(s)-len(suffix):] == suffix] *)
Definition HasSuffix (s suffix : string) : bool :=
  Nat.leb (String.length suffix) (String.length s)
  && String.eqb (sliceFrom (String.length s - String.length suffix) s) suffix.

Definition TrimPrefix (s prefix : string) : string :=
  if HasPrefix s prefix then sliceFrom (String.length prefix) s else s.

Definition TrimSuffix (s suffix : string) : string :=
  if HasSuffix s suffix
  then sliceTo (String.length s - String.length suffix) s
  else s.

(** [Index] and [LastIndex] return [-1] when [substr] does not occur. *)
Fixpoint indexFrom (i : Z) (s substr : string) : Z :=
  if String.prefix substr s then i
  else match s with
       | EmptyString => (-1)%Z
       | String _ s' => indexFrom (i + 1) s' substr
       end.

Definition Index (s substr : string) : Z := indexFrom 0 s substr.

Fixpoint lastIndexFrom (i : Z) (s substr : string) (found : Z) : Z :=
  let found' := if String.prefix substr s then i else found in
  match s with
  | EmptyString => found'
  | String _ s' => lastIndexFrom (i + 1) s' substr found'
  end.

Definition LastIndex (s substr : string) : Z :=
  lastIndexFrom 0 s substr (-1).

Definition Contains (s substr : string) : bool :=
  Z.leb 0 (Index s substr).

(** [Fields]: the maximal runs of bytes between white space. *)
Definition flushField (cur : string) (rest : list string) : list string :=
  match cur with
  | EmptyString => rest
  | _ => String.rev cur :: rest
  end.

Fixpoint fieldsAux (cur : string) (s : string) : list string :=
  match s with
  | EmptyString => flushField cur []
  | String c1 s1 =>
      if isSpace c1 then flushField cur (fieldsAux EmptyString s1)
      else
        match s1 with
        | EmptyString => fieldsAux (String c1 cur) s1
        | String c2 s2 =>
            if isSpace2 c1 c2 then flushField cur (fieldsAux EmptyString s2)
            else
              match s2 with
              | EmptyString => fieldsAux (String c1 cur) s1
              | String c3 s3 =>
                  if isSpace3 c1 c2 c3 then flushField cur (fieldsAux EmptyString s3)
                  else fieldsAux (String c1 cur) s1
              end
        end
  end.

Definition Fields (s : string) : list string := fieldsAux EmptyString s.

Fixpoint Join (elems : list string) (sep : string) : string :=
  match elems with
  | [] => EmptyString
  | [e] => e
  | e :: rest => e +:+ sep +:+ Join rest sep
  end.

(** [Split] for a one-byte separator, the only use in the code. *)
Fixpoint splitAux (sep : ascii) (cur : string) (s : string) : list string :=
  match s with
  | EmptyString => [String.rev cur]
  | String c s' =>
      if Ascii.eqb c sep
      then String.rev cur :: splitAux sep EmptyString s'
      else splitAux sep (String c cur) s'
  end.

Definition Split (s : string) (sep : ascii) : list string :=
  splitAux sep EmptyString s.

End strings.

(** ** Go's [path] and [path/filepath] packages (slash-separated paths) *)

Module path.

(** [Clean] by its documented rules: collapse repeated slashes, drop [.]
    elements, resolve inner [..] elements against the element before
    them, drop [..] elements that begin a rooted path; the empty result
    is [.]. *)
Fixpoint cleanElems (rooted : bool) (stack : list string)
         (elems : list string) : list string :=
  match elems with
  | [] => rev stack
  | e :: rest =>
      if String.eqb e "" || String.eqb e "." then cleanElems rooted stack rest
      else if String.eqb e ".." then
        match stack with
        | top :: stack' =>
            if String.eqb top ".."
            then cleanElems rooted (e :: stack) rest
            else cleanElems rooted stack' rest
        | [] =>
            if rooted then cleanElems rooted [] rest
            else cleanElems rooted [e] rest
        end
      else cleanElems rooted (e :: stack) rest
  end.

Definition Clean (p : string) : string :=
  match p with
  | EmptyString => "."
  | _ =>
      let rooted := strings.HasPrefix p "/" in
      let body := strings.Join (cleanElems rooted [] (strings.Split p "/")) "/" in
      if rooted then "/" +:+ body
      else match body with EmptyString => "." | _ => body end
  end.

(** [Join]: the non-empty elements joined by slashes, then cleaned; the
    empty string when every element is empty. *)
Definition Join (elems : list string) : string :=
  match filter (fun e => e ≠ "") elems with
  | [] => ""
  | es => Clean (strings.Join es "/")
  end.

(** [Base]: the last element of the path. *)
Definition Base (p : string) : string :=
  match p with
  | EmptyString => "."
  | _ =>
      match strings.dropWhileEnd (Ascii.eqb "/") p with
      | EmptyString => "/"
      | q => List.last (strings.Split q "/") ""
      end
  end.

End path.

(** ** Errors and writers *)

(** A Go [error]: an [errors.New]/[fmt.Errorf] value carrying its message,
  or a [*fiber.Error] carrying an HTTP status code as well. *)
Inductive error : Type :=
| ErrorString (msg : string)
| FiberError (code : Z) (msg : string).

Definition Error (e : error) : string :=
match e with
| ErrorString msg => msg
| FiberError _ msg => msg
end.

Global Instance error_eq_dec : EqDecision error.
Proof. solve_decision. Defined.

(** [io.Writer]: a write yields the writer afterwards and possibly an
  error. *)
Class Writer (W : Type) := Write : W -> string -> W * option error.

(** A [bytes.Buffer]-like writer, which accepts everything. *)
Record Buffer := mkBuffer { buf_bytes : string }.

Global Instance Buffer_Writer : Writer Buffer :=
fun w p => (mkBuffer (buf_bytes w +:+ p), None).

(** A writer over a medium with a fixed capacity, which refuses a write
  that does not fit. *)
Record LimitedWriter := mkLimited { lw_bytes : string; lw_room : nat }.

Global Instance Limited_Writer : Writer LimitedWriter :=
fun w p =>
  if Nat.leb (String.length p) (lw_room w)
  then (mkLimited (lw_bytes w +:+ p) (lw_room w - String.length p), None)
  else (w, Some (ErrorString "short write")).

Definition nl : string := String "010" EmptyString.
Definition tab : string := String "009" EmptyString.

(** [fmt.Errorf("<msg>: %w", err)] *)
Definition wrapError (msg : string) (err : error) : error :=
ErrorString (msg +:+ ": " +:+ Error err).

(** ** [io.Reader] and [io.ReadAll] *)

Module io.

(** A stream that delivers [rd_data], unless reading it breaks with
    [rd_err]. *)
Record Reader := mkReader { rd_data : string; rd_err : option error }.

Definition ReadAll (r : Reader) : error + string :=
  match rd_err r with
  | Some err => inl err
  | None => inr (rd_data r)
  end.

End io.

(** ** go-git's [plumbing] package: object types, hashes, references *)

Module plumbing.

Inductive ObjectType : Type :=
| InvalidObject | CommitObject | TreeObject | BlobObject | TagObject
| OFSDeltaObject | REFDeltaObject | AnyObject.

Global Instance ObjectType_eq_dec : EqDecision ObjectType.
Proof. solve_decision. Defined.

Definition ObjectType_String (t : ObjectType) : string :=
  match t with
  | CommitObject => "commit"
  | TreeObject => "tree"
  | BlobObject => "blob"
  | TagObject => "tag"
  | OFSDeltaObject => "ofs-delta"
  | REFDeltaObject => "ref-delta"
  | AnyObject => "any"
  | InvalidObject => "unknown"
  end.

(** A [Hash] is an array of 20 bytes. *)
Definition Hash : Type := list ascii.

Definition wf_hash (h : Hash) : Prop := length h = 20%nat.

Definition ZeroHash : Hash := repeat zero 20.

Definition hexdigit (n : N) : ascii :=
  match String.get (N.to_nat n) "0123456789abcdef" with
  | Some c => c
  | None => "0"%char
  end.

(** [Hash.String]: lower-case hexadecimal, two digits a byte. *)
Fixpoint Hash_String (h : Hash) : string :=
  match h with
  | [] => EmptyString
  | b :: h' =>
      let n := N_of_ascii b in
      String (hexdigit (n / 16)) (String (hexdigit (n mod 16)) (Hash_String h'))
  end.

(** [encoding/hex]: the value of a hexadecimal digit of either case. *)
Definition fromHexChar (c : ascii) : option N :=
  let n := N_of_ascii c in
  if (48 <=? n)%N && (n <=? 57)%N then Some (n - 48)%N
  else if (97 <=? n)%N && (n <=? 102)%N then Some (n - 97 + 10)%N
  else if (65 <=? n)%N && (n <=? 70)%N then Some (n - 65 + 10)%N
  else None.

(** [hex.DecodeString], which returns the bytes decoded before the first
    malformed pair. *)
Fixpoint hexDecode (s : string) : list ascii :=
  match s with
  | String a (String b rest) =>
      match fromHexChar a, fromHexChar b with
      | Some x, Some y => ascii_of_N (x * 16 + y) :: hexDecode rest
      | _, _ => []
      end
  | _ => []
  end.

(** [NewHash]: decode, then copy into a zeroed array of 20 bytes. *)
Definition NewHash (s : string) : Hash :=
  take 20 (hexDecode s ++ ZeroHash).

Definition ReferenceName : Type := string.

Definition HEAD : ReferenceName := "HEAD".

Definition IsBranch (r : ReferenceName) : bool := strings.HasPrefix r "refs/heads/".
Definition IsRemote (r : ReferenceName) : bool := strings.HasPrefix r "refs/remotes/".
Definition IsTag (r : ReferenceName) : bool := strings.HasPrefix r "refs/tags/".

Inductive ReferenceType : Type :=
| InvalidReference | HashReference | SymbolicReference.

Global Instance ReferenceType_eq_dec : EqDecision ReferenceType.
Proof. solve_decision. Defined.

(** The [Reference] struct, with its four fields. *)
Record Reference := mkReference {
  ref_t : ReferenceType;
  ref_n : ReferenceName;
  ref_h : Hash;
  ref_target : ReferenceName
}.

Global Instance Reference_eq_dec : EqDecision Reference.
Proof. solve_decision. Defined.

Definition NewHashReference (n : ReferenceName) (h : Hash) : Reference :=
  mkReference HashReference n h "".

Definition NewSymbolicReference (n target : ReferenceName) : Reference :=
  mkReference SymbolicReference n ZeroHash target.

(** The [EncodedObject] interface, by what the storer observes of an
    object: its type, the value of [Hash()], and the outcome of
    [Reader()]. *)
Record EncodedObject := mkEncodedObject {
  eo_Type : ObjectType;
  eo_Hash : Hash;
  eo_Reader : error + io.Reader
}.

(** [MemoryObject]: type, cached hash, content and declared size. *)
Record MemoryObject := mkMemoryObject {
  mo_t : ObjectType;
  mo_h : Hash;
  mo_cont : string;
  mo_sz : Z
}.

Definition ErrObjectNotFound : error := ErrorString "object not found".
Definition ErrInvalidType : error := ErrorString "invalid object type".
Definition ErrReferenceNotFound : error := ErrorString "reference not found".

End plumbing.

(** go-git's [object] package: signatures and commits as the code fills
  them in. *)
Module object.

Record Signature := mkSignature {
  sig_Name : string;
  sig_Email : string;
  sig_When : Z
}.

Record Commit := mkCommit {
  Author : Signature;
  Committer : Signature;
  Message : string;
  TreeHash : plumbing.Hash;
  ParentHashes : list plumbing.Hash
}.

End object.

(** The functions of go-git which the storer relies on and whose
  definitions lie outside this code base. *)
Class GoGit := {
(** [plumbing.ComputeHash], that is [NewHasher(t, len).Write(content).Sum()] *)
ComputeHash : plumbing.ObjectType -> string -> plumbing.Hash;
(** [ReferenceName.Short] *)
Short : plumbing.ReferenceName -> string;
(** [config.Config], its zero value, and [Unmarshal]/[Marshal] *)
config_Config : Type;
Config_zero : config_Config;
Config_Unmarshal : string -> config_Config * option error;
Config_Marshal : config_Config -> error + string;
(** [object.Tree.Encode] over the entries (name, mode, hash) *)
Tree_Encode : list (string * Z * plumbing.Hash) -> error + plumbing.MemoryObject;
(** [object.Commit.Encode] *)
Commit_Encode : object.Commit -> error + plumbing.MemoryObject
}.

(** ** The blob store behind the AWS S3 client *)

Module awss3.

(** A stored blob: its bytes and its user metadata (a nil metadata map
    and an empty one look up alike). *)
Record Object := mkObject {
  Body : string;
  Metadata : gmap string string
}.

(** What the network does to a request on a key: nothing, fail the
    request, or deliver the response and then break its body stream. *)
Inductive NetCond : Type := Healthy | RequestFails | BodyReadFails.

(** The client together with the store it talks to: the blobs by bucket
    and key, and the condition of the network for each key. *)
Record Client := mkClient {
  objects : gmap (string * string) Object;
  net : string -> NetCond
}.

Record GetObjectOutput := mkGetObjectOutput {
  out_Body : io.Reader;
  out_Metadata : gmap string string
}.

Definition errRequest : error := ErrorString "operation error S3: request failed".
Definition errNoSuchKey : error := ErrorString "operation error S3: NoSuchKey".
Definition errBody : error := ErrorString "unexpected EOF".

Definition GetObject (c : Client) (bucket key : string) : error + GetObjectOutput :=
  match net c key with
  | RequestFails => inl errRequest
  | cond =>
      match objects c !! (bucket, key) with
      | None => inl errNoSuchKey
      | Some o =>
          inr (mkGetObjectOutput
                 (io.mkReader (Body o)
                    (match cond with BodyReadFails => Some errBody | _ => None end))
                 (Metadata o))
      end
  end.

(** [HeadObject] returns the content length of the blob. *)
Definition HeadObject (c : Client) (bucket key : string) : error + Z :=
  match net c key with
  | RequestFails => inl errRequest
  | _ =>
      match objects c !! (bucket, key) with
      | None => inl errNoSuchKey
      | Some o => inr (Z.of_nat (String.length (Body o)))
      end
  end.

Definition PutObject (c : Client) (bucket key : string) (body : string)
           (metadata : gmap string string) : Client * option error :=
  match net c key with
  | RequestFails => (c, Some errRequest)
  | _ => (mkClient (<[(bucket, key) := mkObject body metadata]> (objects c)) (net c), None)
  end.

(** Deleting a key that is not there succeeds. *)
Definition DeleteObject (c : Client) (bucket key : string) : Client * option error :=
  match net c key with
  | RequestFails => (c, Some errRequest)
  | _ => (mkClient (delete (bucket, key) (objects c)) (net c), None)
  end.

(** The order of keys in a listing: by their bytes. *)
Definition keyLe (a b : string) : Prop := String.leb a b = true.

Global Instance keyLe_dec : RelDecision keyLe := fun a b => decide (String.leb a b = true).

(** The keys of [bucket] that begin with [prefix], in order. *)
Definition listKeys (c : Client) (bucket prefix : string) : list string :=
  merge_sort keyLe
    (omap (fun kv : string * string * Object =>
             if bool_decide (kv.1.1 = bucket) && String.prefix prefix kv.1.2
             then Some kv.1.2 else None)
          (map_to_list (objects c))).

(** A listing comes in pages of at most a thousand keys; there is always
    a first page, which is empty when no key matches. *)
Definition pageSize : nat := 1000.

Fixpoint pagesAux (room : nat) (cur : list string) (keys : list string)
  : list (list string) :=
  match keys with
  | [] => [rev cur]
  | key :: keys' =>
      match room with
      | O => rev cur :: pagesAux (pageSize - 1) [key] keys'
      | S room' => pagesAux room' (key :: cur) keys'
      end
  end.

(** [NewListObjectsV2Paginator] with a prefix, run to its end: the pages,
    or the error of the request. *)
Definition ListObjectsV2Pages (c : Client) (bucket prefix : string)
  : error + list (list string) :=
  match net c prefix with
  | RequestFails => inl errRequest
  | _ => inr (pagesAux pageSize [] (listKeys c bucket prefix))
  end.

(** [DeleteObjects]: one request for a batch of keys. *)
Definition DeleteObjects (c : Client) (bucket : string) (keys : list string)
  : Client * option error :=
  if existsb (fun key => match net c key with RequestFails => true | _ => false end) keys
  then (c, Some errRequest)
  else (mkClient (foldr delete (objects c) ((fun key => (bucket, key)) <$> keys)) (net c),
        None).

End awss3.

(** ** Package [s3]: the storer of one repository *)

Module s3.
Section Storer.
Context `{GoGit}.
Import plumbing.

Record S3Storer := mkS3Storer {
  bucket : string;
  repoPath : string
}.

Definition getObjectKey (s : S3Storer) (objectPath : string) : string :=
  path.Join [repoPath s; objectPath].

(** [fmt.Sprintf("objects/%s/%s", hash.String()[:2], hash.String()[2:])] *)
Definition objectPathOf (hash : Hash) : string :=
  "objects/" +:+ strings.sliceTo 2 (Hash_String hash) +:+ "/"
             +:+ strings.sliceFrom 2 (Hash_String hash).

(** [MemoryObject.Hash]: computed on demand once the content has the
    declared size. *)
Definition MemoryObject_Hash (o : MemoryObject) : Hash :=
  if decide (mo_h o = ZeroHash ∧ Z.of_nat (String.length (mo_cont o)) = mo_sz o)
  then ComputeHash (mo_t o) (mo_cont o)
  else mo_h o.

(** A [MemoryObject] seen through the [EncodedObject] interface; its
    reader never fails. *)
Definition ofMemoryObject (o : MemoryObject) : EncodedObject :=
  mkEncodedObject (mo_t o) (MemoryObject_Hash o) (inr (io.mkReader (mo_cont o) None)).

(** The object built by [SetType(t)], [SetSize(len(p))], [Write(p)] on a
    fresh [MemoryObject]. *)
Definition newObject (t : ObjectType) (p : string) : MemoryObject :=
  mkMemoryObject t ZeroHash p (Z.of_nat (String.length p)).

(** [SetEncodedObject] *)
Definition SetEncodedObject (s : S3Storer) (c : awss3.Client) (obj : EncodedObject)
  : awss3.Client * (Hash * option error) :=
  if decide (eo_Type obj = OFSDeltaObject ∨ eo_Type obj = REFDeltaObject)
  then (c, (ZeroHash, Some ErrInvalidType))
  else
    match eo_Reader obj with
    | inl err => (c, (ZeroHash, Some err))
    | inr reader =>
        match io.ReadAll reader with
        | inl err => (c, (ZeroHash, Some err))
        | inr content =>
            let hash :=
              if decide (eo_Hash obj = ZeroHash)
              then ComputeHash (eo_Type obj) content
              else eo_Hash obj in
            let objectKey := getObjectKey s (objectPathOf hash) in
            let '(c, err) :=
              awss3.PutObject c (bucket s) objectKey content
                {[ "git-type" := ObjectType_String (eo_Type obj) ]} in
            (c, (hash, err))
        end
    end.

(** [EncodedObject] *)
Definition EncodedObject (s : S3Storer) (c : awss3.Client) (t : ObjectType) (hash : Hash)
  : error + MemoryObject :=
  let objectKey := getObjectKey s (objectPathOf hash) in
  match awss3.GetObject c (bucket s) objectKey with
  | inl _ => inl ErrObjectNotFound
  | inr result =>
      match io.ReadAll (awss3.out_Body result) with
      | inl err => inl err
      | inr content =>
          let objectType :=
            match awss3.out_Metadata result !! "git-type" with
            | Some gitType =>
                if String.eqb gitType "commit" then CommitObject
                else if String.eqb gitType "tree" then TreeObject
                else if String.eqb gitType "blob" then BlobObject
                else if String.eqb gitType "tag" then TagObject
                else t
            | None => t
            end in
          inr (mkMemoryObject objectType ZeroHash content
                 (Z.of_nat (String.length content)))
      end
  end.

(** [HasEncodedObject] *)
Definition HasEncodedObject (s : S3Storer) (c : awss3.Client) (hash : Hash) : option error :=
  match awss3.HeadObject c (bucket s) (getObjectKey s (objectPathOf hash)) with
  | inl _ => Some ErrObjectNotFound
  | inr _ => None
  end.

(** [EncodedObjectSize] *)
Definition EncodedObjectSize (s : S3Storer) (c : awss3.Client) (hash : Hash) : Z * option error :=
  match awss3.HeadObject c (bucket s) (getObjectKey s (objectPathOf hash)) with
  | inl _ => (0%Z, Some ErrObjectNotFound)
  | inr n => (n, None)
  end.

(** The key a reference is written under ([SetReference],
    [RemoveReference]). *)
Definition writeRefKey (s : S3Storer) (name : ReferenceName) : string :=
  if IsRemote name then getObjectKey s ("refs/remotes/" +:+ Short name)
  else if IsBranch name then getObjectKey s ("refs/heads/" +:+ Short name)
  else if IsTag name then getObjectKey s ("refs/tags/" +:+ Short name)
  else getObjectKey s name.

(** The key a reference is read from ([Reference]), which drops one
    leading slash of a name outside the three name spaces. *)
Definition readRefKey (s : S3Storer) (name : ReferenceName) : string :=
  if IsRemote name then getObjectKey s ("refs/remotes/" +:+ Short name)
  else if IsBranch name then getObjectKey s ("refs/heads/" +:+ Short name)
  else if IsTag name then getObjectKey s ("refs/tags/" +:+ Short name)
  else
    let refName := if strings.HasPrefix name "/" then strings.sliceFrom 1 name else name in
    getObjectKey s refName.

Definition refContent (ref : Reference) : string :=
  if decide (ref_t ref = HashReference)
  then Hash_String (ref_h ref)
  else "ref: " +:+ ref_target ref.

(** [SetReference] *)
Definition SetReference (s : S3Storer) (c : awss3.Client) (ref : Reference)
  : awss3.Client * option error :=
  awss3.PutObject c (bucket s) (writeRefKey s (ref_n ref)) (refContent ref) ∅.

(** [Reference] *)
Definition Reference (s : S3Storer) (c : awss3.Client) (name : ReferenceName)
  : error + plumbing.Reference :=
  match awss3.GetObject c (bucket s) (readRefKey s name) with
  | inl _ => inl ErrReferenceNotFound
  | inr result =>
      match io.ReadAll (awss3.out_Body result) with
      | inl err => inl err
      | inr content =>
          let contentStr := strings.TrimSpace content in
          if strings.HasPrefix contentStr "ref: "
          then inr (NewSymbolicReference name (strings.TrimPrefix contentStr "ref: "))
          else inr (NewHashReference name (NewHash contentStr))
      end
  end.

(** [RemoveReference] *)
Definition RemoveReference (s : S3Storer) (c : awss3.Client) (name : ReferenceName)
  : awss3.Client * option error :=
  awss3.DeleteObject c (bucket s) (writeRefKey s name).

(** [CheckAndSetReference]; [old] may be nil. *)
Definition CheckAndSetReference (s : S3Storer) (c : awss3.Client)
           (new : plumbing.Reference) (old : option plumbing.Reference)
  : awss3.Client * option error :=
  match old with
  | Some old =>
      match Reference s c (ref_n old) with
      | inl err => (c, Some err)
      | inr current =>
          if decide (ref_t old = HashReference ∧ ref_t current = HashReference) then
            if decide (ref_h old ≠ ref_h current)
            then (c, Some (ErrorString "reference has changed"))
            else SetReference s c new
          else if decide (ref_t old = SymbolicReference ∧ ref_t current = SymbolicReference) then
            if decide (ref_target old ≠ ref_target current)
            then (c, Some (ErrorString "reference has changed"))
            else SetReference s c new
          else (c, Some (ErrorString "reference type mismatch"))
      end
  | None => SetReference s c new
  end.

(** [Config] *)
Definition Config (s : S3Storer) (c : awss3.Client) : option config_Config * option error :=
  let objectKey := getObjectKey s "config" in
  match awss3.GetObject c (bucket s) objectKey with
  | inl _ => (Some Config_zero, None)
  | inr result =>
      match io.ReadAll (awss3.out_Body result) with
      | inl err => (None, Some err)
      | inr content =>
          let '(cfg, err) := Config_Unmarshal content in
          (Some cfg, err)
      end
  end.

(** [SetConfig] *)
Definition SetConfig (s : S3Storer) (c : awss3.Client) (cfg : config_Config)
  : awss3.Client * option error :=
  match Config_Marshal cfg with
  | inl err => (c, Some err)
  | inr content => awss3.PutObject c (bucket s) (getObjectKey s "config") content ∅
  end.

(** The reference name [IterReferences] makes of a listed key;
    [None] is the run-time panic of the slice [key[len(...):]] on a key
    shorter than the key of the repository. *)
Definition refNameOfKey (s : S3Storer) (key : string) : option ReferenceName :=
  let base := getObjectKey s "" in
  if (String.length key <? String.length base)%nat then None
  else
    let relativePath := strings.sliceFrom (String.length base) key in
    Some (if strings.HasPrefix relativePath "/"
          then strings.sliceFrom 1 relativePath
          else relativePath).

(** The body of the loop over one page: a key whose reference cannot be
    read is skipped. *)
Fixpoint iterPage (s : S3Storer) (c : awss3.Client) (keys : list string)
         (refs : list plumbing.Reference) : option (list plumbing.Reference) :=
  match keys with
  | [] => Some refs
  | key :: keys' =>
      match refNameOfKey s key with
      | None => None
      | Some refName =>
          match Reference s c refName with
          | inr ref => iterPage s c keys' (refs ++ [ref])
          | inl _ => iterPage s c keys' refs
          end
      end
  end.

Fixpoint iterPages (s : S3Storer) (c : awss3.Client) (pages : list (list string))
         (refs : list plumbing.Reference) : option (list plumbing.Reference) :=
  match pages with
  | [] => Some refs
  | page :: pages' =>
      match iterPage s c page refs with
      | None => None
      | Some refs => iterPages s c pages' refs
      end
  end.

(** [IterReferences]: [HEAD] first when it can be read, then what is
    listed under the prefix of the references. *)
Definition IterReferences (s : S3Storer) (c : awss3.Client)
  : option (error + list plumbing.Reference) :=
  let refsPrefix := getObjectKey s "refs/" in
  let refs :=
    match Reference s c HEAD with
    | inr headRef => [headRef]
    | inl _ => []
    end in
  match awss3.ListObjectsV2Pages c (bucket s) refsPrefix with
  | inl err => Some (inl err)
  | inr pages =>
      match iterPages s c pages refs with
      | None => None
      | Some refs => Some (inr refs)
      end
  end.

(** [CountLooseRefs] *)
Definition CountLooseRefs (s : S3Storer) (c : awss3.Client) : option (Z * option error) :=
  match IterReferences s c with
  | None => None
  | Some (inl err) => Some (0%Z, Some err)
  | Some (inr refs) => Some (Z.of_nat (length refs), None)
  end.

(** [DeleteEncodedObject] *)
Definition DeleteEncodedObject (s : S3Storer) (c : awss3.Client) (hash : Hash)
  : awss3.Client * option error :=
  awss3.DeleteObject c (bucket s) (getObjectKey s (objectPathOf hash)).

(** [Shallow]; the nil slice is the empty list. *)
Definition Shallow (s : S3Storer) (c : awss3.Client) : list Hash * option error :=
  match awss3.GetObject c (bucket s) (getObjectKey s "shallow") with
  | inl _ => ([], None)
  | inr result =>
      match io.ReadAll (awss3.out_Body result) with
      | inl err => ([], Some err)
      | inr content =>
          let lines := strings.Split (strings.TrimSpace content) "010" in
          (map NewHash (List.filter (fun line => negb (String.eqb line "")) lines), None)
      end
  end.

(** What [SetShallow] builds in its [strings.Builder]. *)
Fixpoint shallowContent (hashes : list Hash) : string :=
  match hashes with
  | [] => EmptyString
  | hash :: hashes' => Hash_String hash +:+ String "010" (shallowContent hashes')
  end.

(** [SetShallow] *)
Definition SetShallow (s : S3Storer) (c : awss3.Client) (hashes : list Hash)
  : awss3.Client * option error :=
  let objectKey := getObjectKey s "shallow" in
  if (length hashes =? 0)%nat
  then awss3.DeleteObject c (bucket s) objectKey
  else awss3.PutObject c (bucket s) objectKey (shallowContent hashes) ∅.

End Storer.

(** *** The repository registry over the blob store *)

Section Registry.
Context `{GoGit}.
Import plumbing.

Record S3Storage := mkS3Storage { s3s_bucket : string }.

(** [getRepoKey]: trim slashes, make sure of the [.git] suffix, prefix
    with [repositories/]. *)
Definition getRepoKey (repoPath : string) : string :=
  let cleanPath := strings.Trim repoPath "/" in
  let cleanPath :=
    if negb (strings.HasSuffix cleanPath ".git") then cleanPath +:+ ".git" else cleanPath in
  "repositories/" +:+ cleanPath.

(** [RepositoryExists]: the repository is there when its [HEAD] is. *)
Definition RepositoryExists (s3s : S3Storage) (c : awss3.Client) (repoPath : string) : bool :=
  let repoKey := getRepoKey repoPath in
  match awss3.HeadObject c (s3s_bucket s3s) (repoKey +:+ "/HEAD") with
  | inl _ => false
  | inr _ => true
  end.

(** [GetStorer] *)
Definition GetStorer (s3s : S3Storage) (c : awss3.Client) (repoPath : string)
  : error + S3Storer :=
  if negb (RepositoryExists s3s c repoPath)
  then inl (ErrorString "repository does not exist")
  else inr (mkS3Storer (s3s_bucket s3s) (getRepoKey repoPath)).

Definition configContent : string :=
  "[core]" +:+ nl +:+
  tab +:+ "repositoryformatversion = 0" +:+ nl +:+
  tab +:+ "filemode = true" +:+ nl +:+
  tab +:+ "bare = true" +:+ nl.

Definition readmeContent : string :=
  "# Repository" +:+ nl +:+
  tab +:+ nl +:+
  "This is a new Git repository hosted on S3." +:+ nl +:+
  nl +:+
  "## Getting Started" +:+ nl +:+
  nl +:+
  "Clone this repository:" +:+ nl +:+
  "```bash" +:+ nl +:+
  "git clone <repository-url>" +:+ nl +:+
  "```" +:+ nl +:+
  nl +:+
  "Start adding your files and make your first commit!" +:+ nl.

Definition gitServer (when : Z) : object.Signature :=
  object.mkSignature "Git Server" "git-server@example.com" when.

(** [createInitialCommit]; [t1] and [t2] are the two readings of the
    clock. *)
Definition createInitialCommit (s3s : S3Storage) (c : awss3.Client) (repoKey : string)
           (t1 t2 : Z) : awss3.Client * option error :=
  let storer := mkS3Storer (s3s_bucket s3s) repoKey in
  let readmeBlob := newObject BlobObject readmeContent in
  match SetEncodedObject storer c (ofMemoryObject readmeBlob) with
  | (c, (_, Some err)) => (c, Some (wrapError "failed to store README.md blob" err))
  | (c, (readmeHash, None)) =>
      match Tree_Encode [("README.md", 33188%Z, readmeHash)] with
      | inl err => (c, Some (wrapError "failed to encode tree" err))
      | inr treeObj =>
          match SetEncodedObject storer c (ofMemoryObject treeObj) with
          | (c, (_, Some err)) => (c, Some (wrapError "failed to store tree" err))
          | (c, (treeHash, None)) =>
              let commit :=
                object.mkCommit (gitServer t1) (gitServer t2)
                  ("Initial commit" +:+ nl +:+ nl +:+ "Created repository with README.md")
                  treeHash [] in
              match Commit_Encode commit with
              | inl err => (c, Some (wrapError "failed to encode commit" err))
              | inr commitObj =>
                  match SetEncodedObject storer c (ofMemoryObject commitObj) with
                  | (c, (_, Some err)) => (c, Some (wrapError "failed to store commit" err))
                  | (c, (commitHash, None)) =>
                      let mainRef := NewHashReference "refs/heads/main" commitHash in
                      match SetReference storer c mainRef with
                      | (c, Some err) => (c, Some (wrapError "failed to create main branch" err))
                      | (c, None) =>
                          let headRef := NewSymbolicReference HEAD "refs/heads/main" in
                          match SetReference storer c headRef with
                          | (c, Some err) => (c, Some (wrapError "failed to create HEAD" err))
                          | (c, None) => (c, None)
                          end
                      end
                  end
              end
          end
      end
  end.

(** [CreateRepository] *)
Definition CreateRepository (s3s : S3Storage) (c : awss3.Client) (repoPath : string)
           (t1 t2 : Z) : awss3.Client * option error :=
  if RepositoryExists s3s c repoPath
  then (c, Some (ErrorString "repository already exists"))
  else
    let repoKey := getRepoKey repoPath in
    match awss3.PutObject c (s3s_bucket s3s) (repoKey +:+ "/config") configContent ∅ with
    | (c, Some err) => (c, Some (wrapError "failed to create config" err))
    | (c, None) =>
        match awss3.PutObject c (s3s_bucket s3s) (repoKey +:+ "/objects/.gitkeep") "" ∅ with
        | (c, Some err) => (c, Some (wrapError "failed to create objects directory" err))
        | (c, None) =>
            match createInitialCommit s3s c repoKey t1 t2 with
            | (c, Some err) => (c, Some (wrapError "failed to create initial commit" err))
            | (c, None) => (c, None)
            end
        end
    end.

(** The loop of [DeleteRepository] over the pages: an empty page ends
    it. *)
Fixpoint deletePages (s3s : S3Storage) (c : awss3.Client) (pages : list (list string))
  : awss3.Client * option error :=
  match pages with
  | [] => (c, None)
  | page :: pages' =>
      if (length page =? 0)%nat then (c, None)
      else
        match awss3.DeleteObjects c (s3s_bucket s3s) page with
        | (c, Some err) => (c, Some (wrapError "failed to delete repository objects" err))
        | (c, None) => deletePages s3s c pages'
        end
  end.

(** [DeleteRepository] *)
Definition DeleteRepository (s3s : S3Storage) (c : awss3.Client) (repoPath : string)
  : awss3.Client * option error :=
  if negb (RepositoryExists s3s c repoPath)
  then (c, Some (ErrorString "repository does not exist"))
  else
    let repoKey := getRepoKey repoPath in
    match awss3.ListObjectsV2Pages c (s3s_bucket s3s) (repoKey +:+ "/") with
    | inl err => (c, Some (wrapError "failed to list repository objects" err))
    | inr pages => deletePages s3s c pages
    end.

End Registry.
End s3.

(** ** Package [local]: where a repository lives on disk *)

Module local.

Record LocalStorage := mkLocalStorage { basePath : string }.

(** [getFullPath] *)
Definition getFullPath (ls : LocalStorage) (repoPath : string) : string :=
  let cleanPath := path.Clean repoPath in
  let cleanPath :=
    if negb (strings.HasSuffix cleanPath ".git") then cleanPath +:+ ".git" else cleanPath in
  path.Join [basePath ls; cleanPath].

End local.

(** ** Package [storage]: the interface of a repository back end *)

(** [GitRepositoryStorage], by the methods the session drivers call; [St]
  is the back end together with the medium it stores to. *)
Class GitRepositoryStorage (St : Type) := {
RepositoryExists : St -> string -> bool;
CreateRepository : St -> string -> St * option error
}.

(** The S3 back end: the registry, its client and the clock read by
  [CreateRepository]. *)
Record S3Backend := mkS3Backend {
be_storage : s3.S3Storage;
be_client : awss3.Client;
be_clock : Z
}.

Global Instance S3Backend_Storage `{GoGit} : GitRepositoryStorage S3Backend := {
RepositoryExists be repoPath :=
  s3.RepositoryExists (be_storage be) (be_client be) repoPath;
CreateRepository be repoPath :=
  let '(c, err) :=
    s3.CreateRepository (be_storage be) (be_client be) repoPath
      (be_clock be) (be_clock be) in
  (mkS3Backend (be_storage be) c (be_clock be), err)
}.

(** A registry held in memory, standing for the mock of the controller
  tests: the names it holds, and the error its next creation returns. *)
Record MockStorage := mkMockStorage {
mock_repos : list string;
mock_createErr : option error
}.

Global Instance MockStorage_Storage : GitRepositoryStorage MockStorage := {
RepositoryExists m repoPath := bool_decide (repoPath ∈ mock_repos m);
CreateRepository m repoPath :=
  match mock_createErr m with
  | Some err => (m, Some err)
  | None => (mkMockStorage (repoPath :: mock_repos m) None, None)
  end
}.

(** ** The protocol engine (go-git's transport server and [packp]) *)

Module transport.

Record AdvRefs := mkAdvRefs {
  References : list string;
  adv_wire : string
}.

Record UploadPackRequest := mkUploadPackRequest { upreq_wire : string }.
Record UploadPackResponse := mkUploadPackResponse { upresp_wire : string }.
Record ReferenceUpdateRequest := mkReferenceUpdateRequest { refreq_wire : string }.
Record ReportStatus := mkReportStatus { report_wire : string }.

Record Endpoint := mkEndpoint { ep_Path : string }.

(** What the engine answers to each call of a session opened on an
    endpoint, and what [packp] decodes from the client's bytes.

    Decoding a reference update request keeps the stream it reads from
    as the [Packfile] of the request, and [ReceivePack] closes that
    [Packfile] once it has gone through the pack, whether the pack was
    stored or not; it returns without closing it only when it fails
    before, on the capabilities of the request, and then it has no
    report.  [ClosesPackfile req] tells whether [ReceivePack] gets that
    far on [req].  The close reaches the stream the caller decoded from
    when that stream can be closed: an SSH channel or session can, the
    reader over the body of an HTTP request cannot.

    [ReceivePack] also writes the objects and the references of an
    accepted push through the storer of the repository.  These writes
    are the engine's and are not followed here: the storage the session
    drivers return is the storage as their own calls leave it. *)
Record Engine := mkEngine {
  NewUploadPackSession : Endpoint -> option error;
  up_AdvertisedReferences : error + AdvRefs;
  UploadPack : UploadPackRequest -> error + UploadPackResponse;
  NewReceivePackSession : Endpoint -> option error;
  rp_AdvertisedReferences : error + AdvRefs;
  ReceivePack : ReferenceUpdateRequest -> option ReportStatus * option error;
  ClosesPackfile : ReferenceUpdateRequest -> bool;
  DecodeUploadPackRequest : string -> error + UploadPackRequest;
  DecodeReferenceUpdateRequest : string -> error + ReferenceUpdateRequest
}.

(** The [Encode] methods write the wire form to the writer. *)
Definition AdvRefs_Encode `{Writer W} (adv : AdvRefs) (w : W) : W * option error :=
  Write w (adv_wire adv).
Definition UploadPackResponse_Encode `{Writer W} (r : UploadPackResponse) (w : W)
  : W * option error := Write w (upresp_wire r).
Definition ReportStatus_Encode `{Writer W} (r : ReportStatus) (w : W)
  : W * option error := Write w (report_wire r).

End transport.

(** ** Package [common] *)

Module common.
Import transport.

(** [NormalizeRepoPath]: trim white space, append [.git] unless the path
    already ends with it. *)
Definition NormalizeRepoPath (repoPath : string) : string :=
  let repoPath := strings.TrimSpace repoPath in
  if negb (strings.HasSuffix repoPath ".git")
  then repoPath +:+ ".git"
  else repoPath.

(** [ExtractRepoPathFromURL] *)
Definition ExtractRepoPathFromURL (urlPath suffix : string) : string :=
  let idx := strings.LastIndex urlPath suffix in
  if (idx <? 0)%Z then ""
  else
    let base := strings.TrimSuffix (strings.sliceTo (Z.to_nat idx) urlPath) "/" in
    let rel := strings.TrimPrefix base "/" in
    if String.eqb rel "" then "" else rel.

Definition hexdigits : string := "0123456789abcdef".

(** ["0123456789abcdef"[i]]; the index is masked to four bits by every
    caller, so the default is never used. *)
Definition hexdigit (i : Z) : ascii :=
  match String.get (Z.to_nat i) hexdigits with
  | Some c => c
  | None => "0"%char
  end.

Definition payload (service : string) : string :=
  "# service=" +:+ service +:+ String "010" EmptyString.

Definition pktlen (service : string) : Z :=
  4 + Z.of_nat (String.length (payload service)).

Definition hdr (n : Z) : string :=
  String (hexdigit (Z.land (Z.shiftr n 12) 15))
 (String (hexdigit (Z.land (Z.shiftr n 8) 15))
 (String (hexdigit (Z.land (Z.shiftr n 4) 15))
 (String (hexdigit (Z.land n 15)) EmptyString))).

(** [common.WriteServiceAdvertisement] *)
Definition WriteServiceAdvertisement `{Writer W} (w : W) (service : string)
  : W * option error :=
  let payload := payload service in
  let n := pktlen service in
  let hdr := hdr n in
  match Write w hdr with
  | (w, Some err) => (w, Some err)
  | (w, None) =>
      match Write w payload with
      | (w, Some err) => (w, Some err)
      | (w, None) => Write w "0000"
      end
  end.


(** [common.GetTransportServer]: the server is the engine bound to the
    repository; what is returned here is the endpoint. *)
Definition GetTransportServer `{GitRepositoryStorage St} (repoPath : string) (str : St)
  : error + Endpoint :=
  let normalizedPath := common.NormalizeRepoPath repoPath in
  if negb (RepositoryExists str normalizedPath)
  then inl (FiberError 404 "repository not found")
  else inr (mkEndpoint ("/" +:+ path.Base normalizedPath)).

End common.

(** ** The HTTP side: fiber's context and the Git controller *)

Module fiber.

Definition StatusOK : Z := 200.
Definition StatusCreated : Z := 201.
Definition StatusBadRequest : Z := 400.
Definition StatusNotFound : Z := 404.
Definition StatusInternalServerError : Z := 500.

(** The response a handler builds. *)
Record Ctx := mkCtx {
  status : Z;
  headers : list (string * string);
  body : string
}.

Definition newCtx : Ctx := mkCtx StatusOK [] "".

Definition StatusMessage (code : Z) : string :=
  if (code =? 200)%Z then "OK"
  else if (code =? 400)%Z then "Bad Request"
  else if (code =? 404)%Z then "Not Found"
  else if (code =? 500)%Z then "Internal Server Error"
  else "".

Definition Set_ (ctx : Ctx) (key val : string) : Ctx :=
  mkCtx (status ctx) (headers ctx ++ [(key, val)]) (body ctx).

(** [ctx.Status(code).SendString(s)] *)
Definition StatusSendString (ctx : Ctx) (code : Z) (s : string) : Ctx * option error :=
  (mkCtx code (headers ctx) s, None).

(** [ctx.SendStatus(code)]: the status text becomes the body when the
    body is empty. *)
Definition SendStatus (ctx : Ctx) (code : Z) : Ctx * option error :=
  (mkCtx code (headers ctx)
     (if String.eqb (body ctx) "" then StatusMessage code else body ctx), None).

(** [ctx.Response().BodyWriter()] appends to the body. *)
Global Instance BodyWriter : Writer Ctx :=
  fun ctx p => (mkCtx (status ctx) (headers ctx) (body ctx +:+ p), None).

(** The default error handler, run on the error a handler returns: the
    code of a [*fiber.Error], else 500, with the message as body. *)
Definition DefaultErrorHandler (ctx : Ctx) (err : error) : Ctx :=
  let code := match err with FiberError code _ => code | _ => StatusInternalServerError end in
  fst (StatusSendString (Set_ ctx "Content-Type" "text/plain; charset=utf-8") code (Error err)).

(** The response that leaves the server. *)
Definition respond (r : Ctx * option error) : Ctx :=
  match r with
  | (ctx, None) => ctx
  | (ctx, Some err) => DefaultErrorHandler ctx err
  end.

End fiber.

Module controller.
Section GitController.
Import transport fiber.
Context `{GitRepositoryStorage St}.

(** One request as the handlers see it. *)
Record Request := mkRequest {
  req_Path : string;
  req_service : string;
  req_Body : string
}.

(** [GitController.InfoRefs] *)
Definition InfoRefs (str : St) (engine : Engine) (r : Request) : Ctx * option error :=
  let ctx := newCtx in
  let service := req_service r in
  if negb (String.eqb service "git-upload-pack") && negb (String.eqb service "git-receive-pack")
  then StatusSendString ctx StatusBadRequest "invalid service parameter"
  else
    let repoPath := common.ExtractRepoPathFromURL (req_Path r) "/info/refs" in
    if String.eqb repoPath "" then SendStatus ctx StatusNotFound
    else
      match common.GetTransportServer repoPath str with
      | inl _ => StatusSendString ctx StatusInternalServerError "failed to get transport server"
      | inr ep =>
          let ctx := Set_ ctx "Cache-Control" "no-cache" in
          if String.eqb service "git-upload-pack" then
            let ctx := Set_ ctx "Content-Type" "application/x-git-upload-pack-advertisement" in
            match NewUploadPackSession engine ep with
            | Some err => StatusSendString ctx StatusInternalServerError (Error err)
            | None =>
                match up_AdvertisedReferences engine with
                | inl err => StatusSendString ctx StatusInternalServerError (Error err)
                | inr adv =>
                    match common.WriteServiceAdvertisement ctx service with
                    | (ctx, Some err) => StatusSendString ctx StatusInternalServerError (Error err)
                    | (ctx, None) =>
                        match AdvRefs_Encode adv ctx with
                        | (ctx, Some err) =>
                            StatusSendString ctx StatusInternalServerError (Error err)
                        | (ctx, None) => (ctx, None)
                        end
                    end
                end
            end
          else
            let ctx := Set_ ctx "Content-Type" "application/x-git-receive-pack-advertisement" in
            match NewReceivePackSession engine ep with
            | Some err => StatusSendString ctx StatusInternalServerError (Error err)
            | None =>
                match rp_AdvertisedReferences engine with
                | inl err => StatusSendString ctx StatusInternalServerError (Error err)
                | inr adv =>
                    match common.WriteServiceAdvertisement ctx service with
                    | (ctx, Some err) => StatusSendString ctx StatusInternalServerError (Error err)
                    | (ctx, None) =>
                        match AdvRefs_Encode adv ctx with
                        | (ctx, Some err) =>
                            StatusSendString ctx StatusInternalServerError (Error err)
                        | (ctx, None) => (ctx, None)
                        end
                    end
                end
            end
      end.

(** [GitController.HandleUploadPack] *)
Definition HandleUploadPack (str : St) (engine : Engine) (r : Request) : Ctx * option error :=
  let c := newCtx in
  let repoPath := common.ExtractRepoPathFromURL (req_Path r) "/git-upload-pack" in
  if String.eqb repoPath "" then SendStatus c StatusNotFound
  else
    match common.GetTransportServer repoPath str with
    | inl err => (c, Some err)
    | inr ep =>
        match NewUploadPackSession engine ep with
        | Some err => StatusSendString c StatusInternalServerError (Error err)
        | None =>
            match DecodeUploadPackRequest engine (req_Body r) with
            | inl err => StatusSendString c StatusBadRequest (Error err)
            | inr req =>
                match UploadPack engine req with
                | inl err => StatusSendString c StatusInternalServerError (Error err)
                | inr resp =>
                    let c := Set_ c "Content-Type" "application/x-git-upload-pack-result" in
                    match UploadPackResponse_Encode resp c with
                    | (c, Some err) => StatusSendString c StatusInternalServerError (Error err)
                    | (c, None) => (c, None)
                    end
                end
            end
        end
    end.

(** [GitController.HandleReceivePack].  The report of a failed
    [ReceivePack] is encoded unconditionally; a nil report makes that
    call panic, which the [recover] middleware of the server turns into
    an internal server error.  The request is decoded from a reader over
    the bytes of the body, which cannot be closed: the close of
    [ReceivePack] does not reach the response. *)
Definition HandleReceivePack (str : St) (engine : Engine) (r : Request) : Ctx * option error :=
  let c := newCtx in
  let repoPath := common.ExtractRepoPathFromURL (req_Path r) "/git-receive-pack" in
  if String.eqb repoPath "" then SendStatus c StatusNotFound
  else
    match common.GetTransportServer repoPath str with
    | inl err => (c, Some err)
    | inr ep =>
        match NewReceivePackSession engine ep with
        | Some err => StatusSendString c StatusInternalServerError (Error err)
        | None =>
            match DecodeReferenceUpdateRequest engine (req_Body r) with
            | inl err => StatusSendString c StatusBadRequest (Error err)
            | inr req =>
                let '(report, err) := ReceivePack engine req in
                let c := Set_ c "Content-Type" "application/x-git-receive-pack-result" in
                match err, report with
                | Some _, Some report => (fst (ReportStatus_Encode report c), None)
                | None, Some report =>
                    match ReportStatus_Encode report c with
                    | (c, Some err) => StatusSendString c StatusInternalServerError (Error err)
                    | (c, None) => (c, None)
                    end
                | _, None =>
                    (c, Some (ErrorString "runtime error: invalid memory address or nil pointer dereference"))
                end
            end
        end
    end.

(** [RepoController.CreateRepo]; [parsed] is what [ctx.BodyParser] makes
    of the body: an error, or the value of the field [name], which is
    empty when the body has no such field. *)
Definition CreateRepo (str : St) (parsed : error + string) : St * (Ctx * option error) :=
  let ctx := newCtx in
  match parsed with
  | inl err => (str, StatusSendString ctx StatusBadRequest (Error err))
  | inr name =>
      let normName := common.NormalizeRepoPath name in
      match CreateRepository str normName with
      | (str, Some _) =>
          (str, StatusSendString ctx StatusInternalServerError "failed to create repository")
      | (str, None) => (str, StatusSendString ctx StatusCreated "repository created")
      end
  end.

End GitController.
End controller.

(** ** The SSH side, first server: [SSHConfig] over gliderlabs/ssh *)

(** The two quote characters, as in the cut set of [strings.Trim]. *)
Definition quotes : string := String "'" (String "034" EmptyString).

Module sshconfig.
Section SSHConfig.
Import transport.
Context `{GitRepositoryStorage St}.

(** A session: the raw command, the bytes the client sends, whether the
    channel of the session is open, and what has reached the client so
    far.  Once the channel is closed, by the client or by the server,
    nothing reaches the client any more: a write returns [EOF], and so
    does the request that carries the exit status.  The client is taken
    to leave the channel as it is while the server handles the
    session. *)
Record Session := mkSession {
  RawCommand : string;
  sess_stdin : string;
  sess_open : bool;
  sess_stdout : string;
  sess_stderr : string;
  sess_exit : option Z
}.

(** Writing to the session writes to its standard output. *)
Global Instance Session_Writer : Writer Session :=
  fun s p =>
    if sess_open s
    then (mkSession (RawCommand s) (sess_stdin s) (sess_open s)
            (sess_stdout s +:+ p) (sess_stderr s) (sess_exit s), None)
    else (s, Some (ErrorString "EOF")).

(** [io.WriteString(s.Stderr(), msg)], its result dropped. *)
Definition WriteStderr (s : Session) (msg : string) : Session :=
  if sess_open s
  then mkSession (RawCommand s) (sess_stdin s) (sess_open s)
         (sess_stdout s) (sess_stderr s +:+ msg) (sess_exit s)
  else s.

(** [s.Close()]: the channel of the session is closed. *)
Definition Close (s : Session) : Session :=
  mkSession (RawCommand s) (sess_stdin s) false
    (sess_stdout s) (sess_stderr s) (sess_exit s).

(** [s.Exit(code)], its result dropped: the exit status is sent, then
    the session is closed.  A second call sends nothing, and neither
    does a call on a session whose channel is closed. *)
Definition Exit (s : Session) (code : Z) : Session :=
  match sess_exit s with
  | Some _ => s
  | None =>
      if sess_open s
      then mkSession (RawCommand s) (sess_stdin s) false
             (sess_stdout s) (sess_stderr s) (Some code)
      else s
  end.

(** [parseGitCommand] *)
Definition parseGitCommand (cmd : string) : string * string :=
  let cmd := strings.TrimSpace cmd in
  if String.eqb cmd "" then ("", "")
  else if strings.HasPrefix cmd "git-upload-pack" then
    ("git-upload-pack", strings.TrimSpace (strings.TrimPrefix cmd "git-upload-pack"))
  else if strings.HasPrefix cmd "git-receive-pack" then
    ("git-receive-pack", strings.TrimSpace (strings.TrimPrefix cmd "git-receive-pack"))
  else ("", "").

(** [repoPathFromSSHArg] *)
Definition repoPathFromSSHArg (arg : string) : string :=
  let arg := strings.TrimSpace arg in
  let arg := strings.Trim arg quotes in
  let arg := strings.TrimPrefix arg ":" in
  let i := strings.Index arg ":" in
  let arg := if (0 <=? i)%Z then strings.sliceFrom (Z.to_nat (i + 1)) arg else arg in
  let arg := strings.TrimPrefix arg "/" in
  if String.eqb arg "" then ""
  else common.NormalizeRepoPath arg.

(** [handleUploadPack] *)
Definition handleUploadPack (s : Session) (engine : Engine) (ep : Endpoint) : Session :=
  match NewUploadPackSession engine ep with
  | Some err => Exit (WriteStderr s ("Upload pack session error: " +:+ Error err +:+ nl)) 1
  | None =>
      match up_AdvertisedReferences engine with
      | inl err => Exit (WriteStderr s ("Advertised references error: " +:+ Error err +:+ nl)) 1
      | inr adv =>
          match AdvRefs_Encode adv s with
          | (s, Some err) =>
              Exit (WriteStderr s ("Failed to send references: " +:+ Error err +:+ nl)) 1
          | (s, None) =>
              match DecodeUploadPackRequest engine (sess_stdin s) with
              | inl err =>
                  let s :=
                    if String.eqb (Error err) "pkt-line 1: missing 'want ' prefix"
                    then s
                    else WriteStderr s ("Request decode error: " +:+ Error err +:+ nl) in
                  Exit s 0
              | inr req =>
                  match UploadPack engine req with
                  | inl err =>
                      Exit (WriteStderr s ("Upload pack error: " +:+ Error err +:+ nl)) 1
                  | inr resp =>
                      match UploadPackResponse_Encode resp s with
                      | (s, Some err) =>
                          Exit (WriteStderr s ("Response encode error: " +:+ Error err +:+ nl)) 1
                      | (s, None) => Exit s 0
                      end
                  end
              end
          end
      end
  end.

(** [handleReceivePack].  The request is decoded from the session, so
    the session is the [Packfile] that [ReceivePack] closes. *)
Definition handleReceivePack (s : Session) (engine : Engine) (ep : Endpoint) : Session :=
  match NewReceivePackSession engine ep with
  | Some err => Exit (WriteStderr s ("Receive pack session error: " +:+ Error err +:+ nl)) 1
  | None =>
      match rp_AdvertisedReferences engine with
      | inl err => Exit (WriteStderr s ("Advertised references error: " +:+ Error err +:+ nl)) 1
      | inr adv =>
          match AdvRefs_Encode adv s with
          | (s, Some err) =>
              Exit (WriteStderr s ("Failed to send references: " +:+ Error err +:+ nl)) 1
          | (s, None) =>
              match DecodeReferenceUpdateRequest engine (sess_stdin s) with
              | inl err =>
                  Exit (WriteStderr s ("Request decode error: " +:+ Error err +:+ nl)) 1
              | inr req =>
                  let result := ReceivePack engine req in
                  let s := if ClosesPackfile engine req then Close s else s in
                  match result with
                  | (report, Some err) =>
                      let s :=
                        match report with
                        | Some report => fst (ReportStatus_Encode report s)
                        | None => WriteStderr s ("Receive pack error: " +:+ Error err +:+ nl)
                        end in
                      Exit s 1
                  | (Some report, None) =>
                      match ReportStatus_Encode report s with
                      | (s, Some err) =>
                          Exit (WriteStderr s ("Report encode error: " +:+ Error err +:+ nl)) 1
                      | (s, None) => Exit s 0
                      end
                  | (None, None) => Exit s 0
                  end
              end
          end
      end
  end.

(** [handleSSHSession]; the storage returned is the storage as
    [CreateRepository] leaves it. *)
Definition handleSSHSession (str : St) (engine : Engine) (s : Session) : St * Session :=
  let '(service, repoArg) := parseGitCommand (RawCommand s) in
  if String.eqb service "" || String.eqb repoArg ""
  then (str, Exit (WriteStderr s ("Invalid Git command" +:+ nl)) 1)
  else
    let repoPath := repoPathFromSSHArg repoArg in
    if String.eqb repoPath ""
    then (str, Exit (WriteStderr s ("Invalid repository path" +:+ nl)) 1)
    else
      let exists_ := RepositoryExists str repoPath in
      let serve (str : St) (exists_ : bool) : St * Session :=
        if negb exists_
        then (str, Exit (WriteStderr s ("Repository not found" +:+ nl)) 1)
        else
          match common.GetTransportServer repoPath str with
          | inl err =>
              (str, Exit (WriteStderr s ("Transport server error: " +:+ Error err +:+ nl)) 1)
          | inr ep =>
              if String.eqb service "git-upload-pack" then (str, handleUploadPack s engine ep)
              else if String.eqb service "git-receive-pack" then (str, handleReceivePack s engine ep)
              else (str, Exit (WriteStderr s ("Unsupported service: " +:+ service +:+ nl)) 1)
          end in
      if negb exists_ && String.eqb service "git-receive-pack"
      then
        match CreateRepository str repoPath with
        | (str, Some err) =>
            (str, Exit (WriteStderr s ("Failed to create repository: " +:+ Error err +:+ nl)) 1)
        | (str, None) => serve str true
        end
      else serve str exists_.

End SSHConfig.
End sshconfig.

(** ** The SSH side, second server: [GitSSHServer] over x/crypto/ssh *)

Module gitssh.
Section GitSSHServer.
Import transport.
Context `{GitRepositoryStorage St}.

(** What the peer of a channel observes, in order, and the pauses of the
    server in between. *)
Inductive Event : Type :=
| EvReject                     (* the channel is refused *)
| EvReply (ok : bool)          (* the answer to a request *)
| EvData (p : string)          (* bytes written to the channel *)
| EvExitStatus (status : Z)    (* an exit-status request *)
| EvCloseWrite                 (* the write half is closed: EOF *)
| EvSleep (ms : Z)             (* the server pauses *)
| EvClose.                     (* the channel is closed *)

(** A channel: the bytes the client sends, whether the channel is open,
    and the events so far, oldest first.  Once the channel is closed, by
    the client or by the server, every call that sends on it returns
    [EOF] and nothing reaches the peer.  The client is taken to leave
    the channel as it is while the server handles a request. *)
Record Channel := mkChannel {
  chan_in : string;
  chan_open : bool;
  chan_events : list Event
}.

Definition emit (ch : Channel) (e : Event) : Channel :=
  mkChannel (chan_in ch) (chan_open ch) (chan_events ch ++ [e]).

(** A message sent on the channel, the error of the call dropped:
    [req.Reply], [channel.SendRequest], [CloseWrite]. *)
Definition send (ch : Channel) (e : Event) : Channel :=
  if chan_open ch then emit ch e else ch.

(** [channel.Close()], its error dropped; [bufferedChannel.Close]
    flushes a buffer that [Write] has left empty, and closes the
    channel. *)
Definition Close (ch : Channel) : Channel :=
  if chan_open ch
  then mkChannel (chan_in ch) false (chan_events ch ++ [EvClose])
  else ch.

(** Writing through a [bufferedChannel], whose [Write] flushes at once,
    at the grain of one [Encode], which writes more than once.  On a
    closed channel the first write stays in the buffer and its flush
    fails; the writes after it return that error, and so does the
    [Encode]. *)
Global Instance Channel_Writer : Writer Channel :=
  fun ch p =>
    if chan_open ch then (emit ch (EvData p), None)
    else (ch, Some (ErrorString "EOF")).

(** An [ssh.Request]. *)
Record Request := mkRequest {
  req_Type : string;
  WantReply : bool;
  Payload : string
}.

(** [extractRepoPath] *)
Definition extractRepoPath (arg : string) : string :=
  let arg := strings.Trim arg quotes in
  let arg := strings.TrimPrefix arg "/" in
  if strings.Contains arg ":" then
    match strings.Split arg ":" with
    | _ :: p1 :: _ => p1
    | _ => arg
    end
  else arg.

(** [parseGitCommand] *)
Definition parseGitCommand (cmd : string) : string * string :=
  let cmd := strings.TrimSpace cmd in
  if String.eqb cmd "" then ("", "")
  else
    match strings.Fields cmd with
    | service :: ((_ :: _) as rest) =>
        let repoArg := strings.Join rest " " in
        let repoPath := extractRepoPath repoArg in
        let repoPath := common.NormalizeRepoPath repoPath in
        (service, repoPath)
    | _ => ("", "")
    end.

(** [sendExitStatusAndClose].  The channel is an [ssh.Channel], whose
    method set has [CloseWrite], so the type assertion of the code
    holds. *)
Definition sendExitStatusAndClose (ch : Channel) (status : Z) : Channel :=
  if (status =? 0)%Z then
    let ch := send ch EvCloseWrite in
    let ch := emit ch (EvSleep 200) in
    ch
  else
    let ch := send ch (EvExitStatus status) in
    let ch := send ch EvCloseWrite in
    let ch := emit ch (EvSleep 100) in
    let ch := Close ch in
    ch.

(** [handleUploadPack] *)
Definition handleUploadPack (str : St) (engine : Engine) (ch : Channel) (repoPath : string)
  : Channel * option error :=
  match common.GetTransportServer repoPath str with
  | inl err => (ch, Some err)
  | inr endpoint =>
      match NewUploadPackSession engine endpoint with
      | Some err => (ch, Some err)
      | None =>
          match up_AdvertisedReferences engine with
          | inl err => (ch, Some err)
          | inr advRefs =>
              match AdvRefs_Encode advRefs ch with
              | (ch, Some err) => (ch, Some err)
              | (ch, None) =>
                  if (length (References advRefs) =? 0)%nat then (ch, None)
                  else
                    match DecodeUploadPackRequest engine (chan_in ch) with
                    | inl err =>
                        if strings.Contains (Error err) "missing 'want' prefix"
                           || strings.Contains (Error err) "EOF"
                        then (ch, None)
                        else (ch, Some err)
                    | inr req =>
                        match UploadPack engine req with
                        | inl err => (ch, Some err)
                        | inr resp =>
                            match UploadPackResponse_Encode resp ch with
                            | (ch, Some err) => (ch, Some err)
                            | (ch, None) => (ch, None)
                            end
                        end
                    end
              end
          end
      end
  end.

(** [handleReceivePack].  The request is decoded from the buffered
    channel, so that channel is the [Packfile] that [ReceivePack]
    closes.  An error of the encoding of the report is logged and
    dropped. *)
Definition handleReceivePack (str : St) (engine : Engine) (ch : Channel) (repoPath : string)
  : Channel * option error :=
  match common.GetTransportServer repoPath str with
  | inl err => (ch, Some err)
  | inr endpoint =>
      match NewReceivePackSession engine endpoint with
      | Some err => (ch, Some err)
      | None =>
          match rp_AdvertisedReferences engine with
          | inl err => (ch, Some err)
          | inr advRefs =>
              match AdvRefs_Encode advRefs ch with
              | (ch, Some err) => (ch, Some err)
              | (ch, None) =>
                  match DecodeReferenceUpdateRequest engine (chan_in ch) with
                  | inl err => (ch, Some err)
                  | inr req =>
                      let result := ReceivePack engine req in
                      let ch := if ClosesPackfile engine req then Close ch else ch in
                      match result with
                      | (_, Some err) => (ch, Some err)
                      | (Some report, None) => (fst (ReportStatus_Encode report ch), None)
                      | (None, None) => (ch, None)
                      end
                  end
              end
          end
      end
  end.

(** [handleExecRequest]; [None] is the run-time panic of
    [req.Payload[4:]] on a payload shorter than its length prefix. *)
Definition handleExecRequest (str : St) (engine : Engine) (ch : Channel) (req : Request)
  : option Channel :=
  if negb (WantReply req) then Some (sendExitStatusAndClose ch 1)
  else if (String.length (Payload req) <? 4)%nat then None
  else
    let command := strings.sliceFrom 4 (Payload req) in
    let '(service, repoPath) := parseGitCommand command in
    if String.eqb service "" then
      let ch := send ch (EvReply false) in
      Some (sendExitStatusAndClose ch 1)
    else
      let ch := send ch (EvReply true) in
      let '(ch, exitCode) :=
        if String.eqb service "git-upload-pack" then
          match handleUploadPack str engine ch repoPath with
          | (ch, Some _) => (ch, 1%Z)
          | (ch, None) => (ch, 0%Z)
          end
        else if String.eqb service "git-receive-pack" then
          match handleReceivePack str engine ch repoPath with
          | (ch, Some _) => (ch, 1%Z)
          | (ch, None) => (ch, 0%Z)
          end
        else (ch, 1%Z) in
      Some (sendExitStatusAndClose ch exitCode).

(** The request loop of [handleChannel] on an accepted channel, up to
    the deferred [channel.Close()]. *)
Fixpoint serveRequests (str : St) (engine : Engine) (ch : Channel) (requests : list Request)
  : option Channel :=
  match requests with
  | [] => Some ch
  | req :: requests' =>
      if String.eqb (req_Type req) "exec" then handleExecRequest str engine ch req
      else
        let ch := if WantReply req then send ch (EvReply false) else ch in
        serveRequests str engine ch requests'
  end.

(** [handleChannel] *)
Definition handleChannel (str : St) (engine : Engine) (channelType : string)
           (ch : Channel) (requests : list Request) : option Channel :=
  if negb (String.eqb channelType "session") then Some (emit ch EvReject)
  else
    match serveRequests str engine ch requests with
    | Some ch => Some (Close ch)
    | None => None
    end.

End GitSSHServer.
End gitssh.

(** * Properties *)

(** ** Executable checks of the embedded library functions *)

Example TrimSpace_ex :
  strings.TrimSpace "  myrepo  " = "myrepo"
  /\ strings.TrimSpace (tab +:+ "a b" +:+ nl) = "a b"
  /\ strings.Trim "/demo/" "/" = "demo"
  /\ strings.TrimSuffix "a/b/" "/" = "a/b"
  /\ strings.HasSuffix "demo.git" ".git" = true
  /\ strings.HasSuffix "git" ".git" = false
  /\ strings.LastIndex "/a/info/refs/info/refs" "/info/refs" = 12%Z
  /\ strings.Index "host:/p" ":" = 4%Z
  /\ strings.Fields "  git-upload-pack   'x y'  " = ["git-upload-pack"; "'x"; "y'"]
  /\ strings.Split "a:b:c" ":" = ["a"; "b"; "c"].
Proof. repeat split; reflexivity. Qed.

Example Clean_ex :
  path.Clean "/demo/" = "/demo" /\ path.Clean "a//b/../c/." = "a/c"
  /\ path.Clean "../a" = "../a" /\ path.Clean "/../a" = "/a" /\ path.Clean "" = "."
  /\ path.Join ["base"; "/demo.git"] = "base/demo.git"
  /\ path.Join [""; ""] = ""
  /\ path.Base "x/y.git" = "y.git" /\ path.Base "/" = "/".
Proof. repeat split; reflexivity. Qed.

(** The cases of the repository's tests of [ExtractRepoPathFromURL]. *)
Example TestExtractRepoPathFromURL :
  common.ExtractRepoPathFromURL "/test-repo.git/info/refs" "/info/refs" = "test-repo.git"
  /\ common.ExtractRepoPathFromURL "/organization/project.git/git-upload-pack" "/git-upload-pack"
     = "organization/project.git"
  /\ common.ExtractRepoPathFromURL "/test-repo.git/other/path" "/info/refs" = ""
  /\ common.ExtractRepoPathFromURL "" "/info/refs" = ""
  /\ common.ExtractRepoPathFromURL "/test-repo/info/refs" "/info/refs" = "test-repo".
Proof. repeat split; reflexivity. Qed.

(** The cases of the repository's tests of [SSHConfig.repoPathFromSSHArg]
    and [SSHConfig.parseGitCommand]. *)
Example TestSSHConfig_repoPathFromSSHArg :
  sshconfig.repoPathFromSSHArg "'repo.git'" = "repo.git"
  /\ sshconfig.repoPathFromSSHArg (String "034" "repo.git" +:+ String "034" "") = "repo.git"
  /\ sshconfig.repoPathFromSSHArg "'/repo.git'" = "repo.git"
  /\ sshconfig.repoPathFromSSHArg "':repo.git'" = "repo.git"
  /\ sshconfig.repoPathFromSSHArg "'host:/path/repo.git'" = "path/repo.git"
  /\ sshconfig.repoPathFromSSHArg "'myrepo'" = "myrepo.git"
  /\ sshconfig.repoPathFromSSHArg "''" = ""
  /\ sshconfig.repoPathFromSSHArg "  '/repo.git'  " = "repo.git".
Proof. repeat split; reflexivity. Qed.

Example TestSSHConfig_parseGitCommand :
  sshconfig.parseGitCommand "git-upload-pack '/repo.git'" = ("git-upload-pack", "'/repo.git'")
  /\ sshconfig.parseGitCommand "git-upload-pack   '/my repo.git'  "
     = ("git-upload-pack", "'/my repo.git'")
  /\ sshconfig.parseGitCommand "invalid-command" = ("", "")
  /\ sshconfig.parseGitCommand "" = ("", "").
Proof. repeat split; reflexivity. Qed.

Example hash_ex :
  plumbing.Hash_String plumbing.ZeroHash = "0000000000000000000000000000000000000000"
  /\ plumbing.NewHash "ff01" = ascii_of_nat 255 :: ascii_of_nat 1 :: repeat zero 18
  /\ plumbing.NewHash "zz" = plumbing.ZeroHash.
Proof. repeat split; reflexivity. Qed.

(** ** Strings: associativity of append, and trimming *)

Lemma append_cons (x : ascii) (a b : string) : String x a +:+ b = String x (a +:+ b).
Proof. reflexivity. Qed.

Lemma append_nil_l (a : string) : "" +:+ a = a.
Proof. reflexivity. Qed.

Lemma append_assoc (a b c : string) : (a +:+ b) +:+ c = a +:+ (b +:+ c).
Proof.
  induction a as [|x a IH]; [reflexivity |].
  now rewrite !append_cons, IH.
Qed.

Lemma append_nil_r (a : string) : a +:+ "" = a.
Proof.
  induction a as [|x a IH]; [reflexivity |].
  now rewrite append_cons, IH.
Qed.

(** ** The service announcement of the HTTP advertisement *)

(** The value of a string of hexadecimal digits. *)
Fixpoint hexValueFrom (acc : Z) (s : string) : option Z :=
  match s with
  | EmptyString => Some acc
  | String c s' =>
      match plumbing.fromHexChar c with
      | Some d => hexValueFrom (acc * 16 + Z.of_N d) s'
      | None => None
      end
  end.

Definition hexValue (s : string) : option Z := hexValueFrom 0 s.

(** The header reads back as the length it was made from, for every
    length that fits four digits. *)
Lemma fromHexChar_hexdigit (d : Z) :
  (0 <= d < 16)%Z -> plumbing.fromHexChar (common.hexdigit d) = Some (Z.to_N d).
Proof.
  intros Hd.
  assert (Hc : In d [0; 1; 2; 3; 4; 5; 6; 7; 8; 9; 10; 11; 12; 13; 14; 15]%Z)
    by (simpl; lia).
  simpl in Hc.
  repeat (destruct Hc as [<- | Hc]; [reflexivity |]). contradiction.
Qed.

Lemma hdr_hexValue (n : Z) :
  (0 <= n < 65536)%Z -> hexValue (common.hdr n) = Some n.
Proof.
  intros Hn.
  assert (Hmask : forall m, (0 <= Z.land m 15 < 16)%Z).
  { intros m. change 15%Z with (Z.ones 4). rewrite Z.land_ones by lia.
    apply Z.mod_pos_bound. reflexivity. }
  unfold hexValue, common.hdr. cbn [hexValueFrom].
  rewrite !fromHexChar_hexdigit by apply Hmask.
  f_equal. rewrite !Z2N.id by apply Hmask.
  change 15%Z with (Z.ones 4). rewrite !Z.land_ones by lia.
  rewrite !Z.shiftr_div_pow2 by lia.
  change (2 ^ 4)%Z with 16%Z. change (2 ^ 8)%Z with 256%Z. change (2 ^ 12)%Z with 4096%Z.
  rewrite (Z.mod_small (n / 4096) 16)
    by (split; [apply Z.div_pos; lia | apply Z.div_lt_upper_bound; lia]).
  pose proof (Z.div_mod n 16 ltac:(lia)) as E0.
  pose proof (Z.div_mod (n / 16) 16 ltac:(lia)) as E1.
  pose proof (Z.div_mod (n / 256) 16 ltac:(lia)) as E2.
  rewrite !Z.div_div in E1, E2 by lia.
  change (16 * 16)%Z with 256%Z in *. change (256 * 16)%Z with 4096%Z in *.
  lia.
Qed.

(** Whatever the service, a writer that accepts everything receives the
    header, the line [# service=<service>] and the terminator [0000], and
    nothing else. *)
Lemma WriteServiceAdvertisement_Buffer (pre service : string) :
  common.WriteServiceAdvertisement (mkBuffer pre) service
  = (mkBuffer (pre +:+ common.hdr (common.pktlen service)
                   +:+ "# service=" +:+ service +:+ nl +:+ "0000"), None).
Proof.
  unfold common.WriteServiceAdvertisement, Write, Buffer_Writer; simpl.
  unfold common.payload. now rewrite !append_assoc.
Qed.

(** C3, as stated, fails: for [git-upload-pack] the header written is
    [001e], not [0032], and the length it encodes is 30, not 50. *)
Lemma C3_header_is_not_0032 :
  common.WriteServiceAdvertisement (mkBuffer "") "git-upload-pack"
  = (mkBuffer ("001e# service=git-upload-pack" +:+ nl +:+ "0000"), None)
  /\ "001e# service=git-upload-pack" +:+ nl +:+ "0000"
     <> "0032# service=git-upload-pack" +:+ nl +:+ "0000"
  /\ common.pktlen "git-upload-pack" <> 50%Z.
Proof. split; [reflexivity | split; discriminate]. Qed.

(** C3, amended: for the service [git-upload-pack] the announcement written
    before the engine payload is exactly [001e# service=git-upload-pack],
    a line feed, and [0000]: a header of four hexadecimal digits whose value
    0x001e = 30 counts the header itself (4) and the 26 bytes of the line,
    then the line, then the terminator. *)
Theorem C3_upload_pack_announcement :
  forall pre : string,
    common.WriteServiceAdvertisement (mkBuffer pre) "git-upload-pack"
    = (mkBuffer (pre +:+ "001e" +:+ "# service=git-upload-pack" +:+ nl +:+ "0000"), None)
    /\ common.hdr (common.pktlen "git-upload-pack") = "001e"
    /\ hexValue "001e" = Some 30%Z
    /\ common.pktlen "git-upload-pack"
       = (4 + Z.of_nat (String.length ("# service=git-upload-pack" +:+ nl)))%Z
    /\ String.length ("# service=git-upload-pack" +:+ nl) = 26%nat.
Proof.
  intros pre. split; [| repeat split; reflexivity].
  now rewrite WriteServiceAdvertisement_Buffer.
Qed.

(** A write that the medium refuses stops the announcement at once. *)
Example WriteServiceAdvertisement_short_write :
  common.WriteServiceAdvertisement (mkLimited "" 10) "git-upload-pack"
  = (mkLimited "001e" 6, Some (ErrorString "short write")).
Proof. reflexivity. Qed.

(** ** The blob store: what a write leaves behind *)

Section BlobStore.
Import awss3.

Lemma PutObject_ok (c : Client) (b k body : string) (md : gmap string string) :
  net c k <> RequestFails ->
  PutObject c b k body md
  = (mkClient (<[(b, k) := mkObject body md]> (objects c)) (net c), None).
Proof. unfold PutObject. destruct (net c k); congruence. Qed.

Lemma PutObject_fails (c : Client) (b k body : string) (md : gmap string string) :
  net c k = RequestFails -> PutObject c b k body md = (c, Some errRequest).
Proof. unfold PutObject. now intros ->. Qed.

(** A failed write leaves the store as it was. *)
Lemma PutObject_error_unchanged (c c' : Client) (b k body : string)
      (md : gmap string string) (err : error) :
  PutObject c b k body md = (c', Some err) -> c' = c.
Proof. unfold PutObject. destruct (net c k); congruence. Qed.

Lemma PutObject_net (c : Client) (b k body : string) (md : gmap string string) (k' : string) :
  net (fst (PutObject c b k body md)) k' = net c k'.
Proof. unfold PutObject. now destruct (net c k). Qed.

(** Reading back, over a healthy link, the key just written. *)
Lemma GetObject_after_PutObject (c : Client) (b k body : string) (md : gmap string string) :
  net c k = Healthy ->
  GetObject (fst (PutObject c b k body md)) b k
  = inr (mkGetObjectOutput (io.mkReader body None) md).
Proof.
  intros Hk. rewrite PutObject_ok by congruence. unfold GetObject. cbn.
  rewrite Hk. now rewrite lookup_insert_eq.
Qed.

(** Writing the same blob under the same key again changes nothing. *)
Lemma PutObject_twice (c : Client) (b k body : string) (md : gmap string string) :
  let c' := fst (PutObject c b k body md) in
  PutObject c' b k body md = (c', snd (PutObject c b k body md)).
Proof.
  unfold PutObject. destruct (net c k) eqn:Hk; cbn; rewrite Hk; try reflexivity;
    now rewrite insert_insert_eq.
Qed.

Lemma GetObject_absent (c : Client) (b k : string) :
  objects c !! (b, k) = None -> exists err, GetObject c b k = inl err.
Proof.
  intros Hnone. unfold GetObject. rewrite Hnone. destruct (net c k); eauto.
Qed.

End BlobStore.

(** An instance of the go-git interface on which the storer can be run: a
    stand-in digest that pads or cuts the type name and the content to 20
    bytes, short names by dropping a [refs/...] prefix, configurations kept
    as their text (a text with a NUL byte does not parse), and objects
    encoded as the text of their fields. *)
Definition sampleDigest (t : plumbing.ObjectType) (content : string) : plumbing.Hash :=
  take 20 (list_ascii_of_string (plumbing.ObjectType_String t +:+ content)
           ++ plumbing.ZeroHash).

Definition sampleShort (name : plumbing.ReferenceName) : string :=
  if strings.HasPrefix name "refs/heads/" then strings.TrimPrefix name "refs/heads/"
  else if strings.HasPrefix name "refs/tags/" then strings.TrimPrefix name "refs/tags/"
  else if strings.HasPrefix name "refs/remotes/" then strings.TrimPrefix name "refs/remotes/"
  else strings.TrimPrefix name "refs/".

Definition sampleUnmarshal (content : string) : string * option error :=
  if strings.Contains content (String zero EmptyString)
  then ("", Some (ErrorString "config: unexpected NUL byte"))
  else (content, None).

Definition sampleTreeEncode (entries : list (string * Z * plumbing.Hash))
  : error + plumbing.MemoryObject :=
  let content :=
    strings.Join (map (fun e => fst (fst e) +:+ " " +:+ plumbing.Hash_String (snd e)) entries) nl in
  inr (plumbing.mkMemoryObject plumbing.TreeObject plumbing.ZeroHash content
         (Z.of_nat (String.length content))).

Definition sampleCommitEncode (commit : object.Commit) : error + plumbing.MemoryObject :=
  let content :=
    "tree " +:+ plumbing.Hash_String (object.TreeHash commit) +:+ nl +:+ nl
            +:+ object.Message commit in
  inr (plumbing.mkMemoryObject plumbing.CommitObject plumbing.ZeroHash content
         (Z.of_nat (String.length content))).

Definition sampleGoGit : GoGit := {|
  ComputeHash := sampleDigest;
  Short := sampleShort;
  config_Config := string;
  Config_zero := "";
  Config_Unmarshal := sampleUnmarshal;
  Config_Marshal := fun cfg => inr cfg;
  Tree_Encode := sampleTreeEncode;
  Commit_Encode := sampleCommitEncode
|}.

(** A store with nothing in it, behind a healthy network. *)
Definition emptyClient : awss3.Client := awss3.mkClient ∅ (fun _ => awss3.Healthy).

(** A store that holds one blob, without metadata, in the bucket [git]. *)
Definition mkClientWith (key body : string) : awss3.Client :=
  awss3.mkClient {[ ("git", key) := awss3.mkObject body ∅ ]} (fun _ => awss3.Healthy).

Definition demoStorer : s3.S3Storer := s3.mkS3Storer "git" "repositories/demo.git".

(** ** The storer: configuration *)

Section StorerConfig.
Context `{GoGit}.
Import awss3.

(** C10: reading the configuration never fails because the blob is not
    there.  When the key [<repoPath>/config] is absent from the store,
    [Config] returns the zero configuration and no error, whatever the state
    of the network; it does so too when the request itself fails; and an
    error of [Config] is either the failure of reading the body of a config
    blob that exists, or the error of parsing its bytes. *)
Theorem C10_Config_never_not_found :
  forall (s : s3.S3Storer) (c : Client),
    let key := s3.getObjectKey s "config" in
    (objects c !! (s3.bucket s, key) = None -> s3.Config s c = (Some Config_zero, None))
    /\ (net c key = RequestFails -> s3.Config s c = (Some Config_zero, None))
    /\ (forall err, snd (s3.Config s c) = Some err ->
        exists blob,
          objects c !! (s3.bucket s, key) = Some blob
          /\ ((net c key = BodyReadFails /\ err = errBody)
              \/ (net c key = Healthy /\ snd (Config_Unmarshal (Body blob)) = Some err))).
Proof.
  intros s c key. unfold s3.Config. fold key. unfold GetObject.
  repeat split.
  - intros ->. now destruct (net c key).
  - now intros ->.
  - intros err.
    destruct (net c key) eqn:Hnet; cbn;
      destruct (objects c !! (s3.bucket s, key)) as [blob|] eqn:Hblob; cbn;
      try discriminate.
    + destruct (Config_Unmarshal (Body blob)) as [cfg e] eqn:Hu. cbn.
      intros ->. exists blob. split; [reflexivity |]. right. now rewrite Hu.
    + intros [= <-]. exists blob. split; [reflexivity |]. now left.
Qed.

End StorerConfig.

(** Before creation and after deletion alike the store holds no config
    blob: on the empty store the configuration is the zero value. *)
Example Config_on_empty_store :
  s3.Config (H := sampleGoGit) demoStorer emptyClient = (Some "", None).
Proof. reflexivity. Qed.

(** A config blob that does not parse is the one way to an error over a
    healthy network. *)
Example Config_parse_error :
  let c := fst (awss3.PutObject emptyClient "git" "repositories/demo.git/config"
                  (String zero "[core]") ∅) in
  s3.Config (H := sampleGoGit) demoStorer c
  = (Some "", Some (ErrorString "config: unexpected NUL byte")).
Proof. reflexivity. Qed.

(** ** The storer: objects *)

Section StorerObjects.
Context `{GoGit}.
Import awss3 plumbing.

(** The four types of object that Git stores. *)
Definition storable (t : ObjectType) : Prop :=
  t = BlobObject \/ t = TreeObject \/ t = CommitObject \/ t = TagObject.

(** A fresh memory object reports the digest of its type and content. *)
Lemma MemoryObject_Hash_newObject (t : ObjectType) (p : string) :
  s3.MemoryObject_Hash (s3.newObject t p) = ComputeHash t p.
Proof.
  unfold s3.MemoryObject_Hash, s3.newObject; cbn.
  destruct (decide _) as [_ | Hn]; [reflexivity | now destruct Hn].
Qed.

(** The type written as metadata reads back as the same type. *)
Lemma git_type_roundtrip (t t' : ObjectType) :
  storable t ->
  (let gitType := ObjectType_String t in
   if String.eqb gitType "commit" then CommitObject
   else if String.eqb gitType "tree" then TreeObject
   else if String.eqb gitType "blob" then BlobObject
   else if String.eqb gitType "tag" then TagObject
   else t') = t.
Proof. intros [-> | [-> | [-> | ->]]]; reflexivity. Qed.

(** What [SetEncodedObject] does with a fresh memory object when the
    request goes through: one blob under the key of the digest, the type as
    metadata. *)
Lemma SetEncodedObject_newObject (s : s3.S3Storer) (c : Client) (t : ObjectType) (p : string) :
  storable t ->
  let h := ComputeHash t p in
  let key := s3.getObjectKey s (s3.objectPathOf h) in
  net c key <> RequestFails ->
  s3.SetEncodedObject s c (s3.ofMemoryObject (s3.newObject t p))
  = (mkClient (<[(s3.bucket s, key) := mkObject p {[ "git-type" := ObjectType_String t ]}]>
                 (objects c)) (net c),
     (h, None)).
Proof.
  intros Ht h key Hnet. unfold s3.SetEncodedObject, s3.ofMemoryObject.
  cbn [eo_Type eo_Hash eo_Reader]. rewrite MemoryObject_Hash_newObject.
  cbn [s3.newObject mo_t mo_cont].
  destruct (decide (t = OFSDeltaObject ∨ t = REFDeltaObject)) as [[-> | ->] | _].
  - destruct Ht as [? | [? | [? | ?]]]; discriminate.
  - destruct Ht as [? | [? | [? | ?]]]; discriminate.
  - cbn [io.ReadAll io.rd_err io.rd_data].
    assert (Hh : (if decide (ComputeHash t p = ZeroHash) then ComputeHash t p
                  else ComputeHash t p) = h) by (now destruct (decide _)).
    rewrite Hh. fold key. now rewrite PutObject_ok.
Qed.

(** C2: content addressing on the remote back end.  For a type [t] among
    blob, tree, commit and tag and a payload [p], storing the object made of
    them returns the hash [ComputeHash t p], a function of [t] and [p] alone
    (neither the repository nor the state of the store enters it); reading
    that hash back, whatever type the caller asks for, returns an object of
    type [t] with payload [p]; and storing the same object again returns the
    same hash and leaves the store exactly as it was: the same key holds the
    same bytes and no second blob appears. *)
Theorem C2_content_addressing :
  forall (s : s3.S3Storer) (c : Client) (t : ObjectType) (p : string),
    storable t ->
    net c (s3.getObjectKey s (s3.objectPathOf (ComputeHash t p))) = Healthy ->
    let obj := s3.ofMemoryObject (s3.newObject t p) in
    let h := ComputeHash t p in
    exists c' : Client,
      s3.SetEncodedObject s c obj = (c', (h, None))
      /\ (forall t', exists stored,
            s3.EncodedObject s c' t' h = inr stored
            /\ mo_t stored = t /\ mo_cont stored = p
            /\ mo_sz stored = Z.of_nat (String.length p))
      /\ s3.SetEncodedObject s c' obj = (c', (h, None))
      /\ (forall k, k <> (s3.bucket s, s3.getObjectKey s (s3.objectPathOf h)) ->
            objects c' !! k = objects c !! k).
Proof.
  intros s c t p Ht Hnet obj h. subst obj h.
  set (h := ComputeHash t p) in *.
  set (key := s3.getObjectKey s (s3.objectPathOf h)) in *.
  assert (Hput : net c key <> RequestFails) by congruence.
  eexists. split; [now apply SetEncodedObject_newObject |].
  repeat split.
  - intros t'. unfold s3.EncodedObject. fold key. unfold GetObject. cbn.
    rewrite Hnet, lookup_insert_eq. cbn.
    eexists. split; [reflexivity |]. cbn. rewrite lookup_singleton_eq.
    repeat split. now apply git_type_roundtrip.
  - rewrite SetEncodedObject_newObject; [| exact Ht | exact Hput].
    cbn. fold h key. now rewrite insert_insert_eq.
  - intros k Hk. cbn. now rewrite lookup_insert_ne.
Qed.

End StorerObjects.

(** C2 on a store: a blob with payload [hello] in the repository
    [demo.git]. *)
Lemma C2_content_addressing_witness :
  exists c' : awss3.Client,
    let obj := s3.ofMemoryObject (H := sampleGoGit) (s3.newObject plumbing.BlobObject "hello") in
    let h := sampleDigest plumbing.BlobObject "hello" in
    s3.SetEncodedObject (H := sampleGoGit) demoStorer emptyClient obj = (c', (h, None))
    /\ (forall t', exists stored,
          s3.EncodedObject demoStorer c' t' h = inr stored
          /\ plumbing.mo_t stored = plumbing.BlobObject
          /\ plumbing.mo_cont stored = "hello"
          /\ plumbing.mo_sz stored = Z.of_nat (String.length "hello"))
    /\ s3.SetEncodedObject (H := sampleGoGit) demoStorer c' obj = (c', (h, None))
    /\ (forall k,
          k <> (s3.bucket demoStorer,
                s3.getObjectKey demoStorer (s3.objectPathOf h)) ->
          awss3.objects c' !! k = awss3.objects emptyClient !! k).
Proof.
  apply (C2_content_addressing (H := sampleGoGit) demoStorer emptyClient
           plumbing.BlobObject "hello").
  - left. reflexivity.
  - reflexivity.
Defined.

(** The key of that blob: the fan-out on the first two digits of the
    hash. *)
Example object_key_ex :
  s3.getObjectKey demoStorer (s3.objectPathOf (sampleDigest plumbing.BlobObject "hello"))
  = "repositories/demo.git/objects/62/6c6f6268656c6c6f0000000000000000000000".
Proof. reflexivity. Qed.

(** Delta objects are refused. *)
Example SetEncodedObject_delta :
  s3.SetEncodedObject (H := sampleGoGit) demoStorer emptyClient
    (plumbing.mkEncodedObject plumbing.REFDeltaObject plumbing.ZeroHash
       (inr (io.mkReader "x" None)))
  = (emptyClient, (plumbing.ZeroHash, Some plumbing.ErrInvalidType)).
Proof. reflexivity. Qed.

(** ** Trimming: when it changes nothing *)

Section Trimming.
Import strings.

(** One step of [trimLeft]: it stops, or goes on with a shorter string. *)
Lemma trimLeft_step (s : string) :
  trimLeft s = s
  \/ exists s', trimLeft s = trimLeft s' /\ (String.length s' < String.length s)%nat.
Proof.
  destruct s as [|c1 s1]; [now left |].
  destruct (isSpace c1) eqn:H1.
  { right. exists s1. split; [cbn [trimLeft]; now rewrite H1 | cbn; lia]. }
  destruct s1 as [|c2 s2]; [left; cbn [trimLeft]; now rewrite H1 |].
  destruct (isSpace2 c1 c2) eqn:H2.
  { right. exists s2. split; [cbn [trimLeft]; now rewrite H1, H2 | cbn; lia]. }
  destruct s2 as [|c3 s3]; [left; cbn [trimLeft]; now rewrite H1, H2 |].
  destruct (isSpace3 c1 c2 c3) eqn:H3.
  { right. exists s3. split; [cbn [trimLeft]; now rewrite H1, H2, H3 | cbn; lia]. }
  left. cbn [trimLeft]. now rewrite H1, H2, H3.
Qed.

Lemma trimLeft_length (s : string) :
  (String.length (trimLeft s) <= String.length s)%nat.
Proof.
  remember (String.length s) as n eqn:Hn.
  revert s Hn. induction n as [n IH] using lt_wf_ind. intros s ->.
  destruct (trimLeft_step s) as [-> | (s' & -> & Hlt)]; [lia |].
  specialize (IH _ Hlt s' eq_refl). lia.
Qed.

Lemma trimLeft_same_length (s : string) :
  String.length (trimLeft s) = String.length s -> trimLeft s = s.
Proof.
  destruct (trimLeft_step s) as [-> | (s' & -> & Hlt)]; [reflexivity |].
  pose proof (trimLeft_length s'). lia.
Qed.

Lemma trimRight_length (s : string) :
  (String.length (trimRight s) <= String.length s)%nat.
Proof.
  induction s as [|c s IH]; [cbn; lia |].
  cbn [trimRight]. destruct (trimLeft (String c s)); cbn in *; lia.
Qed.

(** A string that [TrimSpace] leaves alone is left alone at either end. *)
Lemma TrimSpace_fixed (s : string) :
  TrimSpace s = s -> trimLeft s = s /\ trimRight s = s.
Proof.
  unfold TrimSpace. intros Hfix.
  assert (Hl : trimLeft s = s).
  { apply trimLeft_same_length.
    pose proof (trimLeft_length s).
    pose proof (trimRight_length (trimLeft s)) as Hle.
    rewrite Hfix in Hle. lia. }
  split; [exact Hl | now rewrite Hl in Hfix].
Qed.

(** A byte of ASCII that is not white space. *)
Definition plain (c : ascii) : bool := negb (isSpace c) && (N_of_ascii c <? 128)%N.

Lemma trimLeft_plain (c : ascii) (s : string) :
  plain c = true -> trimLeft (String c s) = String c s.
Proof.
  intros Hc. assert (H1 : isSpace c = false /\ forall c2, isSpace2 c c2 = false
                          /\ forall c3, isSpace3 c c2 c3 = false).
  { unfold plain in Hc. apply andb_prop in Hc as [Hs Hlt].
    apply negb_true_iff in Hs. apply N.ltb_lt in Hlt.
    split; [exact Hs |]. intros c2.
    unfold isSpace2, isSpace3. cbv zeta.
    assert (E194 : (N_of_ascii c =? 194)%N = false) by (apply N.eqb_neq; lia).
    assert (E225 : (N_of_ascii c =? 225)%N = false) by (apply N.eqb_neq; lia).
    assert (E226 : (N_of_ascii c =? 226)%N = false) by (apply N.eqb_neq; lia).
    assert (E227 : (N_of_ascii c =? 227)%N = false) by (apply N.eqb_neq; lia).
    rewrite E194, E225, E226, E227. split; [reflexivity | intros c3; reflexivity]. }
  destruct H1 as [Hs H2]. cbn [trimLeft]. rewrite Hs.
  destruct s as [|c2 s2]; [reflexivity |]. destruct (H2 c2) as [-> H3].
  destruct s2 as [|c3 s3]; [reflexivity |]. now rewrite H3.
Qed.

Lemma trimRight_plain (c : ascii) (s : string) :
  plain c = true -> trimRight (String c s) = String c (trimRight s).
Proof. intros Hc. cbn [trimRight]. now rewrite trimLeft_plain. Qed.

(** The bytes of [s] are all plain. *)
Fixpoint allPlain (s : string) : bool :=
  match s with
  | EmptyString => true
  | String c s' => plain c && allPlain s'
  end.

Lemma TrimSpace_allPlain (s : string) : allPlain s = true -> TrimSpace s = s.
Proof.
  intros Hs. unfold TrimSpace.
  assert (Hl : trimLeft s = s).
  { destruct s as [|c s]; [reflexivity |]. cbn in Hs. apply andb_prop in Hs as [Hc _].
    now apply trimLeft_plain. }
  rewrite Hl. induction s as [|c s IH]; [reflexivity |].
  cbn in Hs. apply andb_prop in Hs as [Hc Hs'].
  rewrite trimRight_plain by exact Hc. f_equal. apply IH; [exact Hs' |].
  destruct s as [|c' s]; [reflexivity |]. cbn in Hs'. apply andb_prop in Hs' as [Hc' _].
  now apply trimLeft_plain.
Qed.

End Trimming.

(** ** Hashes: the hexadecimal form reads back *)

Section HashText.
Import plumbing.

Lemma hex_byte (b : ascii) (rest : string) :
  let hi := hexdigit (N_of_ascii b / 16) in
  let lo := hexdigit (N_of_ascii b mod 16) in
  hexDecode (String hi (String lo rest)) = b :: hexDecode rest
  /\ plain hi = true /\ plain lo = true
  /\ String.prefix "ref: " (String hi (String lo rest)) = false.
Proof.
  destruct b as [[] [] [] [] [] [] [] []]; repeat split; reflexivity.
Qed.

Lemma hexDecode_Hash_String (h : Hash) : hexDecode (Hash_String h) = h.
Proof.
  induction h as [|b h IH]; [reflexivity |].
  cbn [Hash_String]. destruct (hex_byte b (Hash_String h)) as [-> _].
  now rewrite IH.
Qed.

Lemma Hash_String_allPlain (h : Hash) : allPlain (Hash_String h) = true.
Proof.
  induction h as [|b h IH]; [reflexivity |].
  cbn [Hash_String allPlain].
  destruct (hex_byte b (Hash_String h)) as (_ & -> & -> & _). exact IH.
Qed.

Lemma TrimSpace_Hash_String (h : Hash) :
  strings.TrimSpace (Hash_String h) = Hash_String h.
Proof. apply TrimSpace_allPlain, Hash_String_allPlain. Qed.

Lemma Hash_String_not_symbolic (h : Hash) :
  strings.HasPrefix (Hash_String h) "ref: " = false.
Proof.
  destruct h as [|b h]; [reflexivity |].
  unfold strings.HasPrefix. cbn [Hash_String].
  now destruct (hex_byte b (Hash_String h)) as (_ & _ & _ & ->).
Qed.

(** A hash of 20 bytes is the hash of its text. *)
Lemma NewHash_Hash_String (h : Hash) : wf_hash h -> NewHash (Hash_String h) = h.
Proof.
  intros Hwf. unfold NewHash. rewrite hexDecode_Hash_String.
  now apply take_app_length'.
Qed.

Lemma HasPrefix_append (a t : string) : strings.HasPrefix (a +:+ t) a = true.
Proof.
  unfold strings.HasPrefix. induction a as [|x a IH]; [now destruct t |].
  rewrite append_cons. cbn. now destruct (ascii_dec x x).
Qed.

(** The text of a symbolic reference survives trimming and is recognised
    by its prefix, provided the target is not empty and has no white space
    around it. *)
Lemma TrimSpace_symbolic (target : string) :
  target <> "" -> strings.TrimSpace target = target ->
  strings.TrimSpace ("ref: " +:+ target) = "ref: " +:+ target.
Proof.
  intros Hne Htrim. apply TrimSpace_fixed in Htrim as [Hl Hr].
  unfold strings.TrimSpace.
  change ("ref: " +:+ target) with (String "r" (String "e" (String "f" (String ":" (String " " target))))).
  rewrite trimLeft_plain by reflexivity.
  rewrite !trimRight_plain by reflexivity.
  do 4 f_equal. cbn [strings.trimRight strings.trimLeft].
  change (strings.isSpace " ") with true. cbv iota.
  rewrite Hl, Hr. now destruct target.
Qed.

End HashText.

(** ** The storer: references and compare-and-swap *)

Section StorerReferences.
Context `{GoGit}.
Import awss3 plumbing.

(** A reference as [NewHashReference] and [NewSymbolicReference] build it,
    with a hash of 20 bytes, or with a target that is not empty and has no
    white space around it. *)
Definition canonical (r : Reference) : Prop :=
  (exists h, r = NewHashReference (ref_n r) h /\ wf_hash h)
  \/ (exists target, r = NewSymbolicReference (ref_n r) target
                     /\ target <> "" /\ strings.TrimSpace target = target).

(** The two values differ as [CheckAndSetReference] compares them: by hash
    when both are direct, by target when both are symbolic, and always when
    the types do not go together. *)
Definition differs (old current : Reference) : Prop :=
  (ref_t old = HashReference /\ ref_t current = HashReference
   /\ ref_h old <> ref_h current)
  \/ (ref_t old = SymbolicReference /\ ref_t current = SymbolicReference
      /\ ref_target old <> ref_target current)
  \/ (~ (ref_t old = HashReference /\ ref_t current = HashReference)
      /\ ~ (ref_t old = SymbolicReference /\ ref_t current = SymbolicReference)).

Lemma readRefKey_writeRefKey (s : s3.S3Storer) (n : ReferenceName) :
  strings.HasPrefix n "/" = false -> s3.readRefKey s n = s3.writeRefKey s n.
Proof. intros Hn. unfold s3.readRefKey, s3.writeRefKey. now rewrite Hn. Qed.

(** What is read is direct or symbolic, under the name asked for. *)
Lemma Reference_shape (s : s3.S3Storer) (c : Client) (n : ReferenceName) (r : Reference) :
  s3.Reference s c n = inr r ->
  ref_n r = n /\ (ref_t r = HashReference \/ ref_t r = SymbolicReference).
Proof.
  unfold s3.Reference.
  destruct (GetObject _ _ _) as [|out]; [discriminate |].
  destruct (io.ReadAll _) as [|content]; [discriminate |].
  destruct (strings.HasPrefix _ _); intros [= <-]; cbn; auto.
Qed.

(** The text written for a canonical reference parses back to it. *)
Lemma parse_refContent (r : Reference) :
  canonical r ->
  let contentStr := strings.TrimSpace (s3.refContent r) in
  (if strings.HasPrefix contentStr "ref: "
   then NewSymbolicReference (ref_n r) (strings.TrimPrefix contentStr "ref: ")
   else NewHashReference (ref_n r) (NewHash contentStr)) = r.
Proof.
  destruct r as [t n h0 target0].
  intros [(h & Hr & Hwf) | (target & Hr & Hne & Htrim)]; cbv zeta;
    cbn [ref_n] in *; injection Hr as -> -> ->;
    unfold s3.refContent; cbn [ref_t ref_h ref_target ref_n].
  - destruct (decide _) as [_ | Hn]; [| now destruct Hn].
    now rewrite TrimSpace_Hash_String, Hash_String_not_symbolic, NewHash_Hash_String.
  - destruct (decide _) as [Hn | _]; [discriminate Hn |].
    rewrite TrimSpace_symbolic by assumption.
    unfold strings.TrimPrefix. now rewrite !HasPrefix_append.
Qed.

(** Writing a canonical reference over a healthy link, and reading it
    back. *)
Lemma Reference_after_SetReference (s : s3.S3Storer) (c : Client) (r : Reference) :
  canonical r ->
  strings.HasPrefix (ref_n r) "/" = false ->
  net c (s3.writeRefKey s (ref_n r)) = Healthy ->
  exists c', s3.SetReference s c r = (c', None) /\ s3.Reference s c' (ref_n r) = inr r.
Proof.
  intros Hcan Hname Hnet. unfold s3.SetReference.
  rewrite PutObject_ok by congruence.
  eexists. split; [reflexivity |].
  unfold s3.Reference. rewrite readRefKey_writeRefKey by exact Hname.
  unfold GetObject. cbn [net objects]. rewrite Hnet, lookup_insert_eq.
  cbn [io.ReadAll io.rd_err io.rd_data out_Body Body].
  pose proof (parse_refContent r Hcan) as Hparse. cbv zeta in Hparse.
  destruct (strings.HasPrefix (strings.TrimSpace (s3.refContent r)) "ref: ") eqn:Hp;
    now rewrite Hparse.
Qed.

(** The outcome of [CheckAndSetReference] case by case. *)
Lemma CheckAndSetReference_same (s : s3.S3Storer) (c : Client) (new old : Reference) :
  s3.Reference s c (ref_n old) = inr old ->
  s3.CheckAndSetReference s c new (Some old) = s3.SetReference s c new.
Proof.
  intros Hcur. unfold s3.CheckAndSetReference. rewrite Hcur.
  destruct (Reference_shape _ _ _ _ Hcur) as [_ [Ht | Ht]].
  - destruct (decide _) as [_ | Hn]; [| now destruct Hn].
    destruct (decide _) as [Hd | _]; [now destruct Hd | reflexivity].
  - destruct (decide _) as [[Hh _] | _]; [congruence |].
    destruct (decide _) as [_ | Hn]; [| now destruct Hn].
    destruct (decide _) as [Hd | _]; [now destruct Hd | reflexivity].
Qed.

Lemma CheckAndSetReference_conflict (s : s3.S3Storer) (c : Client) (new old current : Reference) :
  s3.Reference s c (ref_n old) = inr current ->
  differs old current ->
  exists msg,
    s3.CheckAndSetReference s c new (Some old) = (c, Some (ErrorString msg))
    /\ (msg = "reference has changed" \/ msg = "reference type mismatch").
Proof.
  intros Hcur Hdiff. unfold s3.CheckAndSetReference. rewrite Hcur.
  destruct Hdiff as [(Ho & Hc & Hne) | [(Ho & Hc & Hne) | (Hnh & Hns)]].
  - destruct (decide _) as [_ | Hn]; [| now destruct Hn].
    destruct (decide _) as [_ | Hn]; [eauto | contradiction].
  - destruct (decide _) as [[Hh _] | _]; [congruence |].
    destruct (decide _) as [_ | Hn]; [| now destruct Hn].
    destruct (decide _) as [_ | Hn]; [eauto | contradiction].
  - destruct (decide _) as [Hh | _]; [contradiction |].
    destruct (decide _) as [Hs | _]; [contradiction | eauto].
Qed.

(** C1, amended: compare-and-swap on the remote back end.  For a reference
    name [n] that does not begin with a slash, reachable over a healthy
    link, and values [A] and [B] under that name, [B] canonical:
    - when the reference holds [A], [CheckAndSetReference B A] succeeds and
      the reference then holds [B];
    - when it holds a value that differs from [A] (by hash for direct
      references, by target for symbolic ones, a mismatch of types counting
      as a difference) the call fails with [reference has changed] or
      [reference type mismatch] and the store is unchanged;
    - when the reference cannot be read (it does not exist) the call
      fails with the error of the read, [reference not found], and the
      store is unchanged;
    - when no expected value is given the call writes [B] without looking:
      it succeeds and the reference holds [B], whether or not it existed. *)
Theorem C1_compare_and_swap :
  forall (s : s3.S3Storer) (c : Client) (n : ReferenceName) (A B : Reference),
    ref_n A = n -> ref_n B = n -> canonical B ->
    strings.HasPrefix n "/" = false ->
    net c (s3.writeRefKey s n) = Healthy ->
    (s3.Reference s c n = inr A ->
     exists c', s3.CheckAndSetReference s c B (Some A) = (c', None)
                /\ s3.Reference s c' n = inr B)
    /\ (forall current, s3.Reference s c n = inr current -> differs A current ->
        exists msg, s3.CheckAndSetReference s c B (Some A) = (c, Some (ErrorString msg))
                    /\ (msg = "reference has changed" \/ msg = "reference type mismatch"))
    /\ (objects c !! (s3.bucket s, s3.readRefKey s n) = None ->
        s3.CheckAndSetReference s c B (Some A) = (c, Some ErrReferenceNotFound))
    /\ (exists c', s3.CheckAndSetReference s c B None = (c', None)
                   /\ s3.Reference s c' n = inr B).
Proof.
  intros s c n A B HA HB Hcan Hname Hnet.
  assert (Hset : exists c', s3.SetReference s c B = (c', None)
                            /\ s3.Reference s c' n = inr B).
  { rewrite <- HB in *. now apply Reference_after_SetReference. }
  repeat split.
  - intros Hcur. rewrite <- HA in Hcur.
    rewrite CheckAndSetReference_same by exact Hcur. exact Hset.
  - intros current Hcur Hdiff. rewrite <- HA in Hcur.
    now apply CheckAndSetReference_conflict with (current := current).
  - intros Habsent. unfold s3.CheckAndSetReference, s3.Reference.
    rewrite HA. unfold GetObject. rewrite Habsent.
    now destruct (net c (s3.readRefKey s n)).
  - exact Hset.
Qed.

End StorerReferences.

(** The branch [main] of [demo.git], at a commit [aa...] and moved to a
    commit [bb...]. *)
Definition hashA : plumbing.Hash := repeat "a"%char 20.
Definition hashB : plumbing.Hash := repeat "b"%char 20.
Definition mainA : plumbing.Reference := plumbing.NewHashReference "refs/heads/main" hashA.
Definition mainB : plumbing.Reference := plumbing.NewHashReference "refs/heads/main" hashB.

Definition storeA : awss3.Client :=
  fst (s3.SetReference (H := sampleGoGit) demoStorer emptyClient mainA).

Example storeA_holds_mainA :
  awss3.objects storeA !! ("git", "repositories/demo.git/refs/heads/main")
  = Some (awss3.mkObject "6161616161616161616161616161616161616161" ∅)
  /\ s3.Reference (H := sampleGoGit) demoStorer storeA "refs/heads/main" = inr mainA.
Proof. split; reflexivity. Qed.

(** C1, as stated, fails in its last part: with no expected value the call
    succeeds although the reference exists, and overwrites it. *)
Lemma C1_nil_expected_overwrites :
  s3.Reference (H := sampleGoGit) demoStorer storeA "refs/heads/main" = inr mainA
  /\ exists c' : awss3.Client,
       s3.CheckAndSetReference (H := sampleGoGit) demoStorer storeA mainB None = (c', None)
       /\ s3.Reference (H := sampleGoGit) demoStorer c' "refs/heads/main" = inr mainB.
Proof.
  split; [reflexivity |].
  exists (fst (s3.SetReference (H := sampleGoGit) demoStorer storeA mainB)).
  split; reflexivity.
Qed.

(** C1 on the store where [main] is at [aa...]. *)
Lemma C1_compare_and_swap_witness :
  (s3.Reference (H := sampleGoGit) demoStorer storeA "refs/heads/main" = inr mainA ->
   exists c', s3.CheckAndSetReference (H := sampleGoGit) demoStorer storeA mainB (Some mainA)
              = (c', None)
              /\ s3.Reference (H := sampleGoGit) demoStorer c' "refs/heads/main" = inr mainB)
  /\ (forall current,
        s3.Reference (H := sampleGoGit) demoStorer storeA "refs/heads/main" = inr current ->
        differs mainA current ->
        exists msg,
          s3.CheckAndSetReference (H := sampleGoGit) demoStorer storeA mainB (Some mainA)
          = (storeA, Some (ErrorString msg))
          /\ (msg = "reference has changed" \/ msg = "reference type mismatch"))
  /\ (awss3.objects storeA
        !! (s3.bucket demoStorer, s3.readRefKey (H := sampleGoGit) demoStorer "refs/heads/main")
      = None ->
      s3.CheckAndSetReference (H := sampleGoGit) demoStorer storeA mainB (Some mainA)
      = (storeA, Some plumbing.ErrReferenceNotFound))
  /\ (exists c', s3.CheckAndSetReference (H := sampleGoGit) demoStorer storeA mainB None
                 = (c', None)
                 /\ s3.Reference (H := sampleGoGit) demoStorer c' "refs/heads/main" = inr mainB).
Proof.
  apply (C1_compare_and_swap (H := sampleGoGit) demoStorer storeA "refs/heads/main" mainA mainB).
  - reflexivity.
  - reflexivity.
  - left. exists hashB. split; reflexivity.
  - reflexivity.
  - reflexivity.
Defined.

(** The second call with the stale expectation: the reference has moved to
    [bb...], the expected value is still [aa...]; the call fails and the
    reference stays at [bb...]. *)
Example stale_expectation_conflicts :
  let storeB := fst (s3.CheckAndSetReference (H := sampleGoGit) demoStorer storeA mainB (Some mainA)) in
  s3.Reference (H := sampleGoGit) demoStorer storeB "refs/heads/main" = inr mainB
  /\ s3.CheckAndSetReference (H := sampleGoGit) demoStorer storeB mainB (Some mainA)
     = (storeB, Some (ErrorString "reference has changed"))
  /\ s3.CheckAndSetReference (H := sampleGoGit) demoStorer storeB mainB
       (Some (plumbing.NewSymbolicReference "refs/heads/main" "refs/heads/dev"))
     = (storeB, Some (ErrorString "reference type mismatch")).
Proof. repeat split; reflexivity. Qed.

(** An expected value for a reference that is not there: the error is the
    one of the read. *)
Example expectation_on_absent_reference :
  s3.CheckAndSetReference (H := sampleGoGit) demoStorer emptyClient mainB (Some mainA)
  = (emptyClient, Some plumbing.ErrReferenceNotFound).
Proof. reflexivity. Qed.

(** A symbolic reference whose target is empty does not read back: its
    text [ref: ] loses the space to trimming and is then taken for a
    hash. *)
Example empty_target_reads_back_as_hash :
  let head := plumbing.NewSymbolicReference "HEAD" "" in
  let c := fst (s3.SetReference (H := sampleGoGit) demoStorer emptyClient head) in
  s3.Reference (H := sampleGoGit) demoStorer c "HEAD"
  = inr (plumbing.NewHashReference "HEAD" plumbing.ZeroHash).
Proof. reflexivity. Qed.

(** ** Repository names *)

(** The two back ends send the three spellings of [demo] to one place. *)
Lemma getRepoKey_spellings :
  s3.getRepoKey "demo" = "repositories/demo.git"
  /\ s3.getRepoKey "demo.git" = "repositories/demo.git"
  /\ s3.getRepoKey "/demo/" = "repositories/demo.git".
Proof. repeat split; reflexivity. Qed.

Lemma getFullPath_spellings :
  let ls := local.mkLocalStorage "/srv/git" in
  local.getFullPath ls "demo" = "/srv/git/demo.git"
  /\ local.getFullPath ls "demo.git" = "/srv/git/demo.git"
  /\ local.getFullPath ls "/demo/" = "/srv/git/demo.git".
Proof. repeat split; reflexivity. Qed.

(** The cases of the repository's own test [TestNormalizeRepoPath] that
    carry a slash at either end, with what the test expects on the left of
    each inequality and what [NormalizeRepoPath] returns on the right. *)
Example TestNormalizeRepoPath_slashes :
  common.NormalizeRepoPath "test-repo" = "test-repo.git"
  /\ common.NormalizeRepoPath "test-repo.git" = "test-repo.git"
  /\ common.NormalizeRepoPath "/test-repo" = "/test-repo.git"
  /\ "test-repo.git" <> common.NormalizeRepoPath "/test-repo"
  /\ common.NormalizeRepoPath "test-repo/" = "test-repo/.git"
  /\ "test-repo.git" <> common.NormalizeRepoPath "test-repo/"
  /\ common.NormalizeRepoPath "/test-repo/" = "/test-repo/.git"
  /\ "test-repo.git" <> common.NormalizeRepoPath "/test-repo/"
  /\ common.NormalizeRepoPath "///" = "///.git"
  /\ ".git" <> common.NormalizeRepoPath "///"
  /\ common.NormalizeRepoPath "/company/team/project/" = "/company/team/project/.git"
  /\ "company/team/project.git" <> common.NormalizeRepoPath "/company/team/project/".
Proof. repeat split; (reflexivity || discriminate). Qed.

(** C9 at the spelling [/demo/]: the normalisation run by the entry points
    trims white space only, so the slashes stay and the suffix lands behind
    them; the name so normalised is another name than [demo.git], and each
    back end sends it to another place than [demo.git]. *)
Theorem C9_slashes_survive_normalization :
  common.NormalizeRepoPath "demo" = "demo.git"
  /\ common.NormalizeRepoPath "demo.git" = "demo.git"
  /\ common.NormalizeRepoPath "/demo/" = "/demo/.git"
  /\ s3.getRepoKey (common.NormalizeRepoPath "demo") = "repositories/demo.git"
  /\ s3.getRepoKey (common.NormalizeRepoPath "/demo/") = "repositories/demo/.git"
  /\ local.getFullPath (local.mkLocalStorage "/srv/git") (common.NormalizeRepoPath "demo")
     = "/srv/git/demo.git"
  /\ local.getFullPath (local.mkLocalStorage "/srv/git") (common.NormalizeRepoPath "/demo/")
     = "/srv/git/demo/.git".
Proof. repeat split; reflexivity. Qed.

(** The same on the S3 back end, end to end: a repository created under
    the normalised spelling [/demo/] is not the repository [demo]. *)
Example create_slashed_then_exists :
  let be := mkS3Backend (s3.mkS3Storage "git") emptyClient 0 in
  let be' := fst (CreateRepository (GitRepositoryStorage := S3Backend_Storage (H := sampleGoGit))
                    be (common.NormalizeRepoPath "/demo/")) in
  snd (CreateRepository (GitRepositoryStorage := S3Backend_Storage (H := sampleGoGit))
         be (common.NormalizeRepoPath "/demo/")) = None
  /\ RepositoryExists (GitRepositoryStorage := S3Backend_Storage (H := sampleGoGit))
       be' (common.NormalizeRepoPath "/demo/") = true
  /\ RepositoryExists (GitRepositoryStorage := S3Backend_Storage (H := sampleGoGit))
       be' (common.NormalizeRepoPath "demo") = false
  /\ RepositoryExists (GitRepositoryStorage := S3Backend_Storage (H := sampleGoGit))
       be' (common.NormalizeRepoPath "demo.git") = false.
Proof. vm_compute. repeat split; reflexivity. Qed.

(** ** Engines and registries to run the drivers on *)

(** An engine over a repository with one branch: it advertises the branch,
    decodes a request that begins with [want ] or with a command line, and
    answers a fetch with a pack and a push, whose pack it reads, with a
    report. *)
Definition demoAdvRefs : transport.AdvRefs :=
  transport.mkAdvRefs ["refs/heads/main"] "<advertised-refs>".

Definition missingWant : error := ErrorString "pkt-line 1: missing 'want ' prefix".

Definition demoEngine : transport.Engine := {|
  transport.NewUploadPackSession := fun _ => None;
  transport.up_AdvertisedReferences := inr demoAdvRefs;
  transport.UploadPack := fun _ => inr (transport.mkUploadPackResponse "<pack>");
  transport.NewReceivePackSession := fun _ => None;
  transport.rp_AdvertisedReferences := inr demoAdvRefs;
  transport.ReceivePack := fun _ => (Some (transport.mkReportStatus "<unpack ok; ok refs/heads/main>"), None);
  transport.ClosesPackfile := fun _ => true;
  transport.DecodeUploadPackRequest := fun wire =>
    if strings.HasPrefix wire "want " then inr (transport.mkUploadPackRequest wire)
    else inl missingWant;
  transport.DecodeReferenceUpdateRequest := fun wire =>
    if String.eqb wire "" then inl (ErrorString "empty reference-update-request message")
    else inr (transport.mkReferenceUpdateRequest wire)
|}.

(** The same engine when it rejects one of two updates: [ReceivePack]
    returns the report and an error. *)
Definition partialReport : transport.ReportStatus :=
  transport.mkReportStatus "<unpack ok; ok refs/heads/main; ng refs/heads/dev non-fast-forward>".

Definition rejectingEngine : transport.Engine := {|
  transport.NewUploadPackSession := transport.NewUploadPackSession demoEngine;
  transport.up_AdvertisedReferences := transport.up_AdvertisedReferences demoEngine;
  transport.UploadPack := transport.UploadPack demoEngine;
  transport.NewReceivePackSession := transport.NewReceivePackSession demoEngine;
  transport.rp_AdvertisedReferences := transport.rp_AdvertisedReferences demoEngine;
  transport.ReceivePack := fun _ => (Some partialReport, Some (ErrorString "some refs were not updated"));
  transport.ClosesPackfile := fun _ => true;
  transport.DecodeUploadPackRequest := transport.DecodeUploadPackRequest demoEngine;
  transport.DecodeReferenceUpdateRequest := transport.DecodeReferenceUpdateRequest demoEngine
|}.

(** A registry that holds [demo.git] and nothing else, and an empty one. *)
Definition demoRegistry : MockStorage := mkMockStorage ["demo.git"] None.
Definition emptyRegistry : MockStorage := mkMockStorage [] None.

(** ** HTTP: the reference advertisement *)

Section InfoRefsStatus.
Context `{GitRepositoryStorage St}.
Import fiber controller.

Definition validService (service : string) : bool :=
  String.eqb service "git-upload-pack" || String.eqb service "git-receive-pack".

(** The body writer of a response takes every write. *)
Lemma WriteServiceAdvertisement_body (ctx : Ctx) (service : string) :
  common.WriteServiceAdvertisement ctx service
  = (mkCtx (status ctx) (headers ctx)
       (body ctx +:+ common.hdr (common.pktlen service)
                 +:+ "# service=" +:+ service +:+ nl +:+ "0000"), None).
Proof.
  unfold common.WriteServiceAdvertisement, Write, BodyWriter; cbn.
  unfold common.payload. now rewrite !append_assoc.
Qed.

Lemma AdvRefs_Encode_body (adv : transport.AdvRefs) (ctx : Ctx) :
  transport.AdvRefs_Encode adv ctx
  = (mkCtx (status ctx) (headers ctx) (body ctx +:+ transport.adv_wire adv), None).
Proof. reflexivity. Qed.

(** [InfoRefs] answers every request itself, without handing an error to
    the error handler, and with one of four statuses. *)
Lemma InfoRefs_answers (str : St) (engine : transport.Engine) (r : Request) :
  exists ctx, InfoRefs str engine r = (ctx, None)
              /\ In (status ctx) [200; 400; 404; 500]%Z
              /\ (status ctx = 404%Z ->
                  common.ExtractRepoPathFromURL (req_Path r) "/info/refs" = "").
Proof.
  unfold InfoRefs.
  repeat rewrite ?WriteServiceAdvertisement_body, ?AdvRefs_Encode_body.
  destruct (negb _ && negb _);
    [eexists; split; [reflexivity | cbn; split; [auto 10 | discriminate]] |].
  destruct (String.eqb (common.ExtractRepoPathFromURL _ _) "") eqn:Hpath;
    [eexists; split; [reflexivity | cbn; split; [auto 10 | intros _; now apply String.eqb_eq]] |].
  destruct (common.GetTransportServer _ _) as [err | ep];
    [eexists; split; [reflexivity | cbn; split; [auto 10 | discriminate]] |].
  destruct (String.eqb (req_service r) "git-upload-pack").
  - destruct (transport.NewUploadPackSession engine ep);
      [eexists; split; [reflexivity | cbn; split; [auto 10 | discriminate]] |].
    destruct (transport.up_AdvertisedReferences engine);
      eexists; (split; [reflexivity | cbn; split; [auto 10 | discriminate]]).
  - destruct (transport.NewReceivePackSession engine ep);
      [eexists; split; [reflexivity | cbn; split; [auto 10 | discriminate]] |].
    destruct (transport.rp_AdvertisedReferences engine);
      eexists; (split; [reflexivity | cbn; split; [auto 10 | discriminate]]).
Qed.

(** C5, amended: the reference advertisement over HTTP.  A service that is
    neither [git-upload-pack] nor [git-receive-pack] is answered 400
    ([invalid service parameter]).  With a valid service, a URL that names
    no repository is answered 404, and a repository that does not exist is
    answered 500 ([failed to get transport server]): the 404 error that
    [GetTransportServer] builds is replaced.  A 404 is answered only when
    the URL names no repository. *)
Theorem C5_InfoRefs_statuses :
  forall (str : St) (engine : transport.Engine) (r : Request),
    let resp := respond (InfoRefs str engine r) in
    let repoPath := common.ExtractRepoPathFromURL (req_Path r) "/info/refs" in
    (validService (req_service r) = false ->
     status resp = 400%Z /\ body resp = "invalid service parameter")
    /\ (validService (req_service r) = true -> repoPath = "" -> status resp = 404%Z)
    /\ (validService (req_service r) = true -> repoPath <> "" ->
        RepositoryExists str (common.NormalizeRepoPath repoPath) = false ->
        status resp = 500%Z /\ body resp = "failed to get transport server")
    /\ (status resp = 404%Z -> repoPath = "").
Proof.
  intros str engine r resp repoPath. subst resp.
  assert (Hv : negb (String.eqb (req_service r) "git-upload-pack")
               && negb (String.eqb (req_service r) "git-receive-pack")
               = negb (validService (req_service r))).
  { unfold validService. now rewrite negb_orb. }
  split; [| split; [| split]].
  - intros Hs. unfold InfoRefs. rewrite Hv, Hs. split; reflexivity.
  - intros Hs Hp. unfold InfoRefs. rewrite Hv, Hs. fold repoPath. now rewrite Hp.
  - intros Hs Hp Hex. unfold InfoRefs. rewrite Hv, Hs. fold repoPath.
    apply String.eqb_neq in Hp. rewrite Hp.
    unfold common.GetTransportServer. rewrite Hex. split; reflexivity.
  - destruct (InfoRefs_answers str engine r) as (ctx & -> & _ & H404). exact H404.
Qed.

End InfoRefsStatus.

(** C5, as stated, fails: asking for the references of a repository that
    does not exist is answered 500, not 404. *)
Lemma C5_missing_repository_is_500 :
  RepositoryExists emptyRegistry (common.NormalizeRepoPath "nonexistent-repo.git") = false
  /\ fiber.respond
       (controller.InfoRefs emptyRegistry demoEngine
          (controller.mkRequest "/nonexistent-repo.git/info/refs" "git-upload-pack" ""))
     = fiber.mkCtx 500 [] "failed to get transport server".
Proof. split; reflexivity. Qed.

(** The sibling handlers hand the same error to the error handler, which
    answers 404. *)
Example HandleUploadPack_missing_repository :
  fiber.respond
    (controller.HandleUploadPack emptyRegistry demoEngine
       (controller.mkRequest "/nonexistent-repo.git/git-upload-pack" "" "want x"))
  = fiber.mkCtx 404 [("Content-Type", "text/plain; charset=utf-8")] "repository not found".
Proof. reflexivity. Qed.

Example InfoRefs_examples :
  fiber.respond
    (controller.InfoRefs demoRegistry demoEngine
       (controller.mkRequest "/demo.git/info/refs" "git-upload-pack" ""))
  = fiber.mkCtx 200
      [("Cache-Control", "no-cache");
       ("Content-Type", "application/x-git-upload-pack-advertisement")]
      ("001e# service=git-upload-pack" +:+ nl +:+ "0000<advertised-refs>")
  /\ fiber.status (fiber.respond
       (controller.InfoRefs demoRegistry demoEngine
          (controller.mkRequest "/demo.git/info/refs" "git-archive" ""))) = 400%Z
  /\ fiber.respond
       (controller.InfoRefs demoRegistry demoEngine
          (controller.mkRequest "/info/refs" "git-upload-pack" ""))
     = fiber.mkCtx 404 [] "Not Found".
Proof. repeat split; reflexivity. Qed.

(** ** Push: the status report when the engine also returns an error *)

Section PushReport.
Context `{GitRepositoryStorage St}.
Import transport.

(** Over HTTP the report of a failed [ReceivePack] is the body of a 200
    answer of the result content type. *)
Lemma HandleReceivePack_relays_report
      (str : St) (engine : Engine) (r : controller.Request)
      (ep : Endpoint) (req : ReferenceUpdateRequest) (report : ReportStatus) (err : error) :
  common.ExtractRepoPathFromURL (controller.req_Path r) "/git-receive-pack" <> "" ->
  common.GetTransportServer
    (common.ExtractRepoPathFromURL (controller.req_Path r) "/git-receive-pack") str = inr ep ->
  NewReceivePackSession engine ep = None ->
  DecodeReferenceUpdateRequest engine (controller.req_Body r) = inr req ->
  ReceivePack engine req = (Some report, Some err) ->
  fiber.respond (controller.HandleReceivePack str engine r)
  = fiber.mkCtx 200 [("Content-Type", "application/x-git-receive-pack-result")]
      (report_wire report).
Proof.
  intros Hp Hep Hs Hd Hrp. unfold controller.HandleReceivePack.
  apply String.eqb_neq in Hp. rewrite Hp, Hep, Hs, Hd, Hrp. reflexivity.
Qed.

(** Over SSH, on the first server, the handler goes on to write to the
    session after [ReceivePack].  When [ReceivePack] has closed the
    session, as it does once it has read the pack, the client has the
    advertisement and nothing else, whatever [ReceivePack] returned: no
    report, no message on the error stream, no exit status.  When it has
    left the session open, a report follows the advertisement and the
    exit status is 1 with an error and 0 without; without a report the
    error goes to the error stream. *)
Lemma SSHConfig_handleReceivePack_report
      (engine : Engine) (s : sshconfig.Session) (ep : Endpoint) (adv : AdvRefs)
      (req : ReferenceUpdateRequest) (report : option ReportStatus) (err : option error) :
  sshconfig.sess_open s = true -> sshconfig.sess_exit s = None ->
  NewReceivePackSession engine ep = None ->
  rp_AdvertisedReferences engine = inr adv ->
  DecodeReferenceUpdateRequest engine (sshconfig.sess_stdin s) = inr req ->
  ReceivePack engine req = (report, err) ->
  sshconfig.handleReceivePack s engine ep
  = let out := sshconfig.sess_stdout s +:+ adv_wire adv in
    let ended (out err' : string) (exit : option Z) :=
      sshconfig.mkSession (sshconfig.RawCommand s) (sshconfig.sess_stdin s) false
        out err' exit in
    if ClosesPackfile engine req then ended out (sshconfig.sess_stderr s) None
    else
      match report, err with
      | Some report, Some _ =>
          ended (out +:+ report_wire report) (sshconfig.sess_stderr s) (Some 1%Z)
      | Some report, None =>
          ended (out +:+ report_wire report) (sshconfig.sess_stderr s) (Some 0%Z)
      | None, Some err =>
          ended out (sshconfig.sess_stderr s +:+ ("Receive pack error: " +:+ Error err +:+ nl))
            (Some 1%Z)
      | None, None => ended out (sshconfig.sess_stderr s) (Some 0%Z)
      end.
Proof.
  intros Hopen Hexit Hs Hadv Hd Hrp. unfold sshconfig.handleReceivePack.
  rewrite Hs, Hadv. unfold AdvRefs_Encode, Write, sshconfig.Session_Writer.
  rewrite Hopen. cbn [sshconfig.sess_stdin]. rewrite Hd, Hrp.
  unfold ReportStatus_Encode, Write, sshconfig.Session_Writer, sshconfig.Exit,
    sshconfig.WriteStderr, sshconfig.Close.
  destruct (ClosesPackfile engine req), report as [report|], err as [err|];
    cbn; rewrite ?Hexit; reflexivity.
Qed.

(** On the second server the error alone is returned: whatever the report,
    the channel carries the advertisement and no data after it.  The
    channel is closed already when [ReceivePack] has read the pack. *)
Lemma GitSSHServer_handleReceivePack_drops_report
      (str : St) (engine : Engine) (ch : gitssh.Channel) (repoPath : string) (ep : Endpoint)
      (adv : AdvRefs) (req : ReferenceUpdateRequest) (report : option ReportStatus) (err : error) :
  gitssh.chan_open ch = true ->
  common.GetTransportServer repoPath str = inr ep ->
  NewReceivePackSession engine ep = None ->
  rp_AdvertisedReferences engine = inr adv ->
  DecodeReferenceUpdateRequest engine (gitssh.chan_in ch) = inr req ->
  ReceivePack engine req = (report, Some err) ->
  gitssh.handleReceivePack str engine ch repoPath
  = (let ch := gitssh.emit ch (gitssh.EvData (adv_wire adv)) in
     if ClosesPackfile engine req then gitssh.Close ch else ch,
     Some err).
Proof.
  intros Hopen Hep Hs Hadv Hd Hrp. unfold gitssh.handleReceivePack.
  rewrite Hep, Hs, Hadv. unfold AdvRefs_Encode, Write, gitssh.Channel_Writer.
  rewrite Hopen. cbn [gitssh.chan_in gitssh.emit]. rewrite Hd, Hrp.
  now destruct report.
Qed.

End PushReport.

(** A push of two references of which the engine rejects one, on the three
    drivers. *)
Definition pushRequest : controller.Request :=
  controller.mkRequest "/demo.git/git-receive-pack" "" "<commands and pack>".

Definition pushSession : sshconfig.Session :=
  sshconfig.mkSession "git-receive-pack '/demo.git'" "<commands and pack>" true "" "" None.

Definition pushChannel : gitssh.Channel :=
  gitssh.mkChannel "<commands and pack>" true [].

(** An exec request: the command after its length prefix of four bytes. *)
Definition execRequest (command : string) : gitssh.Request :=
  gitssh.mkRequest "exec" true ("0000" +:+ command).

Example push_over_HTTP_relays_report :
  fiber.respond (controller.HandleReceivePack demoRegistry rejectingEngine pushRequest)
  = fiber.mkCtx 200 [("Content-Type", "application/x-git-receive-pack-result")]
      "<unpack ok; ok refs/heads/main; ng refs/heads/dev non-fast-forward>".
Proof. reflexivity. Qed.

(** C4 at a push of two references, one of them rejected.  On the second
    SSH server the client receives the advertisement and nothing after
    it: the handler returns the error of [ReceivePack] without a call
    that writes the report, which names the reference that was accepted
    and the one that was not; and the engine, which has read the pack,
    has closed the channel, so the exit status 1 that is sent next is
    lost as well.  On the first SSH server the handler does call for the
    report to be written, but on the session that the engine has closed:
    there too the client receives the advertisement and nothing after
    it. *)
Theorem C4_GitSSHServer_drops_report :
  transport.ReceivePack rejectingEngine (transport.mkReferenceUpdateRequest "<commands and pack>")
  = (Some partialReport, Some (ErrorString "some refs were not updated"))
  /\ gitssh.handleReceivePack demoRegistry rejectingEngine
       (gitssh.send pushChannel (gitssh.EvReply true)) "demo.git"
     = (gitssh.mkChannel "<commands and pack>" false
          [gitssh.EvReply true; gitssh.EvData "<advertised-refs>"; gitssh.EvClose],
        Some (ErrorString "some refs were not updated"))
  /\ gitssh.handleChannel demoRegistry rejectingEngine "session" pushChannel
       [execRequest "git-receive-pack '/demo.git'"]
     = Some (gitssh.mkChannel "<commands and pack>" false
               [gitssh.EvReply true;
                gitssh.EvData "<advertised-refs>";
                gitssh.EvClose;
                gitssh.EvSleep 100])
  /\ snd (sshconfig.handleSSHSession demoRegistry rejectingEngine pushSession)
     = sshconfig.mkSession "git-receive-pack '/demo.git'" "<commands and pack>" false
         "<advertised-refs>" "" None.
Proof. repeat split; reflexivity. Qed.

(** ** SSH, second server: how a channel ends *)

Section ChannelTermination.
Context `{GitRepositoryStorage St}.
Import transport gitssh.

(** [ch] once [data] has been written to it, one write after the other. *)
Definition written (ch : Channel) (data : list string) : Channel :=
  mkChannel (chan_in ch) (chan_open ch) (chan_events ch ++ map EvData data).

Lemma written_nil (ch : Channel) : ch = written ch [].
Proof. destruct ch. unfold written. cbn. now rewrite app_nil_r. Qed.

Lemma written_one (ch : Channel) (p : string) : emit ch (EvData p) = written ch [p].
Proof. reflexivity. Qed.

Lemma written_two (ch : Channel) (p q : string) :
  emit (emit ch (EvData p)) (EvData q) = written ch [p; q].
Proof. unfold written, emit. cbn. now rewrite <- app_assoc. Qed.

(** The handler of a fetch writes data to the channel and does nothing
    else to it. *)
Lemma handleUploadPack_written (str : St) (engine : Engine) (ch : Channel) (repoPath : string) :
  exists data, fst (handleUploadPack str engine ch repoPath) = written ch data.
Proof.
  unfold handleUploadPack, AdvRefs_Encode, UploadPackResponse_Encode, Write, Channel_Writer.
  destruct (chan_open ch) eqn:Hopen; cbn [emit chan_open chan_in];
    repeat match goal with
           | |- context [match ?x with _ => _ end] =>
               lazymatch x with
               | context [match _ with _ => _ end] => fail
               | _ => destruct x
               end
           end; cbn [fst]; rewrite ?Hopen; cbn [fst];
    solve [ exists []; apply written_nil
          | eexists [_]; apply written_one
          | eexists [_; _]; apply written_two ].
Qed.

(** How the channel of a fetch ends on the Git SSH server.  The request
    is an exec request for [git-upload-pack], with its reply wanted and
    its length prefix present, on an open channel.  Then the peer
    observes the reply, the data of the handler and the termination,
    which goes by the result of the handler: when the handler returns no
    error, the write half is closed, the server pauses, and the channel
    is closed when the handler of the channel returns, no exit-status
    message being sent at all; when it returns an error, the exit-status
    message with status 1 comes first, then the write half is closed,
    then the server pauses, then the channel is closed.  The close is
    the last message in either case. *)
Theorem fetch_termination_order
        (str : St) (engine : Engine) (ch : Channel) (req : Request) (repoPath : string) :
  chan_open ch = true ->
  req_Type req = "exec" ->
  WantReply req = true ->
  (4 <= String.length (Payload req))%nat ->
  parseGitCommand (strings.sliceFrom 4 (Payload req)) = ("git-upload-pack", repoPath) ->
  let replied := emit ch (EvReply true) in
  let served := handleUploadPack str engine replied repoPath in
  (exists data, fst served = written replied data)
  /\ handleChannel str engine "session" ch [req]
     = Some (mkChannel (chan_in ch) false
               (chan_events (fst served)
                ++ match snd served with
                   | None => [EvCloseWrite; EvSleep 200; EvClose]
                   | Some _ => [EvExitStatus 1; EvCloseWrite; EvSleep 100; EvClose]
                   end)).
Proof.
  intros Hopen Htype Hw Hlen Hparse.
  unfold handleChannel. change (String.eqb "session" "session") with true.
  cbn [negb serveRequests]. rewrite Htype. change (String.eqb "exec" "exec") with true.
  unfold handleExecRequest. rewrite Hw. cbn [negb].
  apply Nat.ltb_ge in Hlen. rewrite Hlen, Hparse.
  change (String.eqb "git-upload-pack" "") with false.
  change (String.eqb "git-upload-pack" "git-upload-pack") with true.
  assert (Hsend : forall e, send ch e = emit ch e)
    by (intros e; unfold send; now rewrite Hopen).
  rewrite !Hsend. cbv iota zeta.
  destruct (handleUploadPack_written str engine (emit ch (EvReply true)) repoPath)
    as [data Hdata].
  split; [now exists data |].
  destruct (handleUploadPack str engine (emit ch (EvReply true)) repoPath) as [ch1 result].
  cbn [fst snd] in *. subst ch1.
  unfold sendExitStatusAndClose, send, Close, written, emit.
  destruct result; cbn; rewrite Hopen; cbn; do 2 f_equal;
    now rewrite <- !app_assoc.
Qed.

(** C8 on a push.  The request is an exec request for
    [git-receive-pack], with its reply wanted and its length prefix
    present, on an open channel, and the handler gets as far as
    [ReceivePack], which reads the pack and so closes the channel it was
    decoded from.  Then the peer observes the reply, the advertisement
    and the close of the channel, and nothing after it: whether
    [ReceivePack] returns an error or not, no exit-status message is
    sent and the write half is not closed on its own, since the calls of
    [sendExitStatusAndClose] come after the close and fail; what is left
    of the termination is the pause of the server. *)
Theorem C8_push_closes_before_exit_status
        (str : St) (engine : Engine) (ch : Channel) (req : Request) (repoPath : string)
        (ep : Endpoint) (adv : AdvRefs) (rq : ReferenceUpdateRequest) :
  chan_open ch = true ->
  req_Type req = "exec" ->
  WantReply req = true ->
  (4 <= String.length (Payload req))%nat ->
  parseGitCommand (strings.sliceFrom 4 (Payload req)) = ("git-receive-pack", repoPath) ->
  common.GetTransportServer repoPath str = inr ep ->
  NewReceivePackSession engine ep = None ->
  rp_AdvertisedReferences engine = inr adv ->
  DecodeReferenceUpdateRequest engine (chan_in ch) = inr rq ->
  ClosesPackfile engine rq = true ->
  handleChannel str engine "session" ch [req]
  = Some (mkChannel (chan_in ch) false
            (chan_events ch
             ++ [EvReply true; EvData (adv_wire adv); EvClose;
                 EvSleep (match snd (ReceivePack engine rq) with
                          | None => 200
                          | Some _ => 100
                          end)])).
Proof.
  intros Hopen Htype Hw Hlen Hparse Hep Hs Hadv Hd Hclose.
  unfold handleChannel. change (String.eqb "session" "session") with true.
  cbn [negb serveRequests]. rewrite Htype. change (String.eqb "exec" "exec") with true.
  unfold handleExecRequest. rewrite Hw. cbn [negb].
  apply Nat.ltb_ge in Hlen. rewrite Hlen, Hparse.
  change (String.eqb "git-receive-pack" "") with false.
  change (String.eqb "git-receive-pack" "git-upload-pack") with false.
  change (String.eqb "git-receive-pack" "git-receive-pack") with true.
  assert (Hsend : forall e, send ch e = emit ch e)
    by (intros e; unfold send; now rewrite Hopen).
  rewrite !Hsend. cbv iota.
  unfold handleReceivePack. rewrite Hep, Hs, Hadv.
  unfold AdvRefs_Encode, Write, Channel_Writer. cbn [emit chan_open chan_in].
  rewrite Hopen. cbn [chan_in emit]. rewrite Hd, Hclose.
  assert (Hclosed : Close (emit (emit ch (EvReply true)) (EvData (adv_wire adv)))
                    = mkChannel (chan_in ch) false
                        (chan_events ch ++ [EvReply true; EvData (adv_wire adv); EvClose])).
  { unfold Close, emit. cbn. rewrite Hopen. f_equal. now rewrite <- !app_assoc. }
  rewrite !Hclosed.
  unfold ReportStatus_Encode, Write, Channel_Writer.
  destruct (ReceivePack engine rq) as [[report|] [err|]];
    unfold sendExitStatusAndClose, send, Close, emit; cbn;
    do 2 f_equal; rewrite <- ?app_assoc; reflexivity.
Qed.

End ChannelTermination.

(** C8 at a push of two references, one of them rejected: the client is
    sent no exit status. *)
Lemma C8_push_closes_before_exit_status_witness :
  gitssh.handleChannel demoRegistry rejectingEngine "session" pushChannel
    [execRequest "git-receive-pack '/demo.git'"]
  = Some (gitssh.mkChannel "<commands and pack>" false
            [gitssh.EvReply true; gitssh.EvData "<advertised-refs>"; gitssh.EvClose;
             gitssh.EvSleep 100]).
Proof.
  apply (C8_push_closes_before_exit_status demoRegistry rejectingEngine pushChannel
           (execRequest "git-receive-pack '/demo.git'") "demo.git"
           (transport.mkEndpoint "/demo.git") demoAdvRefs
           (transport.mkReferenceUpdateRequest "<commands and pack>"));
    try reflexivity.
  apply Nat.leb_le. reflexivity.
Defined.

(** The same on a push that the engine accepts: the channel is closed
    before the report could be written, and before the write half could
    be closed on its own. *)
Example accepted_push_ends_with_close :
  gitssh.handleChannel demoRegistry demoEngine "session" pushChannel
    [execRequest "git-receive-pack '/demo.git'"]
  = Some (gitssh.mkChannel "<commands and pack>" false
            [gitssh.EvReply true; gitssh.EvData "<advertised-refs>"; gitssh.EvClose;
             gitssh.EvSleep 200]).
Proof. reflexivity. Qed.

(** A fetch from [demo.git]. *)
Lemma fetch_termination_order_witness :
  let ch := gitssh.mkChannel "want 6161" true [] in
  let replied := gitssh.emit ch (gitssh.EvReply true) in
  let served := gitssh.handleUploadPack demoRegistry demoEngine replied "demo.git" in
  (exists data, fst served = written replied data)
  /\ gitssh.handleChannel demoRegistry demoEngine "session" ch
       [execRequest "git-upload-pack '/demo.git'"]
     = Some (gitssh.mkChannel (gitssh.chan_in ch) false
               (gitssh.chan_events (fst served)
                ++ match snd served with
                   | None => [gitssh.EvCloseWrite; gitssh.EvSleep 200; gitssh.EvClose]
                   | Some _ => [gitssh.EvExitStatus 1; gitssh.EvCloseWrite;
                                gitssh.EvSleep 100; gitssh.EvClose]
                   end)).
Proof.
  apply (fetch_termination_order demoRegistry demoEngine
           (gitssh.mkChannel "want 6161" true []) (execRequest "git-upload-pack '/demo.git'")
           "demo.git"); try reflexivity.
  apply Nat.leb_le. reflexivity.
Defined.

Example fetch_ends_with_half_close :
  gitssh.handleChannel demoRegistry demoEngine "session"
    (gitssh.mkChannel "want 6161" true []) [execRequest "git-upload-pack '/demo.git'"]
  = Some (gitssh.mkChannel "want 6161" false
            [gitssh.EvReply true; gitssh.EvData "<advertised-refs>"; gitssh.EvData "<pack>";
             gitssh.EvCloseWrite; gitssh.EvSleep 200; gitssh.EvClose]).
Proof. reflexivity. Qed.

(** A command that is no Git command ends with the exit status 1; a
    channel that is no session is refused; an exec request whose payload
    is shorter than its length prefix makes [handleExecRequest] panic. *)
Example bad_command_ends_with_exit_status :
  gitssh.handleChannel demoRegistry demoEngine "session"
    (gitssh.mkChannel "" true [])
    [gitssh.mkRequest "env" true "LANG=C"; execRequest "git-upload-pack"]
  = Some (gitssh.mkChannel "" false
            [gitssh.EvReply false; gitssh.EvReply false; gitssh.EvExitStatus 1;
             gitssh.EvCloseWrite; gitssh.EvSleep 100; gitssh.EvClose])
  /\ gitssh.handleChannel demoRegistry demoEngine "direct-tcpip" (gitssh.mkChannel "" true []) []
     = Some (gitssh.mkChannel "" true [gitssh.EvReject])
  /\ gitssh.handleExecRequest demoRegistry demoEngine (gitssh.mkChannel "" true [])
       (gitssh.mkRequest "exec" true "abc") = None.
Proof. repeat split; reflexivity. Qed.

(** ** Fetch over SSH: a request that cannot be decoded *)

(** An engine whose decoder of fetch requests fails with [err]. *)
Definition undecodable (err : error) : transport.Engine := {|
  transport.NewUploadPackSession := transport.NewUploadPackSession demoEngine;
  transport.up_AdvertisedReferences := transport.up_AdvertisedReferences demoEngine;
  transport.UploadPack := transport.UploadPack demoEngine;
  transport.NewReceivePackSession := transport.NewReceivePackSession demoEngine;
  transport.rp_AdvertisedReferences := transport.rp_AdvertisedReferences demoEngine;
  transport.ReceivePack := transport.ReceivePack demoEngine;
  transport.ClosesPackfile := transport.ClosesPackfile demoEngine;
  transport.DecodeUploadPackRequest := fun _ => inl err;
  transport.DecodeReferenceUpdateRequest := transport.DecodeReferenceUpdateRequest demoEngine
|}.

Section UndecodableFetch.
Context `{GitRepositoryStorage St}.
Import transport.

(** On the first server every failure to decode the request ends with the
    exit status 0; the error stream tells the one message apart from the
    others. *)
Lemma SSHConfig_decode_failure_exits_0
      (engine : Engine) (s : sshconfig.Session) (ep : Endpoint) (adv : AdvRefs) (err : error) :
  sshconfig.sess_open s = true -> sshconfig.sess_exit s = None ->
  NewUploadPackSession engine ep = None ->
  up_AdvertisedReferences engine = inr adv ->
  DecodeUploadPackRequest engine (sshconfig.sess_stdin s) = inl err ->
  let s' := sshconfig.handleUploadPack s engine ep in
  sshconfig.sess_exit s' = Some 0%Z
  /\ sshconfig.sess_stderr s'
     = (if String.eqb (Error err) "pkt-line 1: missing 'want ' prefix"
        then sshconfig.sess_stderr s
        else sshconfig.sess_stderr s +:+ ("Request decode error: " +:+ Error err +:+ nl)).
Proof.
  intros Hopen Hexit Hs Hadv Hd. unfold sshconfig.handleUploadPack.
  rewrite Hs, Hadv. unfold AdvRefs_Encode, Write, sshconfig.Session_Writer.
  rewrite Hopen. cbn [sshconfig.sess_stdin]. rewrite Hd.
  unfold sshconfig.Exit. destruct (String.eqb _ _); cbn; rewrite Hexit; now split.
Qed.

(** On the second server a failure to decode the request of a repository
    with references is a success exactly when its message contains
    [missing 'want' prefix] or [EOF]. *)
Lemma GitSSHServer_decode_failure
      (str : St) (engine : Engine) (ch : gitssh.Channel) (repoPath : string) (ep : Endpoint)
      (adv : AdvRefs) (err : error) :
  gitssh.chan_open ch = true ->
  common.GetTransportServer repoPath str = inr ep ->
  NewUploadPackSession engine ep = None ->
  up_AdvertisedReferences engine = inr adv ->
  References adv <> [] ->
  DecodeUploadPackRequest engine (gitssh.chan_in ch) = inl err ->
  snd (gitssh.handleUploadPack str engine ch repoPath)
  = (if strings.Contains (Error err) "missing 'want' prefix"
        || strings.Contains (Error err) "EOF"
     then None else Some err).
Proof.
  intros Hopen Hep Hs Hadv Hrefs Hd. unfold gitssh.handleUploadPack.
  rewrite Hep, Hs, Hadv. unfold AdvRefs_Encode, Write, gitssh.Channel_Writer.
  rewrite Hopen. cbn [gitssh.chan_in gitssh.emit].
  destruct (References adv) as [|r refs]; [contradiction |].
  cbn [length Nat.eqb]. rewrite Hd. now destruct (_ || _).
Qed.

End UndecodableFetch.

(** The message of go-git for a request that holds no [want] line, as the
    first server spells it, does not contain the text the second server
    looks for: the quote stands after a space in the one and after the
    letter [t] in the other. *)
Example missing_want_is_not_matched :
  strings.Contains (Error missingWant) "missing 'want' prefix" = false
  /\ strings.Contains (Error missingWant) "EOF" = false
  /\ strings.Contains (Error missingWant) "missing 'want ' prefix" = true.
Proof. repeat split; reflexivity. Qed.

(** A client that reads the advertisement of [demo.git] and asks for
    nothing sends a flush packet. *)
Definition flushSession : sshconfig.Session :=
  sshconfig.mkSession "git-upload-pack '/demo.git'" "0000" true "" "" None.

Definition flushChannel : gitssh.Channel := gitssh.mkChannel "0000" true [].

(** C6 on the two servers.  A client that has nothing to request makes the
    decoder fail with [pkt-line 1: missing 'want ' prefix].  The second
    server, the one the program starts, ends that session with the exit
    status 1.  The first server ends it with the exit status 0 and nothing
    on the error stream, and ends with the exit status 0 too a session
    whose request is malformed in another way, after writing the error to
    the error stream. *)
Theorem C6_decode_failures :
  transport.DecodeUploadPackRequest demoEngine "0000" = inl missingWant
  /\ gitssh.handleChannel demoRegistry demoEngine "session" flushChannel
       [execRequest "git-upload-pack '/demo.git'"]
     = Some (gitssh.mkChannel "0000" false
               [gitssh.EvReply true; gitssh.EvData "<advertised-refs>";
                gitssh.EvExitStatus 1; gitssh.EvCloseWrite; gitssh.EvSleep 100;
                gitssh.EvClose])
  /\ snd (sshconfig.handleSSHSession demoRegistry demoEngine flushSession)
     = sshconfig.mkSession "git-upload-pack '/demo.git'" "0000" false
         "<advertised-refs>" "" (Some 0%Z)
  /\ snd (sshconfig.handleSSHSession demoRegistry
            (undecodable (ErrorString "pkt-line 2: malformed hash")) flushSession)
     = sshconfig.mkSession "git-upload-pack '/demo.git'" "0000" false
         "<advertised-refs>"
         ("Request decode error: pkt-line 2: malformed hash" +:+ nl) (Some 0%Z)
  /\ gitssh.handleChannel demoRegistry
       (undecodable (ErrorString "pkt-line 1: EOF")) "session" flushChannel
       [execRequest "git-upload-pack '/demo.git'"]
     = Some (gitssh.mkChannel "0000" false
               [gitssh.EvReply true; gitssh.EvData "<advertised-refs>";
                gitssh.EvCloseWrite; gitssh.EvSleep 200; gitssh.EvClose]).
Proof. repeat split; reflexivity. Qed.

(** No reading of "nothing to request" saves both servers: whichever
    failures are counted as such, a failure so counted must end as a
    success without an error on both, and any other must be reported on
    both; the failure [missingWant] ends as an error on the second server
    and as a silent success on the first. *)
Lemma no_reading_fits_both_servers (nothingToRequest : error -> bool) :
  ~ (forall err,
       let s' := snd (sshconfig.handleSSHSession demoRegistry (undecodable err) flushSession) in
       let r := snd (gitssh.handleUploadPack demoRegistry (undecodable err) flushChannel "demo.git") in
       if nothingToRequest err
       then sshconfig.sess_exit s' = Some 0%Z /\ sshconfig.sess_stderr s' = "" /\ r = None
       else (sshconfig.sess_exit s' <> Some 0%Z \/ sshconfig.sess_stderr s' <> "") /\ r <> None).
Proof.
  intros Hall. specialize (Hall missingWant). cbv zeta in Hall.
  destruct (nothingToRequest missingWant).
  - destruct Hall as (_ & _ & Hr). discriminate Hr.
  - destruct Hall as ([Hexit | Herr] & _); [apply Hexit | apply Herr]; reflexivity.
Qed.

(** ** Push over SSH to a repository that does not exist yet *)

Section FirstPush.
Context `{GitRepositoryStorage St}.
Import transport.

(** On the first server a push to a repository that does not exist creates
    it and then drives the session on the storage that holds it. *)
Lemma SSHConfig_push_creates_repository
      (str str' : St) (engine : Engine) (s : sshconfig.Session) (repoArg : string) :
  sshconfig.parseGitCommand (sshconfig.RawCommand s) = ("git-receive-pack", repoArg) ->
  repoArg <> "" ->
  let repoPath := sshconfig.repoPathFromSSHArg repoArg in
  repoPath <> "" ->
  RepositoryExists str repoPath = false ->
  CreateRepository str repoPath = (str', None) ->
  RepositoryExists str' (common.NormalizeRepoPath repoPath) = true ->
  sshconfig.handleSSHSession str engine s
  = (str', sshconfig.handleReceivePack s engine
             (mkEndpoint ("/" +:+ path.Base (common.NormalizeRepoPath repoPath)))).
Proof.
  intros Hparse Harg repoPath Hpath Hex Hcreate Hex'.
  unfold sshconfig.handleSSHSession. rewrite Hparse.
  apply String.eqb_neq in Harg, Hpath.
  change (String.eqb "git-receive-pack" "") with false.
  rewrite Harg. cbn [orb]. fold repoPath. rewrite Hpath, Hex. cbn [negb andb].
  change (String.eqb "git-receive-pack" "git-receive-pack") with true.
  rewrite Hcreate. cbn [negb].
  unfold common.GetTransportServer. rewrite Hex'. reflexivity.
Qed.

(** On either server a fetch from a repository that does not exist fails
    with the exit status 1 and the storage is not written to. *)
Lemma SSHConfig_fetch_missing_repository
      (str : St) (engine : Engine) (s : sshconfig.Session) (repoArg : string) :
  sshconfig.parseGitCommand (sshconfig.RawCommand s) = ("git-upload-pack", repoArg) ->
  repoArg <> "" ->
  let repoPath := sshconfig.repoPathFromSSHArg repoArg in
  repoPath <> "" ->
  RepositoryExists str repoPath = false ->
  sshconfig.handleSSHSession str engine s
  = (str, sshconfig.Exit (sshconfig.WriteStderr s ("Repository not found" +:+ nl)) 1).
Proof.
  intros Hparse Harg repoPath Hpath Hex.
  unfold sshconfig.handleSSHSession. rewrite Hparse.
  apply String.eqb_neq in Harg, Hpath.
  change (String.eqb "git-upload-pack" "") with false.
  rewrite Harg. cbn [orb]. fold repoPath. rewrite Hpath, Hex. reflexivity.
Qed.

(** On the second server neither handler can write to the storage, and a
    repository that does not exist makes both fail with the error of
    [GetTransportServer]. *)
Lemma GitSSHServer_missing_repository
      (str : St) (engine : Engine) (ch : gitssh.Channel) (repoPath : string) :
  RepositoryExists str (common.NormalizeRepoPath repoPath) = false ->
  gitssh.handleReceivePack str engine ch repoPath
  = (ch, Some (FiberError 404 "repository not found"))
  /\ gitssh.handleUploadPack str engine ch repoPath
     = (ch, Some (FiberError 404 "repository not found")).
Proof.
  intros Hex. unfold gitssh.handleReceivePack, gitssh.handleUploadPack,
    common.GetTransportServer. now rewrite Hex.
Qed.

End FirstPush.

(** C7 on the two servers, for a first push to [new.git] on a registry
    that holds nothing.  The first server creates the repository and
    drives the push on it: the references are advertised and the engine
    reads the pack, closing the session, so that neither the report nor
    an exit status follows.  The second server, the one the program
    starts, does not call [CreateRepository] on any path: the push ends
    with the exit status 1 before anything is advertised.  A fetch from
    [new.git] ends with the exit status 1 on both, and nothing is
    created. *)
Theorem C7_first_push :
  sshconfig.handleSSHSession emptyRegistry demoEngine
    (sshconfig.mkSession "git-receive-pack '/new.git'" "<commands and pack>" true "" "" None)
  = (mkMockStorage ["new.git"] None,
     sshconfig.mkSession "git-receive-pack '/new.git'" "<commands and pack>" false
       "<advertised-refs>" "" None)
  /\ gitssh.handleChannel emptyRegistry demoEngine "session"
       (gitssh.mkChannel "<commands and pack>" true [])
       [execRequest "git-receive-pack '/new.git'"]
     = Some (gitssh.mkChannel "<commands and pack>" false
               [gitssh.EvReply true; gitssh.EvExitStatus 1; gitssh.EvCloseWrite;
                gitssh.EvSleep 100; gitssh.EvClose])
  /\ sshconfig.handleSSHSession emptyRegistry demoEngine
       (sshconfig.mkSession "git-upload-pack '/new.git'" "want 6161" true "" "" None)
     = (emptyRegistry,
        sshconfig.mkSession "git-upload-pack '/new.git'" "want 6161" false
          "" ("Repository not found" +:+ nl) (Some 1%Z))
  /\ gitssh.handleChannel emptyRegistry demoEngine "session"
       (gitssh.mkChannel "want 6161" true [])
       [execRequest "git-upload-pack '/new.git'"]
     = Some (gitssh.mkChannel "want 6161" false
               [gitssh.EvReply true; gitssh.EvExitStatus 1; gitssh.EvCloseWrite;
                gitssh.EvSleep 100; gitssh.EvClose]).
Proof. repeat split; reflexivity. Qed.

(** ** The registry on the blob store: creation makes the repository exist *)

Section CreateThenExists.
Context `{GoGit}.
Import awss3.

Lemma PutObject_success (c c' : Client) (b k body : string) (md : gmap string string) :
  PutObject c b k body md = (c', None) ->
  net c k <> RequestFails
  /\ c' = mkClient (<[(b, k) := mkObject body md]> (objects c)) (net c).
Proof.
  unfold PutObject. destruct (net c k); intros [= <-]; split; congruence.
Qed.

Lemma HeadObject_after_PutObject (c c' : Client) (b k body : string) (md : gmap string string) :
  PutObject c b k body md = (c', None) ->
  HeadObject c' b k = inr (Z.of_nat (String.length body)).
Proof.
  intros [Hnet ->]%PutObject_success. unfold HeadObject. cbn.
  rewrite lookup_insert_eq. now destruct (net c k).
Qed.

(** The last thing [createInitialCommit] writes is [HEAD]. *)
Lemma createInitialCommit_writes_HEAD
      (s3s : s3.S3Storage) (c c' : Client) (repoKey : string) (t1 t2 : Z) :
  s3.createInitialCommit s3s c repoKey t1 t2 = (c', None) ->
  HeadObject c' (s3.s3s_bucket s3s) (path.Join [repoKey; "HEAD"]) = inr 20%Z.
Proof.
  unfold s3.createInitialCommit.
  destruct (s3.SetEncodedObject _ c _) as [c1 [h1 [e|]]]; [discriminate |].
  destruct (Tree_Encode _) as [e | treeObj]; [discriminate |].
  destruct (s3.SetEncodedObject _ c1 _) as [c2 [h2 [e|]]]; [discriminate |].
  destruct (Commit_Encode _) as [e | commitObj]; [discriminate |].
  destruct (s3.SetEncodedObject _ c2 _) as [c3 [h3 [e|]]]; [discriminate |].
  destruct (s3.SetReference _ c3 _) as [c4 [e|]]; [discriminate |].
  destruct (s3.SetReference _ c4 _) as [c5 [e|]] eqn:Hhead; [discriminate |].
  intros [= <-]. unfold s3.SetReference in Hhead.
  apply HeadObject_after_PutObject in Hhead. exact Hhead.
Qed.

(** After a creation that succeeded, under a name whose key is a clean
    path, the repository exists under every spelling with the same key;
    under each of them [GetStorer] returns the storer of that key, and a
    second creation fails with [repository already exists] and writes
    nothing. *)
Theorem CreateRepository_then_RepositoryExists
        (s3s : s3.S3Storage) (c c' : Client) (created asked : string) (t1 t2 : Z) :
  s3.getRepoKey asked = s3.getRepoKey created ->
  path.Join [s3.getRepoKey created; "HEAD"] = s3.getRepoKey created +:+ "/HEAD" ->
  s3.CreateRepository s3s c created t1 t2 = (c', None) ->
  s3.RepositoryExists s3s c' asked = true
  /\ s3.GetStorer s3s c' asked
     = inr (s3.mkS3Storer (s3.s3s_bucket s3s) (s3.getRepoKey created))
  /\ (forall t3 t4 : Z,
        s3.CreateRepository s3s c' asked t3 t4
        = (c', Some (ErrorString "repository already exists"))).
Proof.
  intros Hkey Hclean Hcreate.
  assert (Hex : s3.RepositoryExists s3s c' asked = true).
  { revert Hcreate. unfold s3.CreateRepository.
    destruct (s3.RepositoryExists s3s c created); [discriminate |].
    destruct (PutObject c _ _ _ _) as [c1 [e|]]; [discriminate |].
    destruct (PutObject c1 _ _ _ _) as [c2 [e|]]; [discriminate |].
    destruct (s3.createInitialCommit _ c2 _ _ _) as [c3 [e|]] eqn:Hinit; [discriminate |].
    intros [= <-]. apply createInitialCommit_writes_HEAD in Hinit.
    unfold s3.RepositoryExists. now rewrite Hkey, <- Hclean, Hinit. }
  split; [exact Hex |]. split.
  - unfold s3.GetStorer. now rewrite Hex, Hkey.
  - intros t3 t4. unfold s3.CreateRepository. now rewrite Hex.
Qed.

End CreateThenExists.

(** On the empty store, creating [demo] under one of its three spellings
    makes it exist under the other two. *)
Lemma CreateRepository_then_RepositoryExists_witness :
  let c' :=
    fst (s3.CreateRepository (H := sampleGoGit) (s3.mkS3Storage "git") emptyClient "/demo/" 0 0) in
  s3.RepositoryExists (s3.mkS3Storage "git") c' "demo.git" = true
  /\ s3.GetStorer (s3.mkS3Storage "git") c' "demo.git"
     = inr (s3.mkS3Storer (s3.s3s_bucket (s3.mkS3Storage "git")) (s3.getRepoKey "/demo/"))
  /\ (forall t3 t4 : Z,
        s3.CreateRepository (H := sampleGoGit) (s3.mkS3Storage "git") c' "demo.git" t3 t4
        = (c', Some (ErrorString "repository already exists"))).
Proof.
  apply (CreateRepository_then_RepositoryExists (H := sampleGoGit)
           (s3.mkS3Storage "git") emptyClient _ "/demo/" "demo.git" 0 0).
  - reflexivity.
  - reflexivity.
  - reflexivity.
Defined.

Example create_then_exists_spellings :
  let c1 := fst (s3.CreateRepository (H := sampleGoGit) (s3.mkS3Storage "git") emptyClient "demo" 0 0) in
  s3.RepositoryExists (s3.mkS3Storage "git") c1 "demo.git" = true
  /\ s3.RepositoryExists (s3.mkS3Storage "git") c1 "/demo/" = true
  /\ s3.RepositoryExists (s3.mkS3Storage "git") c1 "other" = false
  /\ snd (s3.CreateRepository (H := sampleGoGit) (s3.mkS3Storage "git") c1 "/demo/" 0 0)
     = Some (ErrorString "repository already exists").
Proof. vm_compute. repeat split; reflexivity. Qed.

(** A name that is not a clean path: the repository is created and is not
    found afterwards, the key of [HEAD] having been cleaned on writing and
    not on looking. *)
Example create_unclean_then_missing :
  let r := s3.CreateRepository (H := sampleGoGit) (s3.mkS3Storage "git") emptyClient "a//b" 0 0 in
  snd r = None /\ s3.RepositoryExists (s3.mkS3Storage "git") (fst r) "a//b" = false.
Proof. vm_compute. split; reflexivity. Qed.

(** ** More on the announcement, the names and the objects *)

(** The framing of the announcement for every service whose line fits a
    packet: four hexadecimal digits whose value is the length of the
    header and the line together, the line [# service=<service>] with its
    line feed, and the terminator [0000]. *)
Theorem announcement_framing (pre service : string) :
  (Z.of_nat (String.length service) < 65000)%Z ->
  exists header : string,
    common.WriteServiceAdvertisement (mkBuffer pre) service
    = (mkBuffer (pre +:+ header +:+ "# service=" +:+ service +:+ nl +:+ "0000"), None)
    /\ String.length header = 4%nat
    /\ hexValue header
       = Some (4 + Z.of_nat (String.length ("# service=" +:+ service +:+ nl)))%Z.
Proof.
  intros Hlen. exists (common.hdr (common.pktlen service)).
  split; [apply WriteServiceAdvertisement_Buffer |]. split; [reflexivity |].
  assert (Hpay : String.length (common.payload service)
                 = (11 + String.length service)%nat).
  { change (common.payload service)
      with (String "#" (String " " (String "s" (String "e" (String "r" (String "v"
             (String "i" (String "c" (String "e" (String "=" (service +:+ nl))))))))))).
    cbn [String.length]. clear Hlen.
    induction service as [|x service IH]; [reflexivity |].
    rewrite append_cons. cbn [String.length]. lia. }
  apply hdr_hexValue.
  change (0 <= common.pktlen service < 65536)%Z.
  unfold common.pktlen. rewrite Hpay. lia.
Qed.

Lemma announcement_framing_witness :
  exists header : string,
    common.WriteServiceAdvertisement (mkBuffer "") "git-receive-pack"
    = (mkBuffer ("" +:+ header +:+ "# service=" +:+ "git-receive-pack" +:+ nl +:+ "0000"), None)
    /\ String.length header = 4%nat
    /\ hexValue header
       = Some (4 + Z.of_nat (String.length ("# service=" +:+ "git-receive-pack" +:+ nl)))%Z.
Proof.
  apply (announcement_framing "" "git-receive-pack").
  reflexivity.
Defined.

Example receive_pack_announcement :
  common.WriteServiceAdvertisement (mkBuffer "") "git-receive-pack"
  = (mkBuffer ("001f# service=git-receive-pack" +:+ nl +:+ "0000"), None).
Proof. reflexivity. Qed.

(** White space beyond ASCII is trimmed as well: a no-break space before
    and an ideographic space after a name. *)
Example TrimSpace_unicode :
  let nbsp := String (ascii_of_nat 194) (String (ascii_of_nat 160) "") in
  let ideographic :=
    String (ascii_of_nat 227) (String (ascii_of_nat 128) (String (ascii_of_nat 128) "")) in
  strings.TrimSpace (nbsp +:+ " demo" +:+ ideographic +:+ nl) = "demo"
  /\ common.NormalizeRepoPath (nbsp +:+ "demo.git ") = "demo.git"
  /\ strings.Fields ("a" +:+ ideographic +:+ "b c") = ["a"; "b"; "c"]
  /\ strings.TrimSpace (String (ascii_of_nat 226) (String (ascii_of_nat 128) "x"))
     = String (ascii_of_nat 226) (String (ascii_of_nat 128) "x").
Proof. repeat split; reflexivity. Qed.

Section MoreOnObjects.
Import awss3 plumbing.

(** A blob written without the type as metadata reads back with the type
    the caller asks for. *)
Theorem EncodedObject_foreign_blob
        (s : s3.S3Storer) (c : Client) (t : ObjectType) (h : Hash) (content : string) :
  let key := s3.getObjectKey s (s3.objectPathOf h) in
  net c key = Healthy ->
  objects c !! (s3.bucket s, key) = Some (mkObject content ∅) ->
  s3.EncodedObject s c t h
  = inr (mkMemoryObject t ZeroHash content (Z.of_nat (String.length content))).
Proof.
  intros key Hnet Hobj. unfold s3.EncodedObject. fold key.
  unfold GetObject. now rewrite Hnet, Hobj.
Qed.

(** A hash under which nothing is stored is reported as not found, by
    [EncodedObject], [HasEncodedObject] and [EncodedObjectSize] alike. *)
Theorem object_not_found (s : s3.S3Storer) (c : Client) (t : ObjectType) (h : Hash) :
  objects c !! (s3.bucket s, s3.getObjectKey s (s3.objectPathOf h)) = None ->
  s3.EncodedObject s c t h = inl ErrObjectNotFound
  /\ s3.HasEncodedObject s c h = Some ErrObjectNotFound
  /\ s3.EncodedObjectSize s c h = (0%Z, Some ErrObjectNotFound).
Proof.
  intros Hobj. unfold s3.EncodedObject, s3.HasEncodedObject, s3.EncodedObjectSize,
    GetObject, HeadObject. rewrite Hobj.
  now destruct (net c _).
Qed.

End MoreOnObjects.

Lemma EncodedObject_foreign_blob_witness :
  let c := mkClientWith "repositories/demo.git/objects/61/61" "payload" in
  s3.EncodedObject demoStorer c plumbing.TreeObject ["a"%char; "a"%char]
  = inr (plumbing.mkMemoryObject plumbing.TreeObject plumbing.ZeroHash "payload" 7).
Proof.
  apply (EncodedObject_foreign_blob demoStorer
           (mkClientWith "repositories/demo.git/objects/61/61" "payload")).
  - reflexivity.
  - reflexivity.
Defined.

Lemma object_not_found_witness :
  s3.EncodedObject demoStorer emptyClient plumbing.BlobObject hashA
  = inl plumbing.ErrObjectNotFound
  /\ s3.HasEncodedObject demoStorer emptyClient hashA = Some plumbing.ErrObjectNotFound
  /\ s3.EncodedObjectSize demoStorer emptyClient hashA = (0%Z, Some plumbing.ErrObjectNotFound).
Proof.
  apply (object_not_found demoStorer emptyClient plumbing.BlobObject hashA).
  reflexivity.
Defined.

(** ** Normalizing twice *)

Section TrimTwice.
Import strings.

(** [s] begins with a code point of white space. *)
Definition startsSpace (s : string) : bool :=
  match s with
  | EmptyString => false
  | String c1 s1 =>
      isSpace c1
      || match s1 with
         | EmptyString => false
         | String c2 s2 =>
             isSpace2 c1 c2
             || match s2 with
                | EmptyString => false
                | String c3 _ => isSpace3 c1 c2 c3
                end
         end
  end.

Lemma trimLeft_clean (s : string) : startsSpace s = false -> trimLeft s = s.
Proof.
  destruct s as [|c1 s1]; [reflexivity |]. cbn [startsSpace trimLeft].
  intros H. apply orb_false_elim in H as [H1 H]. rewrite H1.
  destruct s1 as [|c2 s2]; [reflexivity |].
  apply orb_false_elim in H as [H2 H]. rewrite H2.
  destruct s2 as [|c3 s3]; [reflexivity |]. now rewrite H.
Qed.

Lemma startsSpace_trimLeft (s : string) : startsSpace (trimLeft s) = false.
Proof.
  remember (String.length s) as n eqn:Hn.
  revert s Hn. induction n as [n IH] using lt_wf_ind. intros s ->.
  destruct s as [|c1 s1]; [reflexivity |].
  cbn [trimLeft]. destruct (isSpace c1) eqn:H1.
  { apply (IH (String.length s1)); [cbn; lia | reflexivity]. }
  destruct s1 as [|c2 s2]; [cbn [startsSpace]; now rewrite H1 |].
  destruct (isSpace2 c1 c2) eqn:H2.
  { apply (IH (String.length s2)); [cbn; lia | reflexivity]. }
  destruct s2 as [|c3 s3]; [cbn [startsSpace]; now rewrite H1, H2 |].
  destruct (isSpace3 c1 c2 c3) eqn:H3.
  { apply (IH (String.length s3)); [cbn; lia | reflexivity]. }
  cbn [startsSpace]. now rewrite H1, H2, H3.
Qed.

Lemma trimRight_cons (c : ascii) (x : string) :
  trimLeft (String c x) <> "" -> trimRight (String c x) = String c (trimRight x).
Proof.
  intros H. cbn [trimRight]. destruct (trimLeft (String c x)); [contradiction | reflexivity].
Qed.

Lemma startsSpace_trimRight (u : string) :
  startsSpace u = false -> startsSpace (trimRight u) = false.
Proof.
  intros Hu. destruct u as [|c1 u1]; [reflexivity |].
  rewrite trimRight_cons by (rewrite trimLeft_clean by exact Hu; discriminate).
  cbn [startsSpace] in Hu |- *.
  apply orb_false_elim in Hu as [H1 Hu]. rewrite H1. cbn [orb].
  destruct u1 as [|c2 u2]; [reflexivity |].
  cbn [trimRight]. destruct (trimLeft (String c2 u2)); [reflexivity |].
  apply orb_false_elim in Hu as [H2 Hu]. rewrite H2. cbn [orb].
  destruct u2 as [|c3 u3]; [reflexivity |].
  cbn [trimRight]. destruct (trimLeft (String c3 u3)); [reflexivity | exact Hu].
Qed.

(** The bytes of the code points of white space. *)
Lemma isSpace_byte (c : ascii) : isSpace c = true -> (N_of_ascii c < 128)%N.
Proof.
  unfold isSpace. cbv zeta.
  rewrite orb_true_iff, andb_true_iff, !N.leb_le, N.eqb_eq. lia.
Qed.

Lemma isSpace2_bytes (c1 c2 : ascii) :
  isSpace2 c1 c2 = true ->
  (N_of_ascii c1 = 194 /\ 128 <= N_of_ascii c2 < 192)%N.
Proof.
  unfold isSpace2. cbv zeta.
  rewrite andb_true_iff, orb_true_iff, !N.eqb_eq. lia.
Qed.

Lemma isSpace3_bytes (c1 c2 c3 : ascii) :
  isSpace3 c1 c2 c3 = true ->
  (225 <= N_of_ascii c1 <= 227
   /\ 128 <= N_of_ascii c2 < 192 /\ 128 <= N_of_ascii c3 < 192)%N.
Proof.
  unfold isSpace3. cbv zeta.
  rewrite !orb_true_iff, !andb_true_iff, !orb_true_iff, !andb_true_iff,
    !N.eqb_eq, !N.leb_le. lia.
Qed.

Ltac no_rune :=
  match goal with
  | |- isSpace ?a = false =>
      let E := fresh "E" in
      destruct (isSpace a) eqn:E; [apply isSpace_byte in E; lia | reflexivity]
  | |- isSpace2 ?a ?b = false =>
      let E := fresh "E" in
      destruct (isSpace2 a b) eqn:E; [apply isSpace2_bytes in E; lia | reflexivity]
  | |- isSpace3 ?a ?b ?c = false =>
      let E := fresh "E" in
      destruct (isSpace3 a b c) eqn:E; [apply isSpace3_bytes in E; lia | reflexivity]
  end.

(** No code point of white space begins with a byte below [C2] that is
    not white space itself. *)
Lemma lead_not_space (c : ascii) (x : string) :
  (N_of_ascii c < 194)%N -> isSpace c = false -> startsSpace (String c x) = false.
Proof.
  intros Hc Hs. cbn [startsSpace]. rewrite Hs. cbn [orb].
  destruct x as [|c2 x2]; [reflexivity |].
  assert (H2 : isSpace2 c c2 = false) by no_rune. rewrite H2. cbn [orb].
  destruct x2 as [|c3 x3]; [reflexivity |]. no_rune.
Qed.

Lemma plain_byte (d : ascii) :
  plain d = true -> (N_of_ascii d < 128)%N /\ isSpace d = false.
Proof.
  unfold plain. intros Hd. apply andb_prop in Hd as [Hs Hlt].
  apply negb_true_iff in Hs. apply N.ltb_lt in Hlt. now split.
Qed.

Lemma continuation_nonempty (c : ascii) (x : string) :
  (128 <= N_of_ascii c < 192)%N -> trimLeft (String c x) <> "".
Proof.
  intros Hc. rewrite trimLeft_clean; [discriminate |].
  apply lead_not_space; [lia | no_rune].
Qed.

Lemma clean_trimRight_nonempty (x : string) :
  startsSpace x = false -> x <> "" -> trimLeft (trimRight x) <> "".
Proof.
  intros Hx Hne. rewrite trimLeft_clean by now apply startsSpace_trimRight.
  destruct x as [|c x]; [contradiction |].
  rewrite trimRight_cons by (rewrite trimLeft_clean by exact Hx; discriminate).
  discriminate.
Qed.

(** What is left of a string that is not white space throughout is not
    white space throughout. *)
Lemma notAllSpace_trimRight (x : string) :
  trimLeft x <> "" -> trimLeft (trimRight x) <> "".
Proof.
  remember (String.length x) as n eqn:Hn.
  revert x Hn. induction n as [n IH] using lt_wf_ind. intros x -> Hne.
  destruct (startsSpace x) eqn:E;
    [| apply clean_trimRight_nonempty; [exact E | intros ->; now apply Hne]].
  destruct x as [|c1 x1]; [discriminate E |]. cbn [startsSpace] in E.
  rewrite trimRight_cons by exact Hne.
  destruct (isSpace c1) eqn:H1.
  { cbn [trimLeft] in Hne |- *. rewrite H1 in Hne |- *.
    apply (IH (String.length x1)); [cbn; lia | reflexivity | exact Hne]. }
  cbn [orb] in E. destruct x1 as [|c2 x2]; [discriminate E |].
  destruct (isSpace2 c1 c2) eqn:H2.
  { pose proof (isSpace2_bytes _ _ H2) as [_ Hc2].
    rewrite trimRight_cons by now apply continuation_nonempty.
    cbn [trimLeft] in Hne |- *. rewrite H1, H2 in Hne |- *.
    apply (IH (String.length x2)); [cbn; lia | reflexivity | exact Hne]. }
  cbn [orb] in E. destruct x2 as [|c3 x3]; [discriminate E |].
  pose proof (isSpace3_bytes _ _ _ E) as (_ & Hc2 & Hc3).
  rewrite trimRight_cons by now apply continuation_nonempty.
  rewrite trimRight_cons by now apply continuation_nonempty.
  cbn [trimLeft] in Hne |- *. rewrite H1, H2, E in Hne |- *.
  apply (IH (String.length x3)); [cbn; lia | reflexivity | exact Hne].
Qed.

Lemma trimRight_twice (x : string) : trimRight (trimRight x) = trimRight x.
Proof.
  induction x as [|c x IH]; [reflexivity |].
  destruct (string_dec (trimLeft (String c x)) "") as [E | E].
  { cbn [trimRight]. now rewrite E. }
  pose proof (notAllSpace_trimRight _ E) as E'.
  rewrite trimRight_cons in E' |- * by exact E.
  rewrite trimRight_cons by exact E'. now rewrite IH.
Qed.

(** [TrimSpace] leaves its own result alone. *)
Lemma TrimSpace_twice (s : string) : TrimSpace (TrimSpace s) = TrimSpace s.
Proof.
  unfold TrimSpace.
  rewrite (trimLeft_clean (trimRight (trimLeft s)))
    by apply startsSpace_trimRight, startsSpace_trimLeft.
  apply trimRight_twice.
Qed.

Lemma startsSpace_TrimSpace (s : string) : startsSpace (TrimSpace s) = false.
Proof. apply startsSpace_trimRight, startsSpace_trimLeft. Qed.

(** A string and plain bytes after it. *)
Lemma startsSpace_append (t w : string) (d : ascii) :
  plain d = true -> startsSpace t = false -> startsSpace (t +:+ String d w) = false.
Proof.
  intros Hd Ht. apply plain_byte in Hd as [Hd Hs].
  destruct t as [|c1 [|c2 [|c3 t3]]].
  - rewrite append_nil_l. apply lead_not_space; [lia | exact Hs].
  - rewrite append_cons, append_nil_l. cbn [startsSpace] in Ht |- *.
    apply orb_false_elim in Ht as [-> _]. cbn [orb].
    assert (H2 : isSpace2 c1 d = false) by no_rune. rewrite H2. cbn [orb].
    destruct w as [|c3 w]; [reflexivity |]. no_rune.
  - rewrite !append_cons, append_nil_l. cbn [startsSpace] in Ht |- *.
    apply orb_false_elim in Ht as [-> Ht]. apply orb_false_elim in Ht as [-> _].
    cbn [orb]. no_rune.
  - rewrite !append_cons. exact Ht.
Qed.

Lemma notAllSpace_append (t w : string) (d : ascii) :
  plain d = true -> trimLeft (t +:+ String d w) <> "".
Proof.
  intros Hd. pose proof (plain_byte _ Hd) as [Hlt Hs].
  remember (String.length t) as n eqn:Hn.
  revert t Hn. induction n as [n IH] using lt_wf_ind. intros t ->.
  destruct t as [|c1 t1].
  { rewrite append_nil_l, trimLeft_plain by exact Hd. discriminate. }
  rewrite append_cons. cbn [trimLeft]. destruct (isSpace c1) eqn:H1.
  { apply (IH (String.length t1)); [cbn; lia | reflexivity]. }
  destruct t1 as [|c2 t2].
  { rewrite append_nil_l.
    assert (H2 : isSpace2 c1 d = false) by no_rune. rewrite H2.
    destruct w as [|c3 w]; [discriminate |].
    assert (H3 : isSpace3 c1 d c3 = false) by no_rune. rewrite H3. discriminate. }
  rewrite append_cons. destruct (isSpace2 c1 c2) eqn:H2.
  { apply (IH (String.length t2)); [cbn; lia | reflexivity]. }
  destruct t2 as [|c3 t3].
  { rewrite append_nil_l.
    assert (H3 : isSpace3 c1 c2 d = false) by no_rune. rewrite H3. discriminate. }
  rewrite append_cons. destruct (isSpace3 c1 c2 c3) eqn:H3.
  { apply (IH (String.length t3)); [cbn; lia | reflexivity]. }
  discriminate.
Qed.

Lemma trimRight_append (t w : string) (d : ascii) :
  plain d = true -> allPlain w = true ->
  trimRight (t +:+ String d w) = t +:+ String d w.
Proof.
  intros Hd Hw. induction t as [|c t IH].
  - rewrite append_nil_l. apply TrimSpace_fixed, TrimSpace_allPlain.
    cbn [allPlain]. now rewrite Hd, Hw.
  - rewrite append_cons.
    rewrite trimRight_cons by (rewrite <- append_cons; now apply notAllSpace_append).
    now rewrite IH.
Qed.

Lemma length_append (a b : string) :
  String.length (a +:+ b) = (String.length a + String.length b)%nat.
Proof.
  induction a as [|x a IH]; [reflexivity |].
  rewrite append_cons. cbn [String.length]. now rewrite IH.
Qed.

Lemma sliceFrom_append (a b : string) : sliceFrom (String.length a) (a +:+ b) = b.
Proof.
  induction a as [|x a IH]; [reflexivity |].
  rewrite append_cons. exact IH.
Qed.

Lemma HasSuffix_append (a b : string) : HasSuffix (a +:+ b) b = true.
Proof.
  unfold HasSuffix. rewrite length_append.
  replace (String.length a + String.length b - String.length b)%nat
    with (String.length a) by lia.
  rewrite sliceFrom_append, String.eqb_refl, andb_true_r.
  apply Nat.leb_le. lia.
Qed.

End TrimTwice.

(** The name [NormalizeRepoPath] returns ends in [.git], and begins and
    ends with no white space. *)
Theorem NormalizeRepoPath_shape (repoPath : string) :
  strings.HasSuffix (common.NormalizeRepoPath repoPath) ".git" = true
  /\ strings.TrimSpace (common.NormalizeRepoPath repoPath)
     = common.NormalizeRepoPath repoPath.
Proof.
  unfold common.NormalizeRepoPath. cbv zeta.
  destruct (strings.HasSuffix (strings.TrimSpace repoPath) ".git") eqn:E; cbn [negb].
  - split; [exact E | apply TrimSpace_twice].
  - split; [apply HasSuffix_append |].
    unfold strings.TrimSpace at 1.
    rewrite trimLeft_clean
      by (apply startsSpace_append; [reflexivity | apply startsSpace_TrimSpace]).
    now apply trimRight_append.
Qed.

(** Normalizing a name that is normalized changes nothing. *)
Theorem NormalizeRepoPath_idempotent (repoPath : string) :
  common.NormalizeRepoPath (common.NormalizeRepoPath repoPath)
  = common.NormalizeRepoPath repoPath.
Proof.
  destruct (NormalizeRepoPath_shape repoPath) as [Hsuffix Htrim].
  unfold common.NormalizeRepoPath at 1. cbv zeta.
  now rewrite Htrim, Hsuffix.
Qed.

(** Whatever the name, the name [NormalizeRepoPath] returns ends in
    [.git]. *)
Theorem NormalizeRepoPath_ends_in_git (repoPath : string) :
  strings.HasSuffix (common.NormalizeRepoPath repoPath) ".git" = true.
Proof. apply NormalizeRepoPath_shape. Qed.

(** ** The general statements at the engines and registries above *)

Lemma HandleReceivePack_relays_report_witness :
  fiber.respond (controller.HandleReceivePack demoRegistry rejectingEngine pushRequest)
  = fiber.mkCtx 200 [("Content-Type", "application/x-git-receive-pack-result")]
      (transport.report_wire partialReport).
Proof.
  apply (HandleReceivePack_relays_report demoRegistry rejectingEngine pushRequest
           (transport.mkEndpoint "/demo.git")
           (transport.mkReferenceUpdateRequest "<commands and pack>")
           partialReport (ErrorString "some refs were not updated")).
  - intros E. vm_compute in E. discriminate E.
  - reflexivity.
  - reflexivity.
  - reflexivity.
  - reflexivity.
Defined.

Lemma SSHConfig_handleReceivePack_report_witness :
  sshconfig.handleReceivePack pushSession rejectingEngine (transport.mkEndpoint "/demo.git")
  = sshconfig.mkSession "git-receive-pack '/demo.git'" "<commands and pack>" false
      "<advertised-refs>" "" None.
Proof.
  apply (SSHConfig_handleReceivePack_report rejectingEngine pushSession
           (transport.mkEndpoint "/demo.git") demoAdvRefs
           (transport.mkReferenceUpdateRequest "<commands and pack>")
           (Some partialReport) (Some (ErrorString "some refs were not updated"))).
  - reflexivity.
  - reflexivity.
  - reflexivity.
  - reflexivity.
  - reflexivity.
  - reflexivity.
Defined.

Lemma GitSSHServer_handleReceivePack_drops_report_witness :
  gitssh.handleReceivePack demoRegistry rejectingEngine pushChannel "demo.git"
  = (gitssh.mkChannel "<commands and pack>" false
       [gitssh.EvData "<advertised-refs>"; gitssh.EvClose],
     Some (ErrorString "some refs were not updated")).
Proof.
  apply (GitSSHServer_handleReceivePack_drops_report demoRegistry rejectingEngine pushChannel
           "demo.git" (transport.mkEndpoint "/demo.git") demoAdvRefs
           (transport.mkReferenceUpdateRequest "<commands and pack>")
           (Some partialReport) (ErrorString "some refs were not updated")).
  - reflexivity.
  - reflexivity.
  - reflexivity.
  - reflexivity.
  - reflexivity.
  - reflexivity.
Defined.

Lemma SSHConfig_decode_failure_exits_0_witness :
  let s' := sshconfig.handleUploadPack flushSession demoEngine
              (transport.mkEndpoint "/demo.git") in
  sshconfig.sess_exit s' = Some 0%Z
  /\ sshconfig.sess_stderr s'
     = (if String.eqb (Error missingWant) "pkt-line 1: missing 'want ' prefix"
        then sshconfig.sess_stderr flushSession
        else sshconfig.sess_stderr flushSession
             +:+ ("Request decode error: " +:+ Error missingWant +:+ nl)).
Proof.
  apply (SSHConfig_decode_failure_exits_0 demoEngine flushSession
           (transport.mkEndpoint "/demo.git") demoAdvRefs missingWant).
  - reflexivity.
  - reflexivity.
  - reflexivity.
  - reflexivity.
  - reflexivity.
Defined.

Lemma GitSSHServer_decode_failure_witness :
  snd (gitssh.handleUploadPack demoRegistry demoEngine flushChannel "demo.git")
  = (if strings.Contains (Error missingWant) "missing 'want' prefix"
        || strings.Contains (Error missingWant) "EOF"
     then None else Some missingWant).
Proof.
  apply (GitSSHServer_decode_failure demoRegistry demoEngine flushChannel "demo.git"
           (transport.mkEndpoint "/demo.git") demoAdvRefs missingWant).
  - reflexivity.
  - reflexivity.
  - reflexivity.
  - reflexivity.
  - discriminate.
  - reflexivity.
Defined.

Lemma SSHConfig_push_creates_repository_witness :
  sshconfig.handleSSHSession emptyRegistry demoEngine
    (sshconfig.mkSession "git-receive-pack '/new.git'" "<commands and pack>" true "" "" None)
  = (mkMockStorage ["new.git"] None,
     sshconfig.handleReceivePack
       (sshconfig.mkSession "git-receive-pack '/new.git'" "<commands and pack>" true "" "" None)
       demoEngine
       (transport.mkEndpoint
          ("/" +:+ path.Base (common.NormalizeRepoPath
                                (sshconfig.repoPathFromSSHArg "'/new.git'"))))).
Proof.
  apply (SSHConfig_push_creates_repository emptyRegistry (mkMockStorage ["new.git"] None)
           demoEngine
           (sshconfig.mkSession "git-receive-pack '/new.git'" "<commands and pack>" true "" "" None)
           "'/new.git'").
  - reflexivity.
  - discriminate.
  - intros E. vm_compute in E. discriminate E.
  - reflexivity.
  - reflexivity.
  - reflexivity.
Defined.

Lemma SSHConfig_fetch_missing_repository_witness :
  sshconfig.handleSSHSession emptyRegistry demoEngine
    (sshconfig.mkSession "git-upload-pack '/new.git'" "want 6161" true "" "" None)
  = (emptyRegistry,
     sshconfig.Exit
       (sshconfig.WriteStderr
          (sshconfig.mkSession "git-upload-pack '/new.git'" "want 6161" true "" "" None)
          ("Repository not found" +:+ nl)) 1).
Proof.
  apply (SSHConfig_fetch_missing_repository emptyRegistry demoEngine
           (sshconfig.mkSession "git-upload-pack '/new.git'" "want 6161" true "" "" None)
           "'/new.git'").
  - reflexivity.
  - discriminate.
  - intros E. vm_compute in E. discriminate E.
  - reflexivity.
Defined.

Lemma GitSSHServer_missing_repository_witness :
  gitssh.handleReceivePack emptyRegistry demoEngine pushChannel "new.git"
  = (pushChannel, Some (FiberError 404 "repository not found"))
  /\ gitssh.handleUploadPack emptyRegistry demoEngine pushChannel "new.git"
     = (pushChannel, Some (FiberError 404 "repository not found")).
Proof.
  apply (GitSSHServer_missing_repository emptyRegistry demoEngine pushChannel "new.git").
  reflexivity.
Defined.

(** ** HTTP: what the two pack handlers answer *)

Section PackHandlers.
Context `{GitRepositoryStorage St}.
Import transport fiber controller.

(** [HandleUploadPack], outcome by outcome.  A URL that names no
    repository is answered 404 by the handler; a repository that does not
    exist is answered 404 by the error handler, with the message of
    [GetTransportServer]; a request that does not decode is answered 400
    with the decoder's message; a failure of the engine is answered 500;
    otherwise the answer is 200 with the result content type and the
    encoded response as body. *)
Theorem HandleUploadPack_statuses (str : St) (engine : Engine) (r : Request) :
  let resp := respond (HandleUploadPack str engine r) in
  let repoPath := common.ExtractRepoPathFromURL (req_Path r) "/git-upload-pack" in
  (repoPath = "" -> resp = mkCtx 404 [] "Not Found")
  /\ (repoPath <> "" ->
      RepositoryExists str (common.NormalizeRepoPath repoPath) = false ->
      resp = mkCtx 404 [("Content-Type", "text/plain; charset=utf-8")] "repository not found")
  /\ (forall ep,
        repoPath <> "" -> common.GetTransportServer repoPath str = inr ep ->
        (forall err, NewUploadPackSession engine ep = Some err ->
                     resp = mkCtx 500 [] (Error err))
        /\ (NewUploadPackSession engine ep = None ->
            (forall err, DecodeUploadPackRequest engine (req_Body r) = inl err ->
                         resp = mkCtx 400 [] (Error err))
            /\ (forall req err,
                  DecodeUploadPackRequest engine (req_Body r) = inr req ->
                  UploadPack engine req = inl err ->
                  resp = mkCtx 500 [] (Error err))
            /\ (forall req out,
                  DecodeUploadPackRequest engine (req_Body r) = inr req ->
                  UploadPack engine req = inr out ->
                  resp = mkCtx 200 [("Content-Type", "application/x-git-upload-pack-result")]
                           (upresp_wire out))))
  /\ In (status resp) [200; 400; 404; 500]%Z.
Proof.
  intros resp repoPath. subst resp. unfold HandleUploadPack. fold repoPath.
  split; [| split; [| split]].
  - now intros ->.
  - intros Hp Hex. apply String.eqb_neq in Hp. rewrite Hp.
    unfold common.GetTransportServer. now rewrite Hex.
  - intros ep Hp Hep. apply String.eqb_neq in Hp. rewrite Hp, Hep. split.
    + now intros err ->.
    + intros ->. split; [| split].
      * now intros err ->.
      * now intros req err -> ->.
      * now intros req out -> ->.
  - destruct (String.eqb repoPath ""); [cbn; auto 10 |].
    unfold common.GetTransportServer.
    destruct (negb _); [cbn; auto 10 |].
    destruct (NewUploadPackSession engine _); [cbn; auto 10 |].
    destruct (DecodeUploadPackRequest engine _) as [err | req]; [cbn; auto 10 |].
    destruct (UploadPack engine req); cbn; auto 10.
Qed.

(** [HandleReceivePack], outcome by outcome: 404 from the handler for a URL
    that names no repository, 404 from the error handler for a repository
    that does not exist, 500 when the session cannot be opened, 400 with
    the decoder's message when the request does not decode, and 200 with
    the result content type and the encoded report as body once
    [ReceivePack] has returned a report. *)
Theorem HandleReceivePack_statuses (str : St) (engine : Engine) (r : Request) :
  let resp := respond (HandleReceivePack str engine r) in
  let repoPath := common.ExtractRepoPathFromURL (req_Path r) "/git-receive-pack" in
  (repoPath = "" -> resp = mkCtx 404 [] "Not Found")
  /\ (repoPath <> "" ->
      RepositoryExists str (common.NormalizeRepoPath repoPath) = false ->
      resp = mkCtx 404 [("Content-Type", "text/plain; charset=utf-8")] "repository not found")
  /\ (forall ep,
        repoPath <> "" -> common.GetTransportServer repoPath str = inr ep ->
        (forall err, NewReceivePackSession engine ep = Some err ->
                     resp = mkCtx 500 [] (Error err))
        /\ (NewReceivePackSession engine ep = None ->
            (forall err, DecodeReferenceUpdateRequest engine (req_Body r) = inl err ->
                         resp = mkCtx 400 [] (Error err))
            /\ (forall req report err,
                  DecodeReferenceUpdateRequest engine (req_Body r) = inr req ->
                  ReceivePack engine req = (Some report, err) ->
                  resp = mkCtx 200 [("Content-Type", "application/x-git-receive-pack-result")]
                           (report_wire report))))
  /\ In (status resp) [200; 400; 404; 500]%Z.
Proof.
  intros resp repoPath. subst resp. unfold HandleReceivePack. fold repoPath.
  split; [| split; [| split]].
  - now intros ->.
  - intros Hp Hex. apply String.eqb_neq in Hp. rewrite Hp.
    unfold common.GetTransportServer. now rewrite Hex.
  - intros ep Hp Hep. apply String.eqb_neq in Hp. rewrite Hp, Hep. split.
    + now intros err ->.
    + intros ->. split.
      * now intros err ->.
      * intros req report err -> ->. now destruct err.
  - destruct (String.eqb repoPath ""); [cbn; auto 10 |].
    unfold common.GetTransportServer.
    destruct (negb _); [cbn; auto 10 |].
    destruct (NewReceivePackSession engine _); [cbn; auto 10 |].
    destruct (DecodeReferenceUpdateRequest engine _) as [err | req]; [cbn; auto 10 |].
    destruct (ReceivePack engine req) as [[report |] [err |]]; cbn; auto 10.
Qed.

End PackHandlers.

(** ** SSH, first server: what every session keeps *)

Section SessionInvariants.
Context `{GitRepositoryStorage St}.
Import transport sshconfig.

(** A session that is open and has not exited. *)
Definition live (s : Session) : Prop := sess_open s = true /\ sess_exit s = None.

(** A session that was closed after its exit status, 0 or 1, was sent. *)
Definition exited (s : Session) : Prop :=
  sess_open s = false /\ (sess_exit s = Some 0%Z \/ sess_exit s = Some 1%Z).

(** A session that was closed before any exit status was sent. *)
Definition cut (s : Session) : Prop := sess_open s = false /\ sess_exit s = None.

Lemma Exit_live (s : Session) (code : Z) :
  live s -> (code = 0 \/ code = 1)%Z -> exited (Exit s code).
Proof.
  intros [Hopen Hexit] Hcode. unfold exited, Exit. rewrite Hexit, Hopen. cbn.
  split; [reflexivity |]. destruct Hcode as [-> | ->]; auto.
Qed.

Lemma WriteStderr_live (s : Session) (msg : string) : live s -> live (WriteStderr s msg).
Proof. intros [Hopen Hexit]. unfold live, WriteStderr. rewrite Hopen. cbn. auto. Qed.

Lemma Write_live (s : Session) (p : string) :
  live s ->
  exists s', Write s p = (s', None) /\ live s' /\ sess_stdin s' = sess_stdin s.
Proof.
  intros [Hopen Hexit]. unfold Write, Session_Writer. rewrite Hopen.
  eexists. split; [reflexivity |]. unfold live. cbn. auto.
Qed.

Lemma Close_live (s : Session) : live s -> cut (Close s).
Proof. intros [_ Hexit]. unfold cut, Close. cbn. auto. Qed.

Lemma Exit_cut (s : Session) (code : Z) : cut s -> Exit s code = s.
Proof. intros [Hopen Hexit]. unfold Exit. now rewrite Hexit, Hopen. Qed.

Lemma WriteStderr_cut (s : Session) (msg : string) : cut s -> WriteStderr s msg = s.
Proof. intros [Hopen _]. unfold WriteStderr. now rewrite Hopen. Qed.

Lemma Write_cut (s : Session) (p : string) :
  cut s -> Write s p = (s, Some (ErrorString "EOF")).
Proof. intros [Hopen _]. unfold Write, Session_Writer. now rewrite Hopen. Qed.

Ltac exit_now :=
  apply Exit_live; [repeat apply WriteStderr_live; assumption | auto].

Lemma handleUploadPack_exited (s : Session) (engine : Engine) (ep : Endpoint) :
  live s -> exited (handleUploadPack s engine ep).
Proof.
  intros Hs. unfold handleUploadPack, AdvRefs_Encode, UploadPackResponse_Encode.
  destruct (NewUploadPackSession engine ep); [exit_now |].
  destruct (up_AdvertisedReferences engine) as [err | adv]; [exit_now |].
  destruct (Write_live s (adv_wire adv) Hs) as (s1 & -> & Hs1 & _).
  destruct (DecodeUploadPackRequest engine (sess_stdin s1)) as [err | req].
  { destruct (String.eqb _ _); exit_now. }
  destruct (UploadPack engine req) as [err | resp]; [exit_now |].
  destruct (Write_live s1 (upresp_wire resp) Hs1) as (s2 & -> & Hs2 & _). exit_now.
Qed.

Lemma handleReceivePack_ends (s : Session) (engine : Engine) (ep : Endpoint) :
  live s ->
  exited (handleReceivePack s engine ep)
  \/ (cut (handleReceivePack s engine ep)
      /\ exists req, DecodeReferenceUpdateRequest engine (sess_stdin s) = inr req
                     /\ ClosesPackfile engine req = true).
Proof.
  intros Hs. unfold handleReceivePack, AdvRefs_Encode, ReportStatus_Encode.
  destruct (NewReceivePackSession engine ep); [left; exit_now |].
  destruct (rp_AdvertisedReferences engine) as [err | adv]; [left; exit_now |].
  destruct (Write_live s (adv_wire adv) Hs) as (s1 & -> & Hs1 & Hin).
  rewrite Hin.
  destruct (DecodeReferenceUpdateRequest engine (sess_stdin s)) as [err | req] eqn:Hd;
    [left; exit_now |].
  cbv zeta. destruct (ClosesPackfile engine req) eqn:Hclose.
  - right. split; [| now exists req].
    pose proof (Close_live s1 Hs1) as Hcut.
    destruct (ReceivePack engine req) as [[report |] [err |]];
      rewrite ?(Write_cut _ _ Hcut); cbn [fst];
      rewrite ?(WriteStderr_cut _ _ Hcut), ?(Exit_cut _ _ Hcut); exact Hcut.
  - left. destruct (ReceivePack engine req) as [[report |] [err |]].
    + destruct (Write_live s1 (report_wire report) Hs1) as (s2 & -> & Hs2 & _).
      cbn [fst]. exit_now.
    + destruct (Write_live s1 (report_wire report) Hs1) as (s2 & -> & Hs2 & _). exit_now.
    + exit_now.
    + exit_now.
Qed.

(** Whatever the command, the storage and the engine, [handleSSHSession]
    leaves a session that was open and had not exited closed.  The
    client has been sent the exit status 0 or 1 before the close, with
    one exception: a push whose pack [ReceivePack] has read.  That
    session was closed by [ReceivePack], and the client is sent no exit
    status at all. *)
Theorem handleSSHSession_ends (str : St) (engine : Engine) (s : Session) :
  sess_open s = true ->
  sess_exit s = None ->
  let s' := snd (handleSSHSession str engine s) in
  sess_open s' = false
  /\ (sess_exit s' = Some 0%Z
      \/ sess_exit s' = Some 1%Z
      \/ (sess_exit s' = None
          /\ fst (parseGitCommand (RawCommand s)) = "git-receive-pack"
          /\ exists req, DecodeReferenceUpdateRequest engine (sess_stdin s) = inr req
                         /\ ClosesPackfile engine req = true)).
Proof.
  intros Hopen Hexit s'.
  assert (Hs : live s) by (now split).
  assert (Hdone : forall t, exited t ->
            sess_open t = false
            /\ (sess_exit t = Some 0%Z \/ sess_exit t = Some 1%Z
                \/ (sess_exit t = None
                    /\ fst (parseGitCommand (RawCommand s)) = "git-receive-pack"
                    /\ exists req, DecodeReferenceUpdateRequest engine (sess_stdin s) = inr req
                                   /\ ClosesPackfile engine req = true))).
  { intros t [Ho [He | He]]; auto. }
  subst s'. unfold handleSSHSession.
  destruct (parseGitCommand (RawCommand s)) as [service repoArg]. cbn [fst].
  destruct (_ || _); [cbn [snd]; apply Hdone; exit_now |].
  destruct (String.eqb (repoPathFromSSHArg repoArg) ""); [cbn [snd]; apply Hdone; exit_now |].
  assert (Hserve : forall str' b,
             let t :=
               snd (if negb b
                    then (str', Exit (WriteStderr s ("Repository not found" +:+ nl)) 1)
                    else
                      match common.GetTransportServer (repoPathFromSSHArg repoArg) str' with
                      | inl err =>
                          (str', Exit (WriteStderr s ("Transport server error: "
                                                      +:+ Error err +:+ nl)) 1)
                      | inr ep =>
                          if String.eqb service "git-upload-pack"
                          then (str', handleUploadPack s engine ep)
                          else if String.eqb service "git-receive-pack"
                               then (str', handleReceivePack s engine ep)
                               else (str', Exit (WriteStderr s ("Unsupported service: "
                                                                +:+ service +:+ nl)) 1)
                      end) in
             sess_open t = false
             /\ (sess_exit t = Some 0%Z \/ sess_exit t = Some 1%Z
                 \/ (sess_exit t = None
                     /\ service = "git-receive-pack"
                     /\ exists req, DecodeReferenceUpdateRequest engine (sess_stdin s) = inr req
                                    /\ ClosesPackfile engine req = true))).
  { intros str' b. cbv zeta. destruct (negb b); [cbn [snd]; apply Hdone; exit_now |].
    destruct (common.GetTransportServer _ _) as [err | ep];
      [cbn [snd]; apply Hdone; exit_now |].
    destruct (String.eqb service "git-upload-pack");
      [cbn [snd]; apply Hdone; now apply handleUploadPack_exited |].
    destruct (String.eqb service "git-receive-pack") eqn:Hsvc;
      [| cbn [snd]; apply Hdone; exit_now ].
    cbn [snd]. apply String.eqb_eq in Hsvc.
    destruct (handleReceivePack_ends s engine ep Hs) as [Hex | [[Ho He] Hreq]];
      [now apply Hdone | auto 6]. }
  destruct (negb _ && _); [| apply Hserve].
  destruct (CreateRepository str _) as [str' [err |]];
    [cbn [snd]; apply Hdone; exit_now | apply Hserve].
Qed.

End SessionInvariants.

Lemma handleSSHSession_ends_witness :
  let s' := snd (sshconfig.handleSSHSession demoRegistry demoEngine pushSession) in
  sshconfig.sess_open s' = false
  /\ (sshconfig.sess_exit s' = Some 0%Z
      \/ sshconfig.sess_exit s' = Some 1%Z
      \/ (sshconfig.sess_exit s' = None
          /\ fst (sshconfig.parseGitCommand (sshconfig.RawCommand pushSession))
             = "git-receive-pack"
          /\ exists req,
               transport.DecodeReferenceUpdateRequest demoEngine
                 (sshconfig.sess_stdin pushSession) = inr req
               /\ transport.ClosesPackfile demoEngine req = true)).
Proof.
  apply (handleSSHSession_ends demoRegistry demoEngine pushSession); reflexivity.
Defined.

(** A fetch ends with the exit status 0, a push with none. *)
Example sessions_of_demo :
  snd (sshconfig.handleSSHSession demoRegistry demoEngine
         (sshconfig.mkSession "git-upload-pack '/demo.git'" "want 6161" true "" "" None))
  = sshconfig.mkSession "git-upload-pack '/demo.git'" "want 6161" false
      "<advertised-refs><pack>" "" (Some 0%Z)
  /\ snd (sshconfig.handleSSHSession demoRegistry demoEngine pushSession)
     = sshconfig.mkSession "git-receive-pack '/demo.git'" "<commands and pack>" false
         "<advertised-refs>" "" None.
Proof. split; reflexivity. Qed.

(** ** SSH, second server: the requests of a channel *)

(** The answers to requests that are not exec requests: a refusal for
    each one that wants a reply. *)
Definition refuse (ch : gitssh.Channel) (requests : list gitssh.Request) : gitssh.Channel :=
  fold_left (fun ch req => if gitssh.WantReply req then gitssh.send ch (gitssh.EvReply false) else ch)
            requests ch.

(** An engine over a repository without references; what the client sends
    does not decode. *)
Definition emptyRepoEngine : transport.Engine := {|
  transport.NewUploadPackSession := fun _ => None;
  transport.up_AdvertisedReferences := inr (transport.mkAdvRefs [] "<no-refs>");
  transport.UploadPack := fun _ => inl (ErrorString "empty upload-pack-request");
  transport.NewReceivePackSession := fun _ => None;
  transport.rp_AdvertisedReferences := inr (transport.mkAdvRefs [] "<no-refs>");
  transport.ReceivePack := transport.ReceivePack demoEngine;
  transport.ClosesPackfile := transport.ClosesPackfile demoEngine;
  transport.DecodeUploadPackRequest := fun _ => inl (ErrorString "unexpected payload");
  transport.DecodeReferenceUpdateRequest := transport.DecodeReferenceUpdateRequest demoEngine
|}.

Section ChannelRequests.
Context `{GitRepositoryStorage St}.
Import transport gitssh.

Lemma serveRequests_refused (str : St) (engine : Engine) (pre : list Request) :
  Forall (fun q => req_Type q <> "exec") pre ->
  forall (ch : Channel) (rest : list Request),
    serveRequests str engine ch (pre ++ rest) = serveRequests str engine (refuse ch pre) rest.
Proof.
  induction 1 as [| q pre Hq _ IH]; intros ch rest; [reflexivity |].
  cbn [app serveRequests refuse fold_left].
  apply String.eqb_neq in Hq. rewrite Hq. apply IH.
Qed.

(** A session channel serves one exec request.  The requests before it
    are refused, each one that wants a reply being answered [false]; the
    exec request is handled and the channel is closed, if it is not
    closed by then; the requests after it are not looked at.  A channel
    that never sends an exec request is closed once its requests end,
    with nothing written to it. *)
Theorem handleChannel_one_exec
        (str : St) (engine : Engine) (ch : Channel) (pre rest : list Request) (req : Request) :
  Forall (fun q => req_Type q <> "exec") pre ->
  req_Type req = "exec" ->
  handleChannel str engine "session" ch (pre ++ req :: rest)
  = option_map Close (handleExecRequest str engine (refuse ch pre) req)
  /\ handleChannel str engine "session" ch pre = Some (Close (refuse ch pre)).
Proof.
  intros Hpre Hreq. unfold handleChannel. cbn [String.eqb negb].
  change (String.eqb "session" "session") with true. cbn [negb]. split.
  - rewrite serveRequests_refused by exact Hpre.
    cbn [serveRequests]. rewrite Hreq.
    change (String.eqb "exec" "exec") with true.
    now destruct (handleExecRequest _ _ _ _).
  - rewrite <- (app_nil_r pre) at 1.
    now rewrite serveRequests_refused by exact Hpre.
Qed.

(** A fetch from a repository that advertises no reference succeeds once
    the advertisement is written: the request of the client is not read,
    and the engine is not asked for a pack. *)
Theorem GitSSHServer_empty_repository_fetch
        (str : St) (engine : Engine) (ch : Channel) (repoPath : string) (ep : Endpoint)
        (adv : AdvRefs) :
  chan_open ch = true ->
  common.GetTransportServer repoPath str = inr ep ->
  NewUploadPackSession engine ep = None ->
  up_AdvertisedReferences engine = inr adv ->
  References adv = [] ->
  handleUploadPack str engine ch repoPath = (emit ch (EvData (adv_wire adv)), None).
Proof.
  intros Hopen Hep Hs Hadv Hrefs. unfold handleUploadPack.
  rewrite Hep, Hs, Hadv. unfold AdvRefs_Encode, Write, Channel_Writer.
  now rewrite Hopen, Hrefs.
Qed.

End ChannelRequests.

Lemma handleChannel_one_exec_witness :
  let pre := [gitssh.mkRequest "env" true "LANG=C"; gitssh.mkRequest "pty-req" false ""] in
  let req := execRequest "git-receive-pack '/demo.git'" in
  let rest := [execRequest "git-upload-pack '/demo.git'"] in
  gitssh.handleChannel demoRegistry demoEngine "session" pushChannel (pre ++ req :: rest)
  = option_map gitssh.Close
      (gitssh.handleExecRequest demoRegistry demoEngine (refuse pushChannel pre) req)
  /\ gitssh.handleChannel demoRegistry demoEngine "session" pushChannel pre
     = Some (gitssh.Close (refuse pushChannel pre)).
Proof.
  apply (handleChannel_one_exec demoRegistry demoEngine pushChannel
           [gitssh.mkRequest "env" true "LANG=C"; gitssh.mkRequest "pty-req" false ""]
           [execRequest "git-upload-pack '/demo.git'"]
           (execRequest "git-receive-pack '/demo.git'")).
  - repeat constructor; discriminate.
  - reflexivity.
Defined.

Lemma GitSSHServer_empty_repository_fetch_witness :
  gitssh.handleUploadPack demoRegistry emptyRepoEngine flushChannel "demo.git"
  = (gitssh.emit flushChannel (gitssh.EvData "<no-refs>"), None).
Proof.
  apply (GitSSHServer_empty_repository_fetch demoRegistry emptyRepoEngine flushChannel
           "demo.git" (transport.mkEndpoint "/demo.git") (transport.mkAdvRefs [] "<no-refs>")).
  - reflexivity.
  - reflexivity.
  - reflexivity.
  - reflexivity.
  - reflexivity.
Defined.

(** The same fetch from the exec request on: the channel ends without an
    exit status, by the half-close and the pause. *)
Example empty_repository_fetch_ends_gently :
  gitssh.handleChannel demoRegistry emptyRepoEngine "session" flushChannel
    [execRequest "git-upload-pack '/demo.git'"]
  = Some (gitssh.mkChannel "0000" false
            [gitssh.EvReply true; gitssh.EvData "<no-refs>"; gitssh.EvCloseWrite;
             gitssh.EvSleep 200; gitssh.EvClose]).
Proof. reflexivity. Qed.

(** ** The remote back end: an object, a reference and the configuration
    from the write to the removal *)

Section StorerLifecycle.
Context `{GoGit}.
Import awss3 plumbing.

(** An object from the write to the removal.  Once stored, the object is
    reported present and its size is the length of the payload; once
    deleted, it is reported absent by [HasEncodedObject] and by
    [EncodedObject] alike, and every other key of the store is as it was
    before the write. *)
Theorem object_lifecycle (s : s3.S3Storer) (c : Client) (t : ObjectType) (p : string) :
  storable t ->
  net c (s3.getObjectKey s (s3.objectPathOf (ComputeHash t p))) = Healthy ->
  let h := ComputeHash t p in
  exists c1 c2 : Client,
    s3.SetEncodedObject s c (s3.ofMemoryObject (s3.newObject t p)) = (c1, (h, None))
    /\ s3.HasEncodedObject s c1 h = None
    /\ s3.EncodedObjectSize s c1 h = (Z.of_nat (String.length p), None)
    /\ s3.DeleteEncodedObject s c1 h = (c2, None)
    /\ s3.HasEncodedObject s c2 h = Some ErrObjectNotFound
    /\ (forall t', s3.EncodedObject s c2 t' h = inl ErrObjectNotFound)
    /\ (forall k, k <> (s3.bucket s, s3.getObjectKey s (s3.objectPathOf h)) ->
          objects c2 !! k = objects c !! k).
Proof.
  intros Ht Hnet h. subst h.
  set (h := ComputeHash t p) in *.
  set (key := s3.getObjectKey s (s3.objectPathOf h)) in *.
  do 2 eexists. split.
  { apply SetEncodedObject_newObject; [exact Ht | fold h key; congruence]. }
  fold h key.
  unfold s3.HasEncodedObject, s3.EncodedObjectSize, s3.DeleteEncodedObject, s3.EncodedObject,
    HeadObject, DeleteObject, GetObject.
  fold key. cbn [net objects]. rewrite Hnet, lookup_insert_eq. cbn [Body].
  split; [reflexivity |]. split; [reflexivity |]. split; [reflexivity |].
  cbn [net objects]. rewrite Hnet, lookup_delete_eq.
  split; [reflexivity |]. split; [reflexivity |].
  intros k Hk. now rewrite lookup_delete_ne, lookup_insert_ne.
Qed.

(** Deleting an object that is not stored succeeds and changes nothing. *)
Theorem DeleteEncodedObject_absent (s : s3.S3Storer) (c : Client) (h : Hash) :
  net c (s3.getObjectKey s (s3.objectPathOf h)) <> RequestFails ->
  objects c !! (s3.bucket s, s3.getObjectKey s (s3.objectPathOf h)) = None ->
  exists c', s3.DeleteEncodedObject s c h = (c', None) /\ objects c' = objects c.
Proof.
  intros Hnet Habsent. unfold s3.DeleteEncodedObject, DeleteObject.
  destruct (net c _); [| contradiction |];
    (eexists; split; [reflexivity | cbn; now apply delete_id]).
Qed.

(** A reference from the write to the removal.  A canonical reference
    whose name does not begin with a slash reads back as written; once
    removed, reading it fails with [reference not found]; every other key
    of the store is as it was before the write. *)
Theorem reference_lifecycle (s : s3.S3Storer) (c : Client) (r : Reference) :
  canonical r ->
  strings.HasPrefix (ref_n r) "/" = false ->
  net c (s3.writeRefKey s (ref_n r)) = Healthy ->
  exists c1 c2 : Client,
    s3.SetReference s c r = (c1, None)
    /\ s3.Reference s c1 (ref_n r) = inr r
    /\ s3.RemoveReference s c1 (ref_n r) = (c2, None)
    /\ s3.Reference s c2 (ref_n r) = inl ErrReferenceNotFound
    /\ (forall k, k <> (s3.bucket s, s3.writeRefKey s (ref_n r)) ->
          objects c2 !! k = objects c !! k).
Proof.
  intros Hcan Hname Hnet.
  destruct (Reference_after_SetReference s c r Hcan Hname Hnet) as (c1 & Hset & Hget).
  exists c1. eexists. split; [exact Hset |]. split; [exact Hget |].
  unfold s3.SetReference in Hset. rewrite PutObject_ok in Hset by congruence.
  injection Hset as <-.
  unfold s3.RemoveReference, DeleteObject. cbn [net objects]. rewrite Hnet.
  split; [reflexivity |]. split.
  - unfold s3.Reference. rewrite readRefKey_writeRefKey by exact Hname.
    unfold GetObject. cbn [net objects]. now rewrite Hnet, lookup_delete_eq.
  - intros k Hk. cbn [objects]. now rewrite lookup_delete_ne, lookup_insert_ne.
Qed.

(** The configuration read after [SetConfig] is what [Unmarshal] makes of
    the bytes [Marshal] produced. *)
Theorem Config_after_SetConfig
        (s : s3.S3Storer) (c : Client) (cfg : config_Config) (content : string) :
  Config_Marshal cfg = inr content ->
  net c (s3.getObjectKey s "config") = Healthy ->
  exists c', s3.SetConfig s c cfg = (c', None)
             /\ s3.Config s c' = (Some (fst (Config_Unmarshal content)),
                                  snd (Config_Unmarshal content))
             /\ (forall k, k <> (s3.bucket s, s3.getObjectKey s "config") ->
                   objects c' !! k = objects c !! k).
Proof.
  intros Hm Hnet. unfold s3.SetConfig. rewrite Hm, PutObject_ok by congruence.
  eexists. split; [reflexivity |]. split.
  - unfold s3.Config, GetObject. cbn [net objects]. rewrite Hnet, lookup_insert_eq.
    cbn. now destruct (Config_Unmarshal content).
  - intros k Hk. cbn [objects]. now rewrite lookup_insert_ne.
Qed.

(** A configuration that does not marshal is not written. *)
Theorem SetConfig_marshal_error (s : s3.S3Storer) (c : Client) (cfg : config_Config) (err : error) :
  Config_Marshal cfg = inl err -> s3.SetConfig s c cfg = (c, Some err).
Proof. intros Hm. unfold s3.SetConfig. now rewrite Hm. Qed.

End StorerLifecycle.

Lemma object_lifecycle_witness :
  let h := sampleDigest plumbing.BlobObject "hello" in
  exists c1 c2 : awss3.Client,
    s3.SetEncodedObject (H := sampleGoGit) demoStorer emptyClient
      (s3.ofMemoryObject (H := sampleGoGit) (s3.newObject plumbing.BlobObject "hello"))
    = (c1, (h, None))
    /\ s3.HasEncodedObject demoStorer c1 h = None
    /\ s3.EncodedObjectSize demoStorer c1 h = (Z.of_nat (String.length "hello"), None)
    /\ s3.DeleteEncodedObject demoStorer c1 h = (c2, None)
    /\ s3.HasEncodedObject demoStorer c2 h = Some plumbing.ErrObjectNotFound
    /\ (forall t', s3.EncodedObject demoStorer c2 t' h = inl plumbing.ErrObjectNotFound)
    /\ (forall k, k <> (s3.bucket demoStorer, s3.getObjectKey demoStorer (s3.objectPathOf h)) ->
          awss3.objects c2 !! k = awss3.objects emptyClient !! k).
Proof.
  apply (object_lifecycle (H := sampleGoGit) demoStorer emptyClient plumbing.BlobObject "hello").
  - left. reflexivity.
  - reflexivity.
Defined.

Lemma reference_lifecycle_witness :
  exists c1 c2 : awss3.Client,
    s3.SetReference (H := sampleGoGit) demoStorer emptyClient mainA = (c1, None)
    /\ s3.Reference (H := sampleGoGit) demoStorer c1 (plumbing.ref_n mainA) = inr mainA
    /\ s3.RemoveReference (H := sampleGoGit) demoStorer c1 (plumbing.ref_n mainA) = (c2, None)
    /\ s3.Reference (H := sampleGoGit) demoStorer c2 (plumbing.ref_n mainA)
       = inl plumbing.ErrReferenceNotFound
    /\ (forall k,
          k <> (s3.bucket demoStorer,
                s3.writeRefKey (H := sampleGoGit) demoStorer (plumbing.ref_n mainA)) ->
          awss3.objects c2 !! k = awss3.objects emptyClient !! k).
Proof.
  apply (reference_lifecycle (H := sampleGoGit) demoStorer emptyClient mainA).
  - left. exists hashA. split; reflexivity.
  - reflexivity.
  - reflexivity.
Defined.

Lemma Config_after_SetConfig_witness :
  exists c', s3.SetConfig (H := sampleGoGit) demoStorer emptyClient "[core]" = (c', None)
             /\ s3.Config (H := sampleGoGit) demoStorer c'
                = (Some (fst (sampleUnmarshal "[core]")), snd (sampleUnmarshal "[core]"))
             /\ (forall k, k <> (s3.bucket demoStorer, s3.getObjectKey demoStorer "config") ->
                   awss3.objects c' !! k = awss3.objects emptyClient !! k).
Proof.
  apply (Config_after_SetConfig (H := sampleGoGit) demoStorer emptyClient "[core]" "[core]").
  - reflexivity.
  - reflexivity.
Defined.

(** ** The remote back end: the shallow commits *)

Section ShallowRoundTrip.
Import awss3 plumbing strings.

Lemma rev_app_rev_app (a b c : string) :
  String.rev_app (String.rev_app a b) c = String.rev_app b (a +:+ c).
Proof.
  revert b c. induction a as [|x a IH]; intros b c; [reflexivity |].
  cbn [String.rev_app]. rewrite IH. now rewrite append_cons.
Qed.

Lemma rev_rev_app (line : string) : String.rev (String.rev_app line "") = line.
Proof. unfold String.rev. rewrite rev_app_rev_app. cbn. apply append_nil_r. Qed.

Lemma plain_not_newline (c : ascii) : plain c = true -> Ascii.eqb c "010" = false.
Proof.
  intros Hc. destruct (Ascii.eqb c "010") eqn:E; [| reflexivity].
  apply Ascii.eqb_eq in E. subst c. discriminate Hc.
Qed.

(** [Split] runs through a line without a line feed. *)
Lemma splitAux_line (line cur rest : string) :
  allPlain line = true ->
  splitAux "010" cur (line +:+ rest) = splitAux "010" (String.rev_app line cur) rest.
Proof.
  revert cur. induction line as [|c line IH]; intros cur Hl; [reflexivity |].
  cbn [allPlain] in Hl. apply andb_prop in Hl as [Hc Hl].
  rewrite append_cons. cbn [splitAux String.rev_app].
  rewrite plain_not_newline by exact Hc. now apply IH.
Qed.

Lemma Split_Join_lines (lines : list string) :
  Forall (fun line => allPlain line = true) lines -> lines <> [] ->
  Split (Join lines nl) "010" = lines.
Proof.
  unfold Split. induction 1 as [| line lines Hl _ IH]; intros Hne; [contradiction |].
  destruct lines as [| line' lines].
  - cbn [Join]. rewrite <- (append_nil_r line) at 1.
    rewrite splitAux_line by exact Hl. cbn [splitAux]. now rewrite rev_rev_app.
  - change (Join (line :: line' :: lines) nl)
      with (line +:+ String "010" (Join (line' :: lines) nl)).
    rewrite splitAux_line by exact Hl. cbn [splitAux].
    change (Ascii.eqb "010" "010") with true. cbn iota.
    rewrite rev_rev_app. f_equal. now apply IH.
Qed.

Lemma trimRight_allPlain_app (a y : string) :
  allPlain a = true -> trimRight (a +:+ y) = a +:+ trimRight y.
Proof.
  induction a as [|c a IH]; intros Ha; [reflexivity |].
  cbn [allPlain] in Ha. apply andb_prop in Ha as [Hc Ha].
  rewrite !append_cons, trimRight_plain by exact Hc. now rewrite IH.
Qed.

Lemma Hash_String_cons (h : Hash) :
  h <> [] -> exists d rest, Hash_String h = String d rest /\ plain d = true.
Proof.
  destruct h as [|b h]; [contradiction |]. intros _. cbn [Hash_String].
  destruct (hex_byte b (Hash_String h)) as (_ & Hd & _).
  eauto.
Qed.

(** What [SetShallow] writes is, up to the last line feed, the hashes in
    hexadecimal joined by line feeds, and [TrimSpace] removes that line
    feed and nothing else. *)
Lemma TrimSpace_shallowContent (hashes : list Hash) :
  Forall (fun h => h <> []) hashes -> hashes <> [] ->
  TrimSpace (s3.shallowContent hashes) = Join (map Hash_String hashes) nl.
Proof.
  intros Hall Hne. unfold TrimSpace.
  assert (Hleft : forall hs, Forall (fun h => h <> []) hs -> hs <> [] ->
                    trimLeft (s3.shallowContent hs) = s3.shallowContent hs
                    /\ s3.shallowContent hs <> "").
  { intros [| h hs] Hhs Hn; [contradiction |]. cbn [s3.shallowContent].
    destruct (Hash_String_cons h) as (d & rest & -> & Hd); [now inversion Hhs |].
    rewrite append_cons. split; [now apply trimLeft_plain | discriminate]. }
  destruct (Hleft hashes Hall Hne) as [-> _].
  induction Hall as [| h hs Hh Hhs IH]; [contradiction |].
  cbn [s3.shallowContent]. rewrite trimRight_allPlain_app by apply Hash_String_allPlain.
  destruct hs as [| h' hs].
  - cbn [s3.shallowContent map Join]. change (trimRight (String "010" "")) with "".
    apply append_nil_r.
  - destruct (Hleft (h' :: hs) Hhs) as [Hl Hn]; [discriminate |].
    rewrite trimRight_cons.
    + rewrite IH by discriminate. reflexivity.
    + cbn [trimLeft]. change (isSpace "010") with true. cbn iota. now rewrite Hl.
Qed.

Lemma NewHash_lines (hashes : list Hash) :
  Forall wf_hash hashes ->
  map NewHash (List.filter (fun line => negb (String.eqb line "")) (map Hash_String hashes))
  = hashes.
Proof.
  induction 1 as [| x xs Hx _ IH]; [reflexivity |].
  assert (Hk : negb (String.eqb (Hash_String x) "") = true).
  { destruct (Hash_String_cons x) as (d & rest & E & _); [| now rewrite E].
    intros ->. discriminate Hx. }
  cbn [map List.filter]. rewrite Hk. cbn [map].
  now rewrite NewHash_Hash_String, IH.
Qed.

(** The shallow commits read back as written.  A list of hashes, empty or
    not, written by [SetShallow] over a healthy link is the list
    [Shallow] returns afterwards; the empty list removes the blob, and
    no blob reads as no shallow commit. *)
Theorem Shallow_after_SetShallow (s : s3.S3Storer) (c : Client) (hashes : list Hash) :
  Forall wf_hash hashes ->
  net c (s3.getObjectKey s "shallow") = Healthy ->
  exists c', s3.SetShallow s c hashes = (c', None)
             /\ s3.Shallow s c' = (hashes, None)
             /\ (forall k, k <> (s3.bucket s, s3.getObjectKey s "shallow") ->
                   objects c' !! k = objects c !! k).
Proof.
  intros Hwf Hnet. unfold s3.SetShallow, s3.Shallow.
  destruct hashes as [| h hs].
  - cbn [length Nat.eqb]. unfold DeleteObject. rewrite Hnet.
    eexists. split; [reflexivity |]. split.
    + unfold GetObject. cbn [net objects]. now rewrite Hnet, lookup_delete_eq.
    + intros k Hk. cbn [objects]. now rewrite lookup_delete_ne.
  - cbn [length Nat.eqb]. rewrite PutObject_ok by congruence.
    eexists. split; [reflexivity |]. split.
    + unfold GetObject. cbn [net objects]. rewrite Hnet, lookup_insert_eq.
      cbn [io.ReadAll io.rd_err io.rd_data out_Body Body].
      assert (Hne : Forall (fun h => h <> []) (h :: hs)).
      { eapply Forall_impl; [exact Hwf |]. intros x Hx ->. discriminate Hx. }
      rewrite TrimSpace_shallowContent by (exact Hne || discriminate).
      rewrite Split_Join_lines.
      * f_equal. now apply NewHash_lines.
      * apply List.Forall_map. eapply Forall_impl; [exact Hwf |].
        intros x _. apply Hash_String_allPlain.
      * discriminate.
    + intros k Hk. cbn [objects]. now rewrite lookup_insert_ne.
Qed.

End ShallowRoundTrip.

Lemma Shallow_after_SetShallow_witness :
  exists c', s3.SetShallow demoStorer emptyClient [hashA; hashB] = (c', None)
             /\ s3.Shallow demoStorer c' = ([hashA; hashB], None)
             /\ (forall k, k <> (s3.bucket demoStorer, s3.getObjectKey demoStorer "shallow") ->
                   awss3.objects c' !! k = awss3.objects emptyClient !! k).
Proof.
  apply (Shallow_after_SetShallow demoStorer emptyClient [hashA; hashB]).
  - repeat constructor.
  - reflexivity.
Defined.

Example shallow_blob :
  awss3.objects (fst (s3.SetShallow demoStorer emptyClient [hashA; hashB]))
    !! ("git", "repositories/demo.git/shallow")
  = Some (awss3.mkObject
            ("6161616161616161616161616161616161616161" +:+ nl
             +:+ "6262626262626262626262626262626262626262" +:+ nl) ∅).
Proof. reflexivity. Qed.

(** ** HTTP: creating a repository *)

Section CreateRepoStatuses.
Context `{GitRepositoryStorage St}.
Import fiber controller.

(** [CreateRepo], outcome by outcome.  A body that does not parse is
    answered 400 with the parser's message and the storage is not called.
    Otherwise [CreateRepository] is called once, on the normalized name,
    and the storage it leaves is the storage the handler leaves: an error
    of any kind, that of a repository that exists included, is answered
    500 with [failed to create repository], and success is answered 201
    with [repository created].  No other status is answered. *)
Theorem CreateRepo_statuses (str : St) (parsed : error + string) :
  let resp := respond (snd (CreateRepo str parsed)) in
  (forall err, parsed = inl err ->
     fst (CreateRepo str parsed) = str /\ resp = mkCtx 400 [] (Error err))
  /\ (forall name, parsed = inr name ->
        fst (CreateRepo str parsed)
        = fst (CreateRepository str (common.NormalizeRepoPath name))
        /\ (forall err,
              snd (CreateRepository str (common.NormalizeRepoPath name)) = Some err ->
              resp = mkCtx 500 [] "failed to create repository")
        /\ (snd (CreateRepository str (common.NormalizeRepoPath name)) = None ->
            resp = mkCtx 201 [] "repository created"))
  /\ In (status resp) [201; 400; 500]%Z.
Proof.
  intros resp. subst resp. unfold CreateRepo. split; [| split].
  - now intros err ->.
  - intros name ->.
    destruct (CreateRepository str _) as [str' [err |]]; cbn [fst snd];
      (split; [reflexivity |]); split; try discriminate; reflexivity || (intros; reflexivity).
  - destruct parsed as [err | name]; [cbn; auto |].
    destruct (CreateRepository str _) as [str' [err |]]; cbn; auto.
Qed.

End CreateRepoStatuses.

(** ** The repository path of a URL *)

Section RepoPathOfURL.
Import strings.

Lemma prefix_length (p s : string) :
  String.prefix p s = true -> (String.length p <= String.length s)%nat.
Proof.
  revert s. induction p as [|x p IH]; intros s Hp; [cbn; lia |].
  destruct s as [|y s]; [discriminate Hp |]. cbn in Hp |- *.
  destruct (ascii_dec x y); [| discriminate Hp]. apply IH in Hp. lia.
Qed.

Lemma prefix_refl (p : string) : String.prefix p p = true.
Proof.
  induction p as [|x p IH]; [reflexivity |]. cbn. now destruct (ascii_dec x x).
Qed.

(** No occurrence begins where less than the whole of [substr] is left. *)
Lemma lastIndexFrom_short (i : Z) (s substr : string) (found : Z) :
  (String.length s < String.length substr)%nat ->
  lastIndexFrom i s substr found = found.
Proof.
  revert i. induction s as [|c s IH]; intros i Hlen.
  - cbn [lastIndexFrom]. destruct (String.prefix substr "") eqn:Hp; [| reflexivity].
    apply prefix_length in Hp. lia.
  - cbn [lastIndexFrom]. destruct (String.prefix substr (String c s)) eqn:Hp.
    + apply prefix_length in Hp. lia.
    + apply IH. cbn in Hlen. lia.
Qed.

(** The last occurrence of what a string ends with is at its end. *)
Lemma LastIndex_append (a suffix : string) :
  suffix <> "" -> LastIndex (a +:+ suffix) suffix = Z.of_nat (String.length a).
Proof.
  intros Hne. unfold LastIndex.
  assert (Hgen : forall i found,
             lastIndexFrom i (a +:+ suffix) suffix found
             = (i + Z.of_nat (String.length a))%Z).
  { induction a as [|x a IH]; intros i found.
    - rewrite append_nil_l. destruct suffix as [|c s]; [contradiction |].
      cbn [lastIndexFrom]. rewrite prefix_refl.
      rewrite lastIndexFrom_short by (cbn; lia). cbn. lia.
    - rewrite append_cons. cbn [lastIndexFrom]. rewrite IH. cbn [String.length]. lia. }
  now rewrite Hgen.
Qed.

Lemma sliceTo_append (a b : string) : sliceTo (String.length a) (a +:+ b) = a.
Proof.
  induction a as [|x a IH]; [now destruct b |].
  rewrite append_cons. cbn [String.length sliceTo]. now rewrite IH.
Qed.

Lemma HasSuffix_slash_cons (c : ascii) (s : string) :
  s <> "" -> HasSuffix (String c s) "/" = HasSuffix s "/".
Proof.
  destruct s as [|d s]; [contradiction |]. intros _. unfold HasSuffix.
  cbn [String.length Nat.leb Nat.sub sliceFrom].
  now rewrite Nat.sub_0_r.
Qed.

(** The path of a request built from a repository path and the suffix of
    a route yields that repository path again: for every suffix that is
    not empty and every repository path that does not end with a slash,
    [ExtractRepoPathFromURL] applied to the slash, the path and the suffix
    returns the path. *)
Theorem ExtractRepoPathFromURL_round_trip (repo suffix : string) :
  suffix <> "" ->
  HasSuffix repo "/" = false ->
  common.ExtractRepoPathFromURL ("/" +:+ repo +:+ suffix) suffix = repo.
Proof.
  intros Hsuffix Hrepo. unfold common.ExtractRepoPathFromURL.
  change ("/" +:+ repo +:+ suffix) with (String "/" repo +:+ suffix).
  rewrite LastIndex_append by exact Hsuffix.
  destruct (Z.ltb_spec (Z.of_nat (String.length (String "/" repo))) 0) as [Hlt | _]; [lia |].
  rewrite Nat2Z.id, sliceTo_append.
  destruct repo as [|c repo]; [reflexivity |].
  unfold TrimSuffix. rewrite HasSuffix_slash_cons, Hrepo by discriminate.
  unfold TrimPrefix, HasPrefix. cbn [String.prefix].
  destruct (ascii_dec "/" "/") as [_ | Hn]; [| now destruct Hn].
  cbn [String.length sliceFrom]. reflexivity.
Qed.

End RepoPathOfURL.

Lemma ExtractRepoPathFromURL_round_trip_witness :
  common.ExtractRepoPathFromURL ("/" +:+ "team/demo.git" +:+ "/info/refs") "/info/refs"
  = "team/demo.git".
Proof.
  apply (ExtractRepoPathFromURL_round_trip "team/demo.git" "/info/refs").
  - discriminate.
  - reflexivity.
Defined.

(** ** The key of a repository on the remote back end *)

Section RepoKey.
Import strings.

Definition isSlash : ascii -> bool := containsChar "/".

Lemma dropWhileEnd_no_slash (s : string) :
  HasSuffix s "/" = false -> dropWhileEnd isSlash s = s.
Proof.
  induction s as [|c s IH]; intros Hs; [reflexivity |].
  cbn [dropWhileEnd]. destruct s as [|d s].
  - cbn [dropWhileEnd]. unfold HasSuffix in Hs. cbn in Hs.
    unfold isSlash. cbn [containsChar]. rewrite orb_false_r.
    destruct (Ascii.eqb c "/") eqn:E; [| reflexivity].
    apply Ascii.eqb_eq in E. subst c. discriminate Hs.
  - rewrite HasSuffix_slash_cons in Hs by discriminate.
    rewrite IH by exact Hs. reflexivity.
Qed.

Lemma dropWhileEnd_slash (s : string) :
  dropWhileEnd isSlash (s +:+ "/") = dropWhileEnd isSlash s.
Proof.
  induction s as [|c s IH]; [reflexivity |].
  rewrite append_cons. cbn [dropWhileEnd]. now rewrite IH.
Qed.

Lemma dropWhileEnd_app (s t : string) :
  dropWhileEnd isSlash t <> "" ->
  dropWhileEnd isSlash (s +:+ t) = s +:+ dropWhileEnd isSlash t.
Proof.
  intros Ht. induction s as [|c s IH]; [reflexivity |].
  rewrite !append_cons. cbn [dropWhileEnd]. rewrite IH.
  destruct (s +:+ dropWhileEnd isSlash t) eqn:E; [| reflexivity].
  destruct s; [rewrite append_nil_l in E; contradiction | discriminate E].
Qed.

Lemma dropWhile_no_slash (s t : string) :
  HasPrefix s "/" = false -> s <> "" -> dropWhile isSlash (s +:+ t) = s +:+ t.
Proof.
  destruct s as [|c s]; [contradiction |]. intros Hp _.
  rewrite append_cons. cbn [dropWhile]. unfold isSlash. cbn [containsChar].
  rewrite orb_false_r. destruct (Ascii.eqb c "/") eqn:E; [| reflexivity].
  apply Ascii.eqb_eq in E. subst c. unfold HasPrefix in Hp. cbn [String.prefix] in Hp.
  destruct (ascii_dec "/" "/") as [_ | Hn]; [| now destruct Hn].
  destruct s; discriminate Hp.
Qed.

(** The three spellings of a name: the name, the name with the suffix
    [.git], and the name between slashes.  For a name that does not begin
    or end with a slash and does not end in [.git], [getRepoKey] sends all
    three to the key [repositories/<name>.git]. *)
Theorem getRepoKey_three_spellings (name : string) :
  HasPrefix name "/" = false ->
  HasSuffix name "/" = false ->
  HasSuffix name ".git" = false ->
  s3.getRepoKey name = "repositories/" +:+ name +:+ ".git"
  /\ s3.getRepoKey (name +:+ ".git") = "repositories/" +:+ name +:+ ".git"
  /\ s3.getRepoKey ("/" +:+ name +:+ "/") = "repositories/" +:+ name +:+ ".git".
Proof.
  intros Hp Hs Hgit.
  assert (Htrim : Trim name "/" = name).
  { unfold Trim. fold isSlash. destruct name as [|c name]; [reflexivity |].
    rewrite <- (append_nil_r (String c name)) at 1.
    rewrite dropWhile_no_slash, append_nil_r by (exact Hp || discriminate).
    now apply dropWhileEnd_no_slash. }
  assert (Hgit' : Trim (name +:+ ".git") "/" = name +:+ ".git").
  { unfold Trim. fold isSlash. destruct name as [|c name]; [reflexivity |].
    rewrite dropWhile_no_slash by (exact Hp || discriminate).
    now rewrite dropWhileEnd_app. }
  assert (Hslashes : Trim ("/" +:+ name +:+ "/") "/" = name).
  { unfold Trim. fold isSlash. destruct name as [|c name]; [reflexivity |].
    change ("/" +:+ String c name +:+ "/") with (String "/" (String c name +:+ "/")).
    cbn [dropWhile]. change (isSlash "/") with true. cbn iota.
    rewrite dropWhile_no_slash by (exact Hp || discriminate).
    rewrite dropWhileEnd_slash. now apply dropWhileEnd_no_slash. }
  unfold s3.getRepoKey. rewrite Htrim, Hgit', Hslashes, Hgit, HasSuffix_append.
  cbn [negb]. repeat split; now rewrite <- ?append_assoc.
Qed.

End RepoKey.

Lemma getRepoKey_three_spellings_witness :
  s3.getRepoKey "team/demo" = "repositories/" +:+ "team/demo" +:+ ".git"
  /\ s3.getRepoKey ("team/demo" +:+ ".git") = "repositories/" +:+ "team/demo" +:+ ".git"
  /\ s3.getRepoKey ("/" +:+ "team/demo" +:+ "/") = "repositories/" +:+ "team/demo" +:+ ".git".
Proof.
  apply (getRepoKey_three_spellings "team/demo").
  - reflexivity.
  - reflexivity.
  - reflexivity.
Defined.

(** ** Listings of the blob store *)

Section Listings.
Import awss3.

Lemma pagesAux_concat (room : nat) (cur keys : list string) :
  concat (pagesAux room cur keys) = rev cur ++ keys.
Proof.
  revert room cur. induction keys as [| key keys IH]; intros room cur.
  - cbn. now rewrite !app_nil_r.
  - cbn [pagesAux]. destruct room as [| room].
    + cbn [concat]. rewrite IH. reflexivity.
    + rewrite IH. cbn [rev]. now rewrite <- app_assoc.
Qed.

(** No page is empty, the first page of an empty listing apart. *)
Lemma pagesAux_nonempty (room : nat) (cur keys : list string) :
  (room = O -> cur <> []) -> cur <> [] \/ keys <> [] ->
  Forall (fun page => page <> []) (pagesAux room cur keys).
Proof.
  revert room cur. induction keys as [| key keys IH]; intros room cur Hroom Hne.
  - cbn [pagesAux]. constructor; [| constructor].
    destruct Hne as [Hc | Hk]; [| contradiction].
    destruct cur; [contradiction |]. cbn [rev]. intros E.
    now apply app_eq_nil in E as [_ E].
  - cbn [pagesAux]. destruct room as [| room].
    + constructor.
      * specialize (Hroom eq_refl). destruct cur; [contradiction |]. cbn [rev]. intros E.
        now apply app_eq_nil in E as [_ E].
      * apply IH; [discriminate | left; discriminate].
    + apply IH; [discriminate | left; discriminate].
Qed.

(** The keys listed are the keys stored in the bucket under the prefix. *)
Lemma elem_of_listKeys (c : Client) (bucket prefix key : string) :
  key ∈ listKeys c bucket prefix
  <-> is_Some (objects c !! (bucket, key)) /\ String.prefix prefix key = true.
Proof.
  unfold listKeys. rewrite merge_sort_Permutation, list_elem_of_omap. split.
  - intros ([[b k] o] & Hin & Hf). apply elem_of_map_to_list in Hin. cbn in Hf.
    destruct (bool_decide (b = bucket)) eqn:Hb; [| discriminate Hf].
    destruct (String.prefix prefix k) eqn:Hp; [| discriminate Hf].
    apply bool_decide_eq_true in Hb. cbn in Hf. injection Hf as ->. subst b.
    split; [eauto | exact Hp].
  - intros [[o Ho] Hp]. exists ((bucket, key), o). split.
    + now apply elem_of_map_to_list.
    + cbn. rewrite bool_decide_eq_true_2 by reflexivity. now rewrite Hp.
Qed.

Lemma elem_of_pages (c : Client) (bucket prefix key : string) :
  key ∈ concat (pagesAux pageSize [] (listKeys c bucket prefix))
  <-> is_Some (objects c !! (bucket, key)) /\ String.prefix prefix key = true.
Proof. rewrite pagesAux_concat. cbn [rev app]. apply elem_of_listKeys. Qed.

Lemma lookup_foldr_delete_keys (m : gmap (string * string) Object)
      (ks : list (string * string)) (j : string * string) :
  foldr delete m ks !! j = if decide (j ∈ ks) then None else m !! j.
Proof.
  induction ks as [| k ks IH]; cbn [foldr].
  - destruct (decide _) as [Hin | _]; [now apply elem_of_nil in Hin | reflexivity].
  - destruct (decide (j = k)) as [-> | Hjk].
    + rewrite lookup_delete_eq. clear IH.
      destruct (decide (k ∈ k :: ks)) as [_ | Hn]; [reflexivity |].
      destruct Hn. apply elem_of_cons. now left.
    + rewrite lookup_delete_ne by congruence. rewrite IH.
      destruct (decide (j ∈ ks)) as [Hin | Hn]; destruct (decide (j ∈ k :: ks)) as [Hin' | Hn'];
        try reflexivity.
      * destruct Hn'. apply elem_of_cons. now right.
      * apply elem_of_cons in Hin' as [-> | Hin']; contradiction.
Qed.

End Listings.

(** ** The registry on the blob store: removing a repository *)

Section RepositoryRemoval.
Import awss3.

Definition reachable (c : Client) : Prop := forall key, net c key <> RequestFails.

Lemma DeleteObjects_reachable (c : Client) (bucket : string) (keys : list string) :
  reachable c ->
  DeleteObjects c bucket keys
  = (mkClient (foldr delete (objects c) ((fun key => (bucket, key)) <$> keys)) (net c), None).
Proof.
  intros Hnet. unfold DeleteObjects.
  assert (Hno : existsb (fun key => match net c key with RequestFails => true | _ => false end)
                        keys = false).
  { induction keys as [| key keys IH]; [reflexivity |]. cbn [existsb]. rewrite IH.
    specialize (Hnet key). now destruct (net c key). }
  now rewrite Hno.
Qed.

(** Over a link on which no request fails, the loop deletes the keys of
    every page and nothing else. *)
Lemma deletePages_reachable (s3s : s3.S3Storage) (pages : list (list string)) :
  Forall (fun page => page <> []) pages ->
  forall c : Client,
    reachable c ->
    exists c', s3.deletePages s3s c pages = (c', None)
               /\ net c' = net c
               /\ (forall b k,
                     objects c' !! (b, k)
                     = if decide (b = s3.s3s_bucket s3s /\ k ∈ concat pages)
                       then None else objects c !! (b, k)).
Proof.
  induction 1 as [| page pages Hpage _ IH]; intros c Hnet.
  - exists c. split; [reflexivity |]. split; [reflexivity |]. intros b k.
    destruct (decide _) as [[_ Hin] | _]; [now apply elem_of_nil in Hin | reflexivity].
  - cbn [s3.deletePages]. destruct page as [| key page]; [contradiction |].
    cbn [length Nat.eqb]. rewrite DeleteObjects_reachable by exact Hnet.
    set (c1 := mkClient _ (net c)).
    destruct (IH c1) as (c' & -> & Hnet' & Hlook); [exact Hnet |].
    exists c'. split; [reflexivity |]. split; [exact Hnet' |]. intros b k.
    rewrite Hlook. subst c1. cbn [objects]. rewrite lookup_foldr_delete_keys.
    cbn [concat].
    destruct (decide (b = s3.s3s_bucket s3s /\ k ∈ concat pages)) as [[-> Hin] | Hn].
    + destruct (decide _) as [_ | Hn']; [reflexivity |].
      destruct Hn'. split; [reflexivity |]. apply elem_of_app. now right.
    + destruct (decide ((b, k) ∈ _)) as [Hin | Hnin].
      * apply list_elem_of_fmap in Hin as (k' & [= -> ->] & Hin).
        destruct (decide _) as [_ | Hn']; [reflexivity |].
        destruct Hn'. split; [reflexivity |]. apply elem_of_app. now left.
      * destruct (decide _) as [[-> Hin] | _]; [| reflexivity].
        apply elem_of_app in Hin as [Hin | Hin].
        -- destruct Hnin. apply list_elem_of_fmap. eauto.
        -- destruct Hn. now split.
Qed.

(** Removing a repository that exists, over a link on which no request
    fails: [DeleteRepository] succeeds, the repository does not exist
    afterwards, and the store has lost the keys of its bucket that begin
    with the key of the repository and a slash, and no other key. *)
Theorem DeleteRepository_removes (s3s : s3.S3Storage) (c : Client) (repoPath : string) :
  reachable c ->
  s3.RepositoryExists s3s c repoPath = true ->
  exists c',
    s3.DeleteRepository s3s c repoPath = (c', None)
    /\ s3.RepositoryExists s3s c' repoPath = false
    /\ (forall b k,
          objects c' !! (b, k)
          = if bool_decide (b = s3.s3s_bucket s3s)
               && String.prefix (s3.getRepoKey repoPath +:+ "/") k
            then None else objects c !! (b, k)).
Proof.
  intros Hnet Hex. unfold s3.DeleteRepository. rewrite Hex. cbn [negb].
  unfold ListObjectsV2Pages.
  set (prefix := s3.getRepoKey repoPath +:+ "/").
  set (pages := pagesAux pageSize [] (listKeys c (s3.s3s_bucket s3s) prefix)).
  assert (Hhead : String.prefix prefix (s3.getRepoKey repoPath +:+ "/HEAD") = true).
  { change (s3.getRepoKey repoPath +:+ "/HEAD")
      with (s3.getRepoKey repoPath +:+ ("/" +:+ "HEAD")).
    rewrite <- append_assoc. apply HasPrefix_append. }
  assert (Hlisted : (s3.getRepoKey repoPath +:+ "/HEAD") ∈ concat pages).
  { apply elem_of_pages. split; [| exact Hhead].
    unfold s3.RepositoryExists, HeadObject in Hex.
    destruct (objects c !! _); [eauto |]. now destruct (net c _). }
  assert (Hpages : Forall (fun page => page <> []) pages).
  { apply pagesAux_nonempty; [discriminate |]. right. intros E.
    subst pages. rewrite pagesAux_concat, E in Hlisted. now apply elem_of_nil in Hlisted. }
  destruct (deletePages_reachable s3s pages Hpages c Hnet) as (c' & Hdel & Hnet' & Hlook).
  assert (Hlook' : forall b k,
             objects c' !! (b, k)
             = if bool_decide (b = s3.s3s_bucket s3s) && String.prefix prefix k
               then None else objects c !! (b, k)).
  { intros b k. rewrite Hlook.
    destruct (decide _) as [[-> Hin] | Hn].
    - apply elem_of_pages in Hin as [_ ->].
      now rewrite bool_decide_eq_true_2.
    - destruct (bool_decide (b = s3.s3s_bucket s3s)) eqn:Hb; [| reflexivity].
      destruct (String.prefix prefix k) eqn:Hp; [| reflexivity]. cbn [andb].
      apply bool_decide_eq_true in Hb. subst b.
      destruct (objects c !! (s3.s3s_bucket s3s, k)) as [o |] eqn:Ho; [| reflexivity].
      destruct Hn. split; [reflexivity |]. apply elem_of_pages. eauto. }
  exists c'. split.
  { specialize (Hnet prefix). now destruct (net c prefix). }
  split; [| exact Hlook'].
  unfold s3.RepositoryExists, HeadObject. rewrite Hlook', Hhead.
  rewrite bool_decide_eq_true_2 by reflexivity. cbn [andb].
  now destruct (net c' _).
Qed.

End RepositoryRemoval.

Lemma DeleteRepository_removes_witness :
  let c :=
    fst (s3.CreateRepository (H := sampleGoGit) (s3.mkS3Storage "git") emptyClient "demo" 0 0) in
  exists c',
    s3.DeleteRepository (s3.mkS3Storage "git") c "/demo/" = (c', None)
    /\ s3.RepositoryExists (s3.mkS3Storage "git") c' "/demo/" = false
    /\ (forall b k,
          awss3.objects c' !! (b, k)
          = if bool_decide (b = s3.s3s_bucket (s3.mkS3Storage "git"))
               && String.prefix (s3.getRepoKey "/demo/" +:+ "/") k
            then None else awss3.objects c !! (b, k)).
Proof.
  apply (DeleteRepository_removes (s3.mkS3Storage "git")
           (fst (s3.CreateRepository (H := sampleGoGit) (s3.mkS3Storage "git")
                   emptyClient "demo" 0 0)) "/demo/").
  - intros key. vm_compute. discriminate.
  - vm_compute. reflexivity.
Defined.

(** Created, removed, created again: the second creation succeeds. *)
Example create_delete_create :
  let s3s := s3.mkS3Storage "git" in
  let c1 := fst (s3.CreateRepository (H := sampleGoGit) s3s emptyClient "demo" 0 0) in
  let c2 := fst (s3.DeleteRepository s3s c1 "demo.git") in
  awss3.listKeys c2 "git" "" = []
  /\ snd (s3.DeleteRepository s3s c2 "demo")
     = Some (ErrorString "repository does not exist")
  /\ snd (s3.CreateRepository (H := sampleGoGit) s3s c2 "demo" 1 1) = None.
Proof. vm_compute. repeat split; reflexivity. Qed.

(** ** The remote back end: listing the references *)

Section ReferenceListing.
Context `{GoGit}.
Import awss3 plumbing.

(** A page whose keys are all as long as the key of the repository is run
    through without a panic; the references grow at the end, and every key
    whose reference can be read contributes it. *)
Lemma iterPage_spec (s : s3.S3Storer) (c : Client) (keys : list string) :
  Forall (fun key => is_Some (s3.refNameOfKey s key)) keys ->
  forall refs,
    exists more,
      s3.iterPage s c keys refs = Some (refs ++ more)
      /\ (forall key n r, key ∈ keys -> s3.refNameOfKey s key = Some n ->
            s3.Reference s c n = inr r -> r ∈ more).
Proof.
  induction 1 as [| key keys [n Hn] _ IH]; intros refs.
  - exists []. split; [cbn; now rewrite app_nil_r |].
    intros key n r Hin. now apply elem_of_nil in Hin.
  - cbn [s3.iterPage]. rewrite Hn.
    destruct (s3.Reference s c n) as [err | ref] eqn:Href.
    + destruct (IH refs) as (more & -> & Hmore). exists more. split; [reflexivity |].
      intros key' n' r Hin Hn' Hr. apply elem_of_cons in Hin as [-> | Hin]; [| eauto].
      congruence.
    + destruct (IH (refs ++ [ref])) as (more & -> & Hmore). exists (ref :: more).
      split; [now rewrite <- app_assoc |].
      intros key' n' r Hin Hn' Hr. apply elem_of_cons in Hin as [-> | Hin].
      * assert (n' = n) by congruence. subst n'.
        assert (r = ref) by congruence. subst r. apply elem_of_cons. now left.
      * apply elem_of_cons. right. eauto.
Qed.

Lemma iterPages_spec (s : s3.S3Storer) (c : Client) (pages : list (list string)) :
  Forall (fun key => is_Some (s3.refNameOfKey s key)) (concat pages) ->
  forall refs,
    exists more,
      s3.iterPages s c pages refs = Some (refs ++ more)
      /\ (forall key n r, key ∈ concat pages -> s3.refNameOfKey s key = Some n ->
            s3.Reference s c n = inr r -> r ∈ more).
Proof.
  induction pages as [| page pages IH]; intros Hall refs.
  - exists []. split; [cbn; now rewrite app_nil_r |].
    intros key n r Hin. now apply elem_of_nil in Hin.
  - cbn [concat] in Hall. apply Forall_app in Hall as [Hpage Hrest].
    cbn [s3.iterPages].
    destruct (iterPage_spec s c page Hpage refs) as (more1 & -> & Hmore1).
    destruct (IH Hrest (refs ++ more1)) as (more2 & -> & Hmore2).
    exists (more1 ++ more2). split; [now rewrite <- app_assoc |].
    intros key n r Hin Hn Hr. cbn [concat] in Hin.
    apply elem_of_app in Hin as [Hin | Hin]; apply elem_of_app; eauto.
Qed.

Lemma prefix_split (p s : string) :
  String.prefix p s = true -> exists t, s = p +:+ t.
Proof.
  revert s. induction p as [|x p IH]; intros s Hp; [now exists s |].
  destruct s as [|y s]; [discriminate Hp |]. cbn in Hp.
  destruct (ascii_dec x y) as [-> |]; [| discriminate Hp].
  destruct (IH s Hp) as (t & ->). now exists t.
Qed.

(** A reference that can be read under a name of the name space [refs/] is
    listed.  For a storer whose repository key is a clean path, so that the
    prefix of the listing is that key followed by [/refs] and the key of
    the name is that key, a slash and the name: [IterReferences] returns
    without an error, the list begins with [HEAD] when [HEAD] can be read,
    it holds the reference, and [CountLooseRefs] is its length. *)
Theorem IterReferences_lists_reference
        (s : s3.S3Storer) (c : Client) (n : ReferenceName) (r : Reference) :
  net c (s3.getObjectKey s "refs/") <> RequestFails ->
  s3.getObjectKey s "refs/" = s3.getObjectKey s "" +:+ "/refs" ->
  strings.HasPrefix n "refs/" = true ->
  s3.readRefKey s n = s3.getObjectKey s "" +:+ "/" +:+ n ->
  s3.Reference s c n = inr r ->
  exists refs,
    s3.IterReferences s c = Some (inr refs)
    /\ r ∈ refs
    /\ (forall head, s3.Reference s c HEAD = inr head -> refs !! 0%nat = Some head)
    /\ s3.CountLooseRefs s c = Some (Z.of_nat (length refs), None).
Proof.
  intros Hnet Hclean Hn Hkey Href.
  set (base := s3.getObjectKey s "") in *.
  set (pages := pagesAux pageSize [] (listKeys c (s3.bucket s) (s3.getObjectKey s "refs/"))).
  assert (Hnames : Forall (fun key => is_Some (s3.refNameOfKey s key)) (concat pages)).
  { apply Forall_forall. intros key Hin. apply elem_of_pages in Hin as [_ Hp].
    apply prefix_length in Hp. rewrite Hclean, length_append in Hp.
    unfold s3.refNameOfKey. fold base.
    destruct (Nat.ltb_spec (String.length key) (String.length base)); [lia | eauto]. }
  assert (Hlisted : (base +:+ "/" +:+ n) ∈ concat pages).
  { apply elem_of_pages. split.
    - unfold s3.Reference, GetObject in Href. rewrite Hkey in Href.
      destruct (objects c !! _); [eauto |].
      destruct (net c (base +:+ "/" +:+ n)); discriminate Href.
    - rewrite Hclean. apply prefix_split in Hn as (n' & ->).
      change (base +:+ "/" +:+ "refs/" +:+ n') with (base +:+ ("/refs" +:+ ("/" +:+ n'))).
      rewrite <- append_assoc. apply HasPrefix_append. }
  assert (Hname : s3.refNameOfKey s (base +:+ "/" +:+ n) = Some n).
  { unfold s3.refNameOfKey. fold base.
    destruct (Nat.ltb_spec (String.length (base +:+ "/" +:+ n)) (String.length base)) as [Hlt | _].
    - rewrite length_append in Hlt. lia.
    - now rewrite sliceFrom_append, (HasPrefix_append "/" n). }
  unfold s3.CountLooseRefs, s3.IterReferences, ListObjectsV2Pages.
  set (refs0 := match s3.Reference s c HEAD with inr headRef => [headRef] | inl _ => [] end).
  destruct (iterPages_spec s c pages Hnames refs0) as (more & Hiter & Hmore).
  exists (refs0 ++ more).
  assert (Hrun : match net c (s3.getObjectKey s "refs/") with
                 | RequestFails => inl errRequest
                 | _ => inr pages
                 end = inr pages) by (now destruct (net c _)).
  fold pages. rewrite Hrun, Hiter.
  split; [reflexivity |]. split; [| split; [| reflexivity]].
  - apply elem_of_app. right. eapply Hmore; eauto.
  - intros head Hhead. subst refs0. now rewrite Hhead.
Qed.

End ReferenceListing.

Lemma IterReferences_lists_reference_witness :
  exists refs,
    s3.IterReferences (H := sampleGoGit) demoStorer storeA = Some (inr refs)
    /\ mainA ∈ refs
    /\ (forall head,
          s3.Reference (H := sampleGoGit) demoStorer storeA plumbing.HEAD = inr head ->
          refs !! 0%nat = Some head)
    /\ s3.CountLooseRefs (H := sampleGoGit) demoStorer storeA
       = Some (Z.of_nat (length refs), None).
Proof.
  apply (IterReferences_lists_reference (H := sampleGoGit) demoStorer storeA
           "refs/heads/main" mainA).
  - vm_compute. discriminate.
  - reflexivity.
  - reflexivity.
  - reflexivity.
  - reflexivity.
Defined.

(** The references of a repository that was just created: [HEAD], which
    points to the branch, and the branch. *)
Example references_of_new_repository :
  let c := fst (s3.CreateRepository (H := sampleGoGit) (s3.mkS3Storage "git")
                  emptyClient "demo" 0 0) in
  exists commit,
    s3.IterReferences (H := sampleGoGit) demoStorer c
    = Some (inr [plumbing.NewSymbolicReference "HEAD" "refs/heads/main";
                 plumbing.NewHashReference "refs/heads/main" commit])
    /\ s3.CountLooseRefs (H := sampleGoGit) demoStorer c = Some (2%Z, None).
Proof. eexists. vm_compute. split; reflexivity. Qed.

(** ** SSH: the command line of a Git client *)

Section GitCommands.
Import strings.

(** A byte of a repository path as a client sends it between quotes:
    ASCII, no white space, no quote, no colon. *)
Definition nameByte (c : ascii) : bool :=
  plain c && negb (containsChar quotes c) && negb (Ascii.eqb c ":").

Fixpoint nameBytes (s : string) : bool :=
  match s with
  | EmptyString => true
  | String c s' => nameByte c && nameBytes s'
  end.

Lemma nameBytes_allPlain (s : string) : nameBytes s = true -> allPlain s = true.
Proof.
  induction s as [|c s IH]; [reflexivity |]. cbn [nameBytes allPlain]. unfold nameByte.
  intros Hs. apply andb_prop in Hs as [Hc Hs]. apply andb_prop in Hc as [Hc _].
  apply andb_prop in Hc as [-> _]. now apply IH.
Qed.

Lemma fieldsAux_plain (cur : string) (c : ascii) (s : string) :
  plain c = true -> fieldsAux cur (String c s) = fieldsAux (String c cur) s.
Proof.
  intros Hc. apply plain_byte in Hc as [Hlt Hs]. cbn [fieldsAux]. rewrite Hs.
  destruct s as [|c2 s2]; [reflexivity |].
  destruct (isSpace2 c c2) eqn:E2; [apply isSpace2_bytes in E2; lia |].
  destruct s2 as [|c3 s3]; [reflexivity |].
  destruct (isSpace3 c c2 c3) eqn:E3; [apply isSpace3_bytes in E3; lia |].
  reflexivity.
Qed.

Lemma fieldsAux_run (w cur rest : string) :
  allPlain w = true -> fieldsAux cur (w +:+ rest) = fieldsAux (String.rev_app w cur) rest.
Proof.
  revert cur. induction w as [|c w IH]; intros cur Hw; [reflexivity |].
  cbn [allPlain] in Hw. apply andb_prop in Hw as [Hc Hw].
  rewrite append_cons, fieldsAux_plain by exact Hc. now apply IH.
Qed.

Lemma flushField_run (w : string) (rest : list string) :
  w <> "" -> flushField (String.rev_app w "") rest = w :: rest.
Proof.
  intros Hw. pose proof (rev_rev_app w) as Hrev. unfold flushField.
  destruct (String.rev_app w "") eqn:E; [| now rewrite Hrev].
  cbn in Hrev. congruence.
Qed.

(** Two words of plain bytes with a space between them are two fields. *)
Lemma Fields_two (a b : string) :
  allPlain a = true -> a <> "" -> allPlain b = true -> b <> "" ->
  Fields (a +:+ " " +:+ b) = [a; b].
Proof.
  intros Ha Hane Hb Hbne. unfold Fields.
  rewrite fieldsAux_run by exact Ha.
  change (" " +:+ b) with (String " " b). cbn [fieldsAux].
  change (isSpace " ") with true. cbn iota.
  rewrite <- (append_nil_r b), fieldsAux_run by exact Hb. cbn [fieldsAux].
  rewrite !flushField_run by assumption. now rewrite append_nil_r.
Qed.

Lemma TrimSpace_two (a b : string) :
  allPlain a = true -> a <> "" -> allPlain b = true -> b <> "" ->
  TrimSpace (a +:+ " " +:+ b) = a +:+ " " +:+ b.
Proof.
  intros Ha Hane Hb Hbne. unfold TrimSpace.
  pose proof (TrimSpace_fixed b (TrimSpace_allPlain b Hb)) as [Hbl Hbr].
  assert (Hl : trimLeft (a +:+ " " +:+ b) = a +:+ " " +:+ b).
  { destruct a as [|c a]; [contradiction |]. cbn [allPlain] in Ha.
    apply andb_prop in Ha as [Hc _]. rewrite append_cons. now apply trimLeft_plain. }
  rewrite Hl, trimRight_allPlain_app by exact Ha.
  change (" " +:+ b) with (String " " b).
  rewrite trimRight_cons; [now rewrite Hbr |].
  cbn [trimLeft]. change (isSpace " ") with true. cbn iota. now rewrite Hbl.
Qed.

Lemma TrimSpace_leading_space (b : string) :
  allPlain b = true -> TrimSpace (" " +:+ b) = b.
Proof.
  intros Hb. pose proof (TrimSpace_fixed b (TrimSpace_allPlain b Hb)) as [Hbl Hbr].
  unfold TrimSpace. change (" " +:+ b) with (String " " b). cbn [trimLeft].
  change (isSpace " ") with true. cbn iota. now rewrite Hbl.
Qed.

Lemma nameByte_not_quote (c : ascii) : nameByte c = true -> containsChar quotes c = false.
Proof.
  unfold nameByte. intros Hc. apply andb_prop in Hc as [Hc _].
  apply andb_prop in Hc as [_ Hc]. now apply negb_true_iff in Hc.
Qed.

Lemma nameByte_not_colon (c : ascii) : nameByte c = true -> Ascii.eqb c ":" = false.
Proof.
  unfold nameByte. intros Hc. apply andb_prop in Hc as [_ Hc]. now apply negb_true_iff in Hc.
Qed.

Lemma dropWhileEnd_quote (s : string) :
  nameBytes s = true -> s <> "" ->
  dropWhileEnd (containsChar quotes) (s +:+ "'") = s.
Proof.
  induction s as [|c s IH]; intros Hs Hne; [contradiction |].
  cbn [nameBytes] in Hs. apply andb_prop in Hs as [Hc Hs].
  rewrite append_cons. cbn [dropWhileEnd]. destruct s as [|d s].
  - rewrite append_nil_l. cbn [dropWhileEnd].
    change (containsChar quotes "'") with true. cbn iota.
    now rewrite nameByte_not_quote.
  - rewrite IH by (exact Hs || discriminate). reflexivity.
Qed.

(** The argument between quotes, its quotes removed. *)
Lemma Trim_quoted (s : string) :
  nameBytes s = true -> s <> "" -> Trim ("'" +:+ s +:+ "'") quotes = s.
Proof.
  intros Hs Hne. unfold Trim. change ("'" +:+ s +:+ "'") with (String "'" (s +:+ "'")).
  cbn [dropWhile]. change (containsChar quotes "'") with true. cbn iota.
  destruct s as [|c s]; [contradiction |].
  assert (Hc : containsChar quotes c = false).
  { cbn [nameBytes] in Hs. apply andb_prop in Hs as [Hc _]. now apply nameByte_not_quote. }
  rewrite append_cons. cbn [dropWhile]. rewrite Hc. rewrite <- append_cons.
  now apply dropWhileEnd_quote.
Qed.

Lemma indexFrom_no_colon (i : Z) (s : string) :
  nameBytes s = true -> indexFrom i s ":" = (-1)%Z.
Proof.
  revert i. induction s as [|c s IH]; intros i Hs; [reflexivity |].
  cbn [nameBytes] in Hs. apply andb_prop in Hs as [Hc Hs].
  apply nameByte_not_colon in Hc. cbn [indexFrom String.prefix].
  destruct (ascii_dec ":" c) as [<- | _]; [discriminate Hc |]. now apply IH.
Qed.

Lemma nameBytes_slash (s : string) : nameBytes s = true -> nameBytes ("/" +:+ s) = true.
Proof. intros Hs. change ("/" +:+ s) with (String "/" s). cbn [nameBytes]. now rewrite Hs. Qed.

(** The command a Git client sends for a repository, [<service>
    '/<path>'], is read by the two SSH servers as the same service and the
    same repository: for either service and every path of bytes that are
    ASCII and neither white space, quotes nor colons, the first server
    splits the command into the service and the quoted argument and makes
    of the argument the normalized path, and the second server returns
    the service and the normalized path. *)
Theorem git_command_round_trip (service name : string) :
  service = "git-upload-pack" \/ service = "git-receive-pack" ->
  nameBytes name = true -> name <> "" ->
  let arg := "'" +:+ ("/" +:+ name) +:+ "'" in
  let cmd := service +:+ " " +:+ arg in
  sshconfig.parseGitCommand cmd = (service, arg)
  /\ sshconfig.repoPathFromSSHArg arg = common.NormalizeRepoPath name
  /\ gitssh.parseGitCommand cmd = (service, common.NormalizeRepoPath name).
Proof.
  intros Hservice Hname Hne arg cmd.
  assert (Hsl : nameBytes ("/" +:+ name) = true) by now apply nameBytes_slash.
  assert (Harg : allPlain arg = true).
  { subst arg. change ("'" +:+ ("/" +:+ name) +:+ "'")
      with (String "'" (String "/" (name +:+ "'"))).
    cbn [allPlain]. change (plain "'") with true. change (plain "/") with true. cbn [andb].
    clear - Hname. induction name as [|c name IH]; [reflexivity |].
    cbn [nameBytes] in Hname. apply andb_prop in Hname as [Hc Hname].
    rewrite append_cons. cbn [allPlain]. rewrite IH by exact Hname.
    unfold nameByte in Hc. apply andb_prop in Hc as [Hc _]. apply andb_prop in Hc as [-> _].
    reflexivity. }
  assert (Hargne : arg <> "") by discriminate.
  assert (Hsvc : allPlain service = true /\ service <> "").
  { destruct Hservice as [-> | ->]; split; (reflexivity || discriminate). }
  destruct Hsvc as [Hsvc Hsvcne].
  assert (Htrim : TrimSpace cmd = cmd) by now apply TrimSpace_two.
  assert (Hcmdne : String.eqb cmd "" = false).
  { apply String.eqb_neq. subst cmd. destruct Hservice as [-> | ->]; discriminate. }
  assert (Hquoted : Trim arg quotes = "/" +:+ name).
  { subst arg. apply Trim_quoted; [exact Hsl | discriminate]. }
  assert (Hcolon : TrimPrefix ("/" +:+ name) ":" = "/" +:+ name) by reflexivity.
  assert (Hslash : TrimPrefix ("/" +:+ name) "/" = name).
  { unfold TrimPrefix. now rewrite (HasPrefix_append "/" name). }
  split; [| split].
  - unfold sshconfig.parseGitCommand. rewrite Htrim, Hcmdne.
    destruct Hservice as [-> | ->].
    + subst cmd. rewrite HasPrefix_append. unfold TrimPrefix. rewrite HasPrefix_append.
      now rewrite sliceFrom_append, TrimSpace_leading_space.
    + subst cmd.
      change (HasPrefix ("git-receive-pack" +:+ " " +:+ arg) "git-upload-pack") with false.
      cbn iota. rewrite HasPrefix_append. unfold TrimPrefix. rewrite HasPrefix_append.
      now rewrite sliceFrom_append, TrimSpace_leading_space.
  - unfold sshconfig.repoPathFromSSHArg. cbv zeta.
    rewrite (TrimSpace_allPlain arg Harg), Hquoted, Hcolon.
    unfold Index. rewrite indexFrom_no_colon by exact Hsl.
    change (0 <=? -1)%Z with false. cbn iota. rewrite Hslash.
    apply String.eqb_neq in Hne. now rewrite Hne.
  - unfold gitssh.parseGitCommand. rewrite Htrim, Hcmdne.
    subst cmd. rewrite Fields_two by assumption.
    cbn [Join]. unfold gitssh.extractRepoPath. rewrite Hquoted, Hslash.
    unfold Contains, Index. rewrite indexFrom_no_colon by exact Hname.
    reflexivity.
Qed.

End GitCommands.

Lemma git_command_round_trip_witness :
  let arg := "'" +:+ ("/" +:+ "team/demo.git") +:+ "'" in
  let cmd := "git-upload-pack" +:+ " " +:+ arg in
  sshconfig.parseGitCommand cmd = ("git-upload-pack", arg)
  /\ sshconfig.repoPathFromSSHArg arg = common.NormalizeRepoPath "team/demo.git"
  /\ gitssh.parseGitCommand cmd = ("git-upload-pack", common.NormalizeRepoPath "team/demo.git").
Proof.
  apply (git_command_round_trip "git-upload-pack" "team/demo.git").
  - left. reflexivity.
  - reflexivity.
  - discriminate.
Defined.
